(** * The site-visit report form controller, static/main.js

    A shallow embedding of the browser-side controller: the pending-items
    store, the list rendering, the add-item handler with its photo
    encoding, the submission handler with its downloads, and the start-up
    wiring.  Handlers are functions on an explicit [World] (the globals on
    [window] plus the part of the document the script addresses); every
    observable effect (notification calls, console output, network
    requests, download activations) is appended to one trace. *)

From Stdlib Require Import ZArith Lia Ascii String.
From stdpp Require Import base list strings gmap.

(** ** JavaScript strings and numbers

    Strings are sequences of code units below 256.  A [Number] that
    [parseInt] yields is modelled by the integer the numeral denotes;
    [-0] and [+0] are both [Num 0] (both are falsy).  The script holds
    that integer as a double, which is the same number exactly when the
    integer is a safe one ([isSafeInteger]): beyond that the double is the
    nearest representable value, and its text has rounded digits or an
    exponent.  Properties about the value or the text of a number are
    stated for safe integers. *)
Module JS.

Inductive Number : Type :=
  | NaN
  | Num (z : Z).

(** [Number.MAX_SAFE_INTEGER] and [Number.isSafeInteger] on integers. *)
Definition MAX_SAFE_INTEGER : Z := (2 ^ 53 - 1)%Z.

Definition isSafeInteger (z : Z) : Prop :=
  (- MAX_SAFE_INTEGER <= z <= MAX_SAFE_INTEGER)%Z.

(** [a || b] on numbers, with a number as the fallback. *)
Definition orNumber (a : Number) (b : Z) : Z :=
  match a with
  | NaN => b
  | Num z => if (z =? 0)%Z then b else z
  end.

(** [s || d] on strings: the empty string is the only falsy one. *)
Definition orString (s d : string) : string :=
  match s with
  | EmptyString => d
  | _ => s
  end.

Definition truthyString (s : string) : bool :=
  match s with
  | EmptyString => false
  | _ => true
  end.

Definition code (c : ascii) : Z := Z.of_nat (nat_of_ascii c).

(** StrWhiteSpaceChar, restricted to code units below 256. *)
Definition isWhiteSpace (c : ascii) : bool :=
  let n := code c in
  ((9 <=? n) && (n <=? 13) || (n =? 32) || (n =? 160))%Z.

Fixpoint trimStart (s : string) : string :=
  match s with
  | EmptyString => EmptyString
  | String c r => if isWhiteSpace c then trimStart r else s
  end.

(** The value of a character as a digit, for radices up to 36. *)
Definition digitValue (c : ascii) : option Z :=
  let n := code c in
  if ((48 <=? n) && (n <=? 57))%Z then Some (n - 48)%Z
  else if ((97 <=? n) && (n <=? 122))%Z then Some (n - 87)%Z
  else if ((65 <=? n) && (n <=? 90))%Z then Some (n - 55)%Z
  else None.

(** The longest prefix of radix-[radix] digits, read most significant
    digit first; [seen] records that at least one digit was read. *)
Fixpoint scanDigits (radix : Z) (s : string) (seen : bool) (acc : Z) : option Z :=
  match s with
  | EmptyString => if seen then Some acc else None
  | String c r =>
      match digitValue c with
      | Some d =>
          if (d <? radix)%Z then scanDigits radix r true (acc * radix + d)%Z
          else if seen then Some acc else None
      | None => if seen then Some acc else None
      end
  end.

(** [parseInt(s)] with the radix left out: leading white space is
    skipped, one sign is read, a [0x]/[0X] prefix selects radix 16, and the
    longest digit prefix is the value; no digit at all gives [NaN].  The
    value is the integer the digits denote (the [mathInt] of the language
    definition), which is what the script gets when it is a safe integer. *)
Definition parseInt (s : string) : Number :=
  let s1 := trimStart s in
  let '(neg, s2) :=
    match s1 with
    | String "-"%char r => (true, r)
    | String "+"%char r => (false, r)
    | _ => (false, s1)
    end in
  let '(radix, s3) :=
    match s2 with
    | String "0"%char (String "x"%char r) => (16%Z, r)
    | String "0"%char (String "X"%char r) => (16%Z, r)
    | _ => (10%Z, s2)
    end in
  match scanDigits radix s3 false 0 with
  | None => NaN
  | Some v => Num (if neg then - v else v)
  end.

(** Decimal digits of a non-negative integer, least significant first. *)
Fixpoint digitsLE (fuel : nat) (n : Z) : list Z :=
  match fuel with
  | O => []
  | S f => (n mod 10)%Z :: (if (n <? 10)%Z then [] else digitsLE f (n / 10)%Z)
  end.

Definition digitChar (d : Z) : ascii := ascii_of_nat (Z.to_nat (48 + d)).

Definition digitsToString (l : list Z) : string :=
  fold_left (fun acc d => String (digitChar d) acc) l EmptyString.

Definition natToString (n : Z) : string :=
  digitsToString (digitsLE (S (Z.to_nat (Z.log2 n + 1))) n).

(** [String(n)], also [${n}] in a template literal, for a safe integer:
    its decimal digits, after a minus sign when it is negative.  (Past the
    safe integers the script prints the digits of the double, and from
    1e21 on an exponent.) *)
Definition numberToString (n : Number) : string :=
  match n with
  | NaN => "NaN"
  | Num z => if (z <? 0)%Z then "-" +:+ natToString (- z) else natToString z
  end.

(** [Array.prototype.splice(start, 1)]: [NaN] counts as 0, a negative
    start counts from the end (clamped at 0), a start past the end removes
    nothing. *)
Definition splice1 {A} (start : Number) (l : list A) : list A :=
  let len := Z.of_nat (length l) in
  let rel := match start with NaN => 0%Z | Num z => z end in
  let actual := if (rel <? 0)%Z then Z.max (len + rel) 0 else Z.min rel len in
  delete (Z.to_nat actual) l.

(** The double quote and the line feed, for the markup templates. *)
Definition dq : string := String (ascii_of_nat 34) EmptyString.
Definition nl : string := String (ascii_of_nat 10) EmptyString.

End JS.

Export JS.

(** ** Data model *)

(** One defect line of the report, as [handleAddItem] builds it. *)
Record ReportItem : Type := {
  asset : string;
  system : string;
  description : string;
  quantity : Z;
  brand : string;
  comments : string;
  photoFiles : list string
}.

(** A selected file and what a [FileReader] reports for it:
    [inl dataURL] when it fires [onload], [inr error] when it fires
    [onerror]. *)
Record File : Type := {
  fileName : string;
  readAsDataURL : string + string
}.

(** A value stored in the request body. *)
Inductive Value : Type :=
  | VStr (s : string)
  | VItems (items : list ReportItem).

(** Observable effects, in the order they happen. *)
Inductive Event : Type :=
  | Notify (kind title message : string)
  | ModalShown
  | ConsoleError (text : string)
  | ConsoleWarn (text : string)
  | PreventDefault
  | DropdownsInitialized
  | Post (url : string) (body : gmap string Value) (contentType : string)
  | LinkClicked (href download : string).

(** A rendered [div.report-item]: its [data-index] attribute, its markup
    and the [data-index] attribute of its remove button.  The markup
    parser is not modelled; item fields are taken to carry no markup of
    their own, so a row holds exactly the one button of the template. *)
Record Row : Type := {
  rowIndex : string;
  rowHtml : string;
  rowButton : string
}.

(** A child of [#pendingItemsList]: the [#emptyListMessage] element with
    its [style.display], a rendered row, or markup the page shipped. *)
Inductive Child : Type :=
  | Placeholder (display : string)
  | ItemRow (r : Row)
  | Foreign.

(** The modal scaffold: [#customAlertModal] with the [className] of its
    [.modal-content] descendant when it has one, and the title and body
    elements with their [innerHTML]. *)
Record ModalScaffold : Type := {
  customAlertModal : option (option string);
  customAlertTitle : option string;
  customAlertBody : option string
}.

(** [#pendingItemsList] with its children, and [#emptyListMessage] when it
    sits in the document outside that container (with its
    [style.display]).  An element in neither place is not in the document:
    [getElementById] does not find it. *)
Record ListRegion : Type := {
  pendingItemsList : option (list Child);
  emptyListMessage : option string
}.

(** The [value] of the six item controls. *)
Record ItemControls : Type := {
  assetSelect : string;
  systemSelect : string;
  descriptionSelect : string;
  quantityInput : string;
  brandInput : string;
  commentsTextarea : string
}.

(** The add-item controls.  [itemControls] is [None] when one of the six
    value controls is missing: [handleAddItem] reads all six before it
    does anything else.  [addItemButton] counts the click listeners. *)
Record AddRegion : Type := {
  itemControls : option ItemControls;
  photoInput : option (list File);
  addItemButton : option nat
}.

(** [#submission-alert]: its class list and text. *)
Record Alert : Type := {
  classList : list string;
  textContent : string
}.

Record SubmitRegion : Type := {
  status : option string;
  submission_alert : option Alert;
  downloadArea : option string;
  techSignatureData : option string;
  opManSignatureData : option string;
  visitForm : option (list (string * string))
}.

(** The signature canvases and the pads built on them; a pad is
    represented by what its [isEmpty()] reports. *)
Record Pads : Type := {
  techSignaturePad : bool;
  opManSignaturePad : bool;
  techPad : option bool;
  opManPad : option bool
}.

(** A temporary download anchor. *)
Record Anchor : Type := {
  href : string;
  download : string;
  display : string
}.

(** The anchors appended to [document.body], each with its node identity,
    and the zero-delay timers waiting to run, oldest first; a timer is
    represented by the node its callback clicks and removes. *)
Record Loop : Type := {
  bodyLinks : list (nat * Anchor);
  nextNode : nat;
  timers : list nat
}.

Record World : Type := {
  pendingItems : list ReportItem;
  pads : Pads;
  initializeDropdowns : bool;
  modal : ModalScaffold;
  listRegion : ListRegion;
  addRegion : AddRegion;
  submitRegion : SubmitRegion;
  loop : Loop;
  trace : list Event
}.

Definition setPendingItems (v : list ReportItem) (w : World) : World :=
  {| pendingItems := v; pads := pads w;
     initializeDropdowns := initializeDropdowns w; modal := modal w;
     listRegion := listRegion w; addRegion := addRegion w;
     submitRegion := submitRegion w; loop := loop w; trace := trace w |}.

Definition setPads (v : Pads) (w : World) : World :=
  {| pendingItems := pendingItems w; pads := v;
     initializeDropdowns := initializeDropdowns w; modal := modal w;
     listRegion := listRegion w; addRegion := addRegion w;
     submitRegion := submitRegion w; loop := loop w; trace := trace w |}.

Definition setModal (v : ModalScaffold) (w : World) : World :=
  {| pendingItems := pendingItems w; pads := pads w;
     initializeDropdowns := initializeDropdowns w; modal := v;
     listRegion := listRegion w; addRegion := addRegion w;
     submitRegion := submitRegion w; loop := loop w; trace := trace w |}.

Definition setListRegion (v : ListRegion) (w : World) : World :=
  {| pendingItems := pendingItems w; pads := pads w;
     initializeDropdowns := initializeDropdowns w; modal := modal w;
     listRegion := v; addRegion := addRegion w;
     submitRegion := submitRegion w; loop := loop w; trace := trace w |}.

Definition setAddRegion (v : AddRegion) (w : World) : World :=
  {| pendingItems := pendingItems w; pads := pads w;
     initializeDropdowns := initializeDropdowns w; modal := modal w;
     listRegion := listRegion w; addRegion := v;
     submitRegion := submitRegion w; loop := loop w; trace := trace w |}.

Definition setSubmitRegion (v : SubmitRegion) (w : World) : World :=
  {| pendingItems := pendingItems w; pads := pads w;
     initializeDropdowns := initializeDropdowns w; modal := modal w;
     listRegion := listRegion w; addRegion := addRegion w;
     submitRegion := v; loop := loop w; trace := trace w |}.

Definition setLoop (v : Loop) (w : World) : World :=
  {| pendingItems := pendingItems w; pads := pads w;
     initializeDropdowns := initializeDropdowns w; modal := modal w;
     listRegion := listRegion w; addRegion := addRegion w;
     submitRegion := submitRegion w; loop := v; trace := trace w |}.

Definition setTrace (v : list Event) (w : World) : World :=
  {| pendingItems := pendingItems w; pads := pads w;
     initializeDropdowns := initializeDropdowns w; modal := modal w;
     listRegion := listRegion w; addRegion := addRegion w;
     submitRegion := submitRegion w; loop := loop w; trace := v |}.

(** ** Handlers as state transformers that may throw *)

(** What the error object of a failed request carries in
    [error.response.data]: nothing truthy, or a value whose [message]
    property may or may not be there. *)
Inductive ResponseBody : Type :=
  | NoData
  | Data (message : option string).

(** The error a rejected [axios.post] hands over: [error.message] and
    [error.response], when the server answered at all. *)
Record AxiosError : Type := {
  errorMessage : string;
  errorResponse : option ResponseBody
}.

(** What can be thrown, or can reject a promise: the [TypeError] of a
    property access on [null] (named after the element that was not found,
    the one exception the script raises by itself), the error event of a
    file read, and the error of a failed request. *)
Inductive JSError : Type :=
  | TypeError (element : string)
  | ReadFailure (reason : string)
  | RequestFailure (e : AxiosError).

Inductive Outcome (A : Type) : Type :=
  | Normal (a : A) (w : World)
  | Thrown (e : JSError) (w : World).
Arguments Normal {A} a w.
Arguments Thrown {A} e w.

Definition worldOf {A} (o : Outcome A) : World :=
  match o with
  | Normal _ w => w
  | Thrown _ w => w
  end.

Definition returned {A} (o : Outcome A) : bool :=
  match o with
  | Normal _ _ => true
  | Thrown _ _ => false
  end.

Definition M (A : Type) : Type := World -> Outcome A.

#[global] Instance M_ret : MRet M := fun A a w => Normal a w.
#[global] Instance M_bind : MBind M := fun A B f m w =>
  match m w with
  | Normal a w' => f a w'
  | Thrown e w' => Thrown e w'
  end.

Definition get : M World := fun w => Normal w w.
Definition modify (f : World -> World) : M unit := fun w => Normal tt (f w).
Definition throw {A} (e : JSError) : M A := fun w => Thrown e w.
Definition emit (e : Event) : M unit :=
  modify (fun w => setTrace (trace w ++ [e]) w).

(** [try { m } catch (e) { h e }], also a promise callback [m] followed by
    [.catch(h)]. *)
Definition tryCatch {A} (m : M A) (h : JSError -> M A) : M A := fun w =>
  match m w with
  | Normal a w' => Normal a w'
  | Thrown e w' => h e w'
  end.

(** A property access on what [getElementById] returned. *)
Definition deref {A} (element : string) (o : option A) : M A :=
  match o with
  | Some a => mret a
  | None => throw (TypeError element)
  end.

(** ** Utility functions *)

Record IconData : Type := {
  iconClass : string;
  iconBorder : string
}.

(** What [iconMap[type]] evaluates to: an entry of the literal, a member
    inherited from [Object.prototype] (truthy, with neither a [class] nor a
    [border] property), or [undefined]. *)
Inductive Property : Type :=
  | Own (d : IconData)
  | Inherited
  | Undefined.

Definition objectPrototypeKeys : list string :=
  [ "constructor"; "__defineGetter__"; "__defineSetter__"; "hasOwnProperty";
    "__lookupGetter__"; "__lookupSetter__"; "isPrototypeOf";
    "propertyIsEnumerable"; "toString"; "valueOf"; "__proto__";
    "toLocaleString" ].

Definition iconMap (type : string) : Property :=
  if (type =? "success")%string then
    Own {| iconClass := "fa-circle-check text-success"; iconBorder := "border-success" |}
  else if (type =? "error")%string then
    Own {| iconClass := "fa-circle-xmark text-danger"; iconBorder := "border-danger" |}
  else if (type =? "warning")%string then
    Own {| iconClass := "fa-triangle-exclamation text-warning"; iconBorder := "border-warning" |}
  else if (type =? "info")%string then
    Own {| iconClass := "fa-circle-info text-info"; iconBorder := "border-info" |}
  else if existsb (String.eqb type) objectPrototypeKeys then Inherited
  else Undefined.

(** [iconMap[type] || iconMap['info']] *)
Definition iconDataFor (type : string) : Property :=
  match iconMap type with
  | Undefined => iconMap "info"
  | p => p
  end.

(** [${iconData.class}] and [iconData.border] as text. *)
Definition classText (p : Property) : string :=
  match p with
  | Own d => iconClass d
  | _ => "undefined"
  end.

Definition borderText (p : Property) : string :=
  match p with
  | Own d => iconBorder d
  | _ => "undefined"
  end.

(** The length of the match of [border-(success|danger|warning|info)] at
    the start of [s]. *)
Definition matchBorder (s : string) : option nat :=
  if String.prefix "border-success" s then Some 14
  else if String.prefix "border-danger" s then Some 13
  else if String.prefix "border-warning" s then Some 14
  else if String.prefix "border-info" s then Some 11
  else None.

(** [s.replace(/border-(success|danger|warning|info)/g, '')]; [skip]
    counts the characters of a match still to be dropped. *)
Fixpoint removeBorders (skip : nat) (s : string) : string :=
  match s with
  | EmptyString => EmptyString
  | String c r =>
      match skip with
      | S k => removeBorders k r
      | O =>
          match matchBorder s with
          | Some n => removeBorders (pred n) r
          | None => String c (removeBorders 0 r)
          end
      end
  end.

Fixpoint trimEnd (s : string) : string :=
  match s with
  | EmptyString => EmptyString
  | String c r =>
      match trimEnd r with
      | EmptyString => if isWhiteSpace c then EmptyString else String c EmptyString
      | r' => String c r'
      end
  end.

Definition trim (s : string) : string := trimEnd (trimStart s).

Definition titleMarkup (p : Property) (title : string) : string :=
  "<i class=" +:+ dq +:+ "fas fa-2x me-3 " +:+ classText p +:+ dq +:+
  " id=" +:+ dq +:+ "customAlertIcon" +:+ dq +:+ "></i>" +:+ title.

Definition setCustomAlertTitle (v : string) (w : World) : World :=
  setModal {| customAlertModal := customAlertModal (modal w);
              customAlertTitle := Some v;
              customAlertBody := customAlertBody (modal w) |} w.

Definition setCustomAlertBody (v : string) (w : World) : World :=
  setModal {| customAlertModal := customAlertModal (modal w);
              customAlertTitle := customAlertTitle (modal w);
              customAlertBody := Some v |} w.

Definition setModalContentClass (v : string) (w : World) : World :=
  setModal {| customAlertModal := Some (Some v);
              customAlertTitle := customAlertTitle (modal w);
              customAlertBody := customAlertBody (modal w) |} w.

(** [window.showNotification(type, title, message)].  The call itself is
    recorded in the trace as [Notify]; [ModalShown] is the
    [new bootstrap.Modal(modalElement).show()] at its end. *)
Definition showNotification (type title message : string) : M unit :=
  emit (Notify type title message);;
  w ← get;
  match customAlertModal (modal w) with
  | None => mret tt
  | Some modalDialog =>
      let iconData := iconDataFor type in
      _ ← deref "customAlertTitle" (customAlertTitle (modal w));
      modify (setCustomAlertTitle (titleMarkup iconData title));;
      _ ← deref "customAlertBody" (customAlertBody (modal w));
      modify (setCustomAlertBody message);;
      className ← deref ".modal-content" modalDialog;
      modify (setModalContentClass
                (trim (removeBorders 0 className) +:+ " " +:+ borderText iconData));;
      emit ModalShown
  end.

(** ** Report item handling *)

Fixpoint indent (n : nat) : string :=
  match n with
  | O => EmptyString
  | S k => String " "%char (indent k)
  end.

Definition displayText (item : ReportItem) : string :=
  nl +:+ indent 16 +:+ "<strong>" +:+ asset item +:+ " - " +:+ system item +:+
  "</strong>: " +:+ description item +:+
  nl +:+ indent 16 +:+ "(Qty: " +:+ numberToString (Num (quantity item)) +:+
  ", Brand: " +:+ orString (brand item) "N/A" +:+
  ", Photos: " +:+ natToString (Z.of_nat (length (photoFiles item))) +:+ ")" +:+
  nl +:+ indent 12.

Definition commentsMarkup (item : ReportItem) : string :=
  if truthyString (comments item) then
    "<small class=" +:+ dq +:+ "text-muted" +:+ dq +:+ ">Comments: " +:+
    comments item +:+ "</small>"
  else EmptyString.

Definition itemMarkup (index : nat) (item : ReportItem) : string :=
  nl +:+ indent 16 +:+ "<div class=" +:+ dq +:+ "item-details" +:+ dq +:+ ">" +:+
  nl +:+ indent 20 +:+ "<p class=" +:+ dq +:+ "mb-0" +:+ dq +:+ ">" +:+
  displayText item +:+ "</p>" +:+
  nl +:+ indent 20 +:+ commentsMarkup item +:+
  nl +:+ indent 16 +:+ "</div>" +:+
  nl +:+ indent 16 +:+ "<div class=" +:+ dq +:+ "item-actions" +:+ dq +:+ ">" +:+
  nl +:+ indent 20 +:+ "<button type=" +:+ dq +:+ "button" +:+ dq +:+
  " class=" +:+ dq +:+ "btn btn-sm btn-danger remove-item-btn" +:+ dq +:+
  " data-index=" +:+ dq +:+ natToString (Z.of_nat index) +:+ dq +:+ ">" +:+
  nl +:+ indent 24 +:+ "<i class=" +:+ dq +:+ "fas fa-trash" +:+ dq +:+ "></i>" +:+
  nl +:+ indent 20 +:+ "</button>" +:+
  nl +:+ indent 16 +:+ "</div>" +:+
  nl +:+ indent 12.

(** The [div.report-item] built for [item] at position [index]. *)
Definition renderRow (index : nat) (item : ReportItem) : Row :=
  {| rowIndex := natToString (Z.of_nat index);
     rowHtml := itemMarkup index item;
     rowButton := natToString (Z.of_nat index) |}.

Definition placeholderOf (c : Child) : option string :=
  match c with
  | Placeholder d => Some d
  | _ => None
  end.

(** [document.getElementById('emptyListMessage')]: the element is found
    inside the list container ([true]) or elsewhere in the document
    ([false]); element ids are taken to be unique. *)
Definition getEmptyListMessage (r : ListRegion) : option (bool * string) :=
  match head (omap placeholderOf (default [] (pendingItemsList r))) with
  | Some d => Some (true, d)
  | None =>
      match emptyListMessage r with
      | Some d => Some (false, d)
      | None => None
      end
  end.

(** [window.renderPendingItems()].  [listContainer.innerHTML = ''] drops
    every child, the placeholder included when it was one of them; the
    empty branch appends the placeholder again, the other branch leaves it
    where the clearing left it.  Each fresh remove button gets one click
    listener ([removeClick] below). *)
Definition renderPendingItems : M unit :=
  w ← get;
  let r := listRegion w in
  match pendingItemsList r, getEmptyListMessage r with
  | Some _, Some (inside, _) =>
      match pendingItems w with
      | [] =>
          modify (setListRegion
                    {| pendingItemsList := Some [Placeholder "block"];
                       emptyListMessage :=
                         if inside then emptyListMessage r else None |})
      | items =>
          modify (setListRegion
                    {| pendingItemsList := Some (ItemRow <$> imap renderRow items);
                       emptyListMessage :=
                         if inside then emptyListMessage r else Some "none" |})
      end
  | _, _ =>
      emit (ConsoleError
              "DOM element 'pendingItemsList' or 'emptyListMessage' not found.")
  end.

(** The click listener of a remove button whose [data-index] attribute
    reads [dataIndex]. *)
Definition removeClick (dataIndex : string) : M unit :=
  let indexToRemove := parseInt dataIndex in
  modify (fun w => setPendingItems (splice1 indexToRemove (pendingItems w)) w);;
  renderPendingItems.

(** The user clicks the remove button of the [k]-th child of the list
    container. *)
Definition clickRemove (k : nat) : M unit :=
  w ← get;
  match default [] (pendingItemsList (listRegion w)) !! k with
  | Some (ItemRow r) => removeClick (rowButton r)
  | _ => mret tt
  end.

(** What [handleAddItem] has captured when it starts the file reads: the
    values of the controls and the selected files. *)
Record AddJob : Type := {
  jobControls : ItemControls;
  jobFiles : list File
}.

(** [fileToBase64(file)], settled: the data URL the reader loaded, or the
    error it reported. *)
Definition fileToBase64 (file : File) : string + string := readAsDataURL file.

(** [Promise.all] over the file reads: every result in the order of the
    files, or a rejection as soon as one read fails.  Which failure wins
    when several reads fail depends on timing; the reason only reaches the
    console. *)
Fixpoint promiseAll (reads : list (string + string)) : list string + string :=
  match reads with
  | [] => inl []
  | inr error :: _ => inr error
  | inl result :: rest =>
      match promiseAll rest with
      | inl results => inl (result :: results)
      | inr error => inr error
      end
  end.

Definition setItemControls (v : ItemControls) (w : World) : World :=
  setAddRegion {| itemControls := Some v;
                  photoInput := photoInput (addRegion w);
                  addItemButton := addItemButton (addRegion w) |} w.

(** [photoInput.value = ''] on the element captured at the click: the
    selection is cleared. *)
Definition clearPhotoInput (w : World) : World :=
  setAddRegion {| itemControls := itemControls (addRegion w);
                  photoInput := (fun _ => []) <$> photoInput (addRegion w);
                  addItemButton := addItemButton (addRegion w) |} w.

Definition resetControls : ItemControls :=
  {| assetSelect := ""; systemSelect := ""; descriptionSelect := "";
     quantityInput := "1"; brandInput := ""; commentsTextarea := "" |}.

Definition newItem (c : ItemControls) (photoBase64 : list string) : ReportItem :=
  {| asset := assetSelect c;
     system := systemSelect c;
     description := descriptionSelect c;
     quantity := orNumber (parseInt (quantityInput c)) 1;
     brand := brandInput c;
     comments := commentsTextarea c;
     photoFiles := photoBase64 |}.

(** The synchronous part of [handleAddItem]: read the controls, validate,
    start the file reads.  [Some job] means the reads were started. *)
Definition handleAddItem : M (option AddJob) :=
  w ← get;
  c ← deref "item controls" (itemControls (addRegion w));
  let photoInput := photoInput (addRegion w) in
  if negb (truthyString (assetSelect c)) || negb (truthyString (systemSelect c))
     || negb (truthyString (descriptionSelect c))
  then
    showNotification "error" "Missing Fields"
      "Please select an **Asset**, **System**, and **Description**.";;
    mret None
  else
    files ← deref "photoInput" photoInput;
    mret (Some {| jobControls := c; jobFiles := files |}).

(** The [.then] callback of [handleAddItem]. *)
Definition addItemThen (job : AddJob) (base64Array : list string) : M unit :=
  modify (fun w =>
    setPendingItems (pendingItems w ++ [newItem (jobControls job) base64Array]) w);;
  renderPendingItems;;
  w ← get;
  _ ← deref "item controls" (itemControls (addRegion w));
  modify (setItemControls resetControls);;
  modify clearPhotoInput;;
  showNotification "success" "Item Added"
    "Defect item successfully added to the report list.".

(** The [.catch] callback of [handleAddItem]. *)
Definition addItemCatch (error : JSError) : M unit :=
  emit (ConsoleError "Error converting files to Base64:");;
  showNotification "error" "Photo Error" "Failed to process photos.".

(** The promise chain of [handleAddItem] once every read has settled. *)
Definition addItemSettled (job : AddJob) : M unit :=
  tryCatch
    (match promiseAll (fileToBase64 <$> jobFiles job) with
     | inl base64Array => addItemThen job base64Array
     | inr error => throw (ReadFailure error)
     end)
    addItemCatch.

(** A click on the add button, run to the end of its promise chain. *)
Definition addItem : M unit :=
  job ← handleAddItem;
  match job with
  | Some j => addItemSettled j
  | None => mret tt
  end.

(** ** Submission *)

Definition setStatus (v : string) (w : World) : World :=
  let s := submitRegion w in
  setSubmitRegion {| status := (fun _ => v) <$> status s;
                     submission_alert := submission_alert s;
                     downloadArea := downloadArea s;
                     techSignatureData := techSignatureData s;
                     opManSignatureData := opManSignatureData s;
                     visitForm := visitForm s |} w.

Definition updateAlert (f : Alert -> Alert) (w : World) : World :=
  let s := submitRegion w in
  setSubmitRegion {| status := status s;
                     submission_alert := f <$> submission_alert s;
                     downloadArea := downloadArea s;
                     techSignatureData := techSignatureData s;
                     opManSignatureData := opManSignatureData s;
                     visitForm := visitForm s |} w.

Definition setDownloadArea (v : string) (w : World) : World :=
  let s := submitRegion w in
  setSubmitRegion {| status := status s;
                     submission_alert := submission_alert s;
                     downloadArea := (fun _ => v) <$> downloadArea s;
                     techSignatureData := techSignatureData s;
                     opManSignatureData := opManSignatureData s;
                     visitForm := visitForm s |} w.

Definition inTokens (tokens : list string) (c : string) : bool :=
  existsb (String.eqb c) tokens.

(** [classList.remove(...tokens)] and [classList.add(token)]. *)
Definition classListRemove (tokens cl : list string) : list string :=
  List.filter (fun c => negb (inTokens tokens c)) cl.

Definition classListAdd (token : string) (cl : list string) : list string :=
  if inTokens cl token then cl else cl ++ [token].

(** [o[k] = v] on a plain object, for a primitive or array [v]: the key
    [__proto__] reaches the prototype setter and stores nothing. *)
Definition objectSet (k : string) (v : Value) (o : gmap string Value)
  : gmap string Value :=
  if (k =? "__proto__")%string then o else <[k := v]> o.

(** [formData.forEach((value, key) => dataToSend[key] = value)] *)
Definition formToObject (entries : list (string * string)) : gmap string Value :=
  foldl (fun o kv => objectSet kv.1 (VStr kv.2) o) ∅ entries.

Definition warningText : string :=
  "Please provide the Technician Signature before submitting.".

(** The synchronous part of [window.onSubmit(event)], up to and including
    the call of [axios.post]. *)
Definition onSubmit : M unit :=
  emit PreventDefault;;
  w ← get;
  let s := submitRegion w in
  _ ← deref "downloadArea" (downloadArea s);
  modify (setDownloadArea "");;
  techSigData ← deref "techSignatureData" (techSignatureData s);
  if default false (techPad (pads w)) then
    _ ← deref "submission-alert" (submission_alert s);
    modify (updateAlert (fun a =>
      {| classList := classListAdd "alert-warning"
                        (classListRemove ["alert-info"] (classList a));
         textContent := warningText |}))
  else
    entries ← deref "visitForm" (visitForm s);
    let dataToSend := formToObject entries in
    let dataToSend := objectSet "tech_signature" (VStr techSigData) dataToSend in
    opManSigData ← deref "opManSignatureData" (opManSignatureData s);
    let dataToSend := objectSet "opMan_signature" (VStr opManSigData) dataToSend in
    let dataToSend := objectSet "report_items" (VItems (pendingItems w)) dataToSend in
    _ ← deref "status" (status s);
    modify (setStatus "Submitting... Please wait.");;
    _ ← deref "submission-alert" (submission_alert s);
    modify (updateAlert (fun a =>
      {| classList := classListAdd "alert-info"
                        (classListRemove ["alert-success"; "alert-danger"; "alert-warning"]
                           (classList a));
         textContent := "Report is being processed. This may take a moment..." |}));;
    emit (Post "/submit-report" dataToSend "application/json").

(** The body of a successful response, as far as the script reads it. *)
Record ResponseData : Type := {
  pdf_url : option string;
  excel_url : option string
}.

Definition setLoopOf (f : Loop -> Loop) (w : World) : World := setLoop (f (loop w)) w.

(** [triggerDownload(url, filename)]: the anchor is built and appended to
    the body at once; its click and removal are handed to
    [setTimeout(..., 0)]. *)
Definition triggerDownload (url filename : string) : M unit :=
  modify (setLoopOf (fun l =>
    let link := {| href := url; download := filename; display := "none" |} in
    {| bodyLinks := bodyLinks l ++ [(nextNode l, link)];
       nextNode := S (nextNode l);
       timers := timers l ++ [nextNode l] |})).

Definition findLink (id : nat) (links : list (nat * Anchor)) : option Anchor :=
  snd <$> List.find (fun p => Nat.eqb p.1 id) links.

(** The callback of one timer: [link.click(); document.body.removeChild(link)]. *)
Definition timerCallback (id : nat) : M unit :=
  w ← get;
  match findLink id (bodyLinks (loop w)) with
  | Some link =>
      emit (LinkClicked (href link) (download link));;
      modify (setLoopOf (fun l =>
        {| bodyLinks := List.filter (fun p => negb (Nat.eqb p.1 id)) (bodyLinks l);
           nextNode := nextNode l;
           timers := timers l |}))
  | None => mret tt
  end.

(** One turn of the event loop: the oldest pending timer fires. *)
Definition runTimer : M unit :=
  w ← get;
  match timers (loop w) with
  | [] => mret tt
  | id :: rest =>
      modify (setLoopOf (fun l =>
        {| bodyLinks := bodyLinks l; nextNode := nextNode l; timers := rest |}));;
      timerCallback id
  end.

(** The [.then] callback of [onSubmit]. *)
Definition submitThen (response : ResponseData) : M unit :=
  modify (setStatus "Submission Successful!");;
  modify (updateAlert (fun a =>
    {| classList := classListAdd "alert-success"
                      (classListRemove ["alert-info"] (classList a));
       textContent :=
         "Report successfully generated. Downloads are starting automatically!" |}));;
  let pdfUrl := orString (default "" (pdf_url response)) "/download-pdf" in
  let excelUrl := orString (default "" (excel_url response)) "/download-excel" in
  triggerDownload pdfUrl "Site_Visit_Report.pdf";;
  triggerDownload excelUrl "Site_Visit_Report.xlsx";;
  showNotification "success" "Reports Generated"
    "Your PDF and Excel reports should be downloading automatically. Check your browser downloads.".

(** [error.message] of a [TypeError] that reaches the [.catch] of
    [onSubmit]; it can only come from [showNotification], called at the
    end of the [.then] callback.  The wording is not fixed by the language;
    this is V8's, for the assignment to [innerHTML] of a missing title or
    body and for the read of [className] of a missing [.modal-content]. *)
Definition engineMessage (element : string) : string :=
  if (element =? ".modal-content")%string
  then "Cannot read properties of null (reading 'className')"
  else "Cannot set properties of null (setting 'innerHTML')".

(** [error.response && error.response.data ? error.response.data.message
    : error.message], interpolated into a template literal. *)
Definition errorText (error : JSError) : string :=
  match error with
  | RequestFailure e =>
      match errorResponse e with
      | Some (Data (Some message)) => message
      | Some (Data None) => "undefined"
      | Some NoData | None => errorMessage e
      end
  | TypeError element => engineMessage element
  | ReadFailure reason => reason
  end.

Definition failureBanner (error : JSError) : string :=
  "Error: " +:+ errorText error +:+ ". Check console for details.".

(** The [.catch] callback of [onSubmit]. *)
Definition submitCatch (error : JSError) : M unit :=
  emit (ConsoleError "Submission failed:");;
  modify (setStatus "Submission Failed!");;
  modify (updateAlert (fun a =>
    {| classList := classListAdd "alert-danger"
                      (classListRemove ["alert-info"] (classList a));
       textContent := failureBanner error |}));;
  showNotification "error" "Submission Failed"
    "The report submission to the server failed. Check the console for details.".

(** The promise chain of [onSubmit] once the request has settled. *)
Definition submitSettled (result : ResponseData + AxiosError) : M unit :=
  tryCatch
    (match result with
     | inl response => submitThen response
     | inr error => throw (RequestFailure error)
     end)
    submitCatch.

(** ** DOM initialisation *)

Definition setTechPad (v : option bool) (w : World) : World :=
  setPads {| techSignaturePad := techSignaturePad (pads w);
             opManSignaturePad := opManSignaturePad (pads w);
             techPad := v;
             opManPad := opManPad (pads w) |} w.

Definition setOpManPad (v : option bool) (w : World) : World :=
  setPads {| techSignaturePad := techSignaturePad (pads w);
             opManSignaturePad := opManSignaturePad (pads w);
             techPad := techPad (pads w);
             opManPad := v |} w.

Definition addClickListener (w : World) : World :=
  setAddRegion {| itemControls := itemControls (addRegion w);
                  photoInput := photoInput (addRegion w);
                  addItemButton := S <$> addItemButton (addRegion w) |} w.

(** The [DOMContentLoaded] listener.  A fresh [SignaturePad] is empty. *)
Definition domContentLoaded : M unit :=
  w ← get;
  (if techSignaturePad (pads w) then modify (setTechPad (Some true)) else mret tt);;
  (if opManSignaturePad (pads w) then modify (setOpManPad (Some true)) else mret tt);;
  modify addClickListener;;
  (if initializeDropdowns w then emit DropdownsInitialized
   else emit (ConsoleWarn
     "Dropdown initialization function (initializeDropdowns) not found."));;
  renderPendingItems.

(** The world right after the script has been evaluated in a page:
    [window.pendingItems = []], no pad yet, nothing observed. *)
Definition scriptLoaded (techCanvas opManCanvas dropdowns : bool)
    (m : ModalScaffold) (l : ListRegion) (a : AddRegion) (s : SubmitRegion) : World :=
  {| pendingItems := [];
     pads := {| techSignaturePad := techCanvas; opManSignaturePad := opManCanvas;
                techPad := None; opManPad := None |};
     initializeDropdowns := dropdowns;
     modal := m; listRegion := l; addRegion := a; submitRegion := s;
     loop := {| bodyLinks := []; nextNode := 0; timers := [] |};
     trace := [] |}.

(** ** What the user does between handlers *)

(** The user fills the item controls and selects files. *)
Definition userFills (c : ItemControls) (files : list File) : M unit :=
  modify (fun w =>
    setAddRegion {| itemControls := (fun _ => c) <$> itemControls (addRegion w);
                    photoInput := (fun _ => files) <$> photoInput (addRegion w);
                    addItemButton := addItemButton (addRegion w) |} w).

(** The user draws on the technician pad. *)
Definition userSigns : M unit :=
  modify (fun w => setTechPad ((fun _ => false) <$> techPad (pads w)) w).

(** ** The page as a transition system *)

(** An event handler runs to its end or to an uncaught exception; either
    way the page lives on in the world the handler left. *)
Definition dispatch (handler : M unit) (w : World) : World := worldOf (handler w).

(** Handlers run one after the other, each in the world the previous one
    left. *)
Definition session (handlers : list (M unit)) (w : World) : World :=
  foldl (fun w' handler => dispatch handler w') w handlers.

(** What can happen to a page: events from the browser and the user, and
    the settling of what the handlers left pending. *)
Inductive Action : Type :=
  | PageLoads
  | UserFills (c : ItemControls) (files : list File)
  | UserSigns
  | AddClicked
  | ReadsSettle (n : nat)
  | RemoveClicked (k : nat)
  | Submitted
  | RequestSettles (result : ResponseData + AxiosError)
  | TimerFires.

(** A world together with the promise chains of [handleAddItem] that have
    not settled yet, oldest first. *)
Record Runtime : Type := {
  world : World;
  pendingAdds : list AddJob
}.

Definition onWorld (f : World -> World) (p : Runtime) : Runtime :=
  {| world := f (world p); pendingAdds := pendingAdds p |}.

Definition step (p : Runtime) (a : Action) : Runtime :=
  match a with
  | PageLoads => onWorld (dispatch domContentLoaded) p
  | UserFills c files => onWorld (dispatch (userFills c files)) p
  | UserSigns => onWorld (dispatch userSigns) p
  | AddClicked =>
      match handleAddItem (world p) with
      | Normal (Some job) w => {| world := w; pendingAdds := pendingAdds p ++ [job] |}
      | o => {| world := worldOf o; pendingAdds := pendingAdds p |}
      end
  | ReadsSettle n =>
      match pendingAdds p !! n with
      | Some job => {| world := dispatch (addItemSettled job) (world p);
                       pendingAdds := delete n (pendingAdds p) |}
      | None => p
      end
  | RemoveClicked k => onWorld (dispatch (clickRemove k)) p
  | Submitted => onWorld (dispatch onSubmit) p
  | RequestSettles result => onWorld (dispatch (submitSettled result)) p
  | TimerFires => onWorld (dispatch runTimer) p
  end.

Definition run (actions : list Action) (p : Runtime) : Runtime := foldl step p actions.

(** A page whose script has just been evaluated: nothing is pending. *)
Definition justLoaded (w : World) : Runtime := {| world := w; pendingAdds := [] |}.

(** ** Vocabulary of the properties *)

(** The value of a list of decimal digits, least significant first. *)
Definition valueLE (l : list Z) : Z := fold_right (fun d v => d + 10 * v)%Z 0%Z l.

Definition isDigit (d : Z) : Prop := (0 <= d < 10)%Z.

(** A string made of decimal digit characters only. *)
Fixpoint decimal (s : string) : Prop :=
  match s with
  | EmptyString => True
  | String c r => (exists d, isDigit d /\ c = digitChar d) /\ decimal r
  end.

(** The calls of [showNotification] in a trace, oldest first. *)
Definition notificationsOf (t : list Event) : list (string * string * string) :=
  omap (fun e => match e with
                 | Notify kind title message => Some (kind, title, message)
                 | _ => None
                 end) t.

(** The requests in a trace: url and body. *)
Definition postsOf (t : list Event) : list (string * gmap string Value) :=
  omap (fun e => match e with
                 | Post url body _ => Some (url, body)
                 | _ => None
                 end) t.

(** The download activations in a trace: url and suggested file name. *)
Definition clicksOf (t : list Event) : list (string * string) :=
  omap (fun e => match e with
                 | LinkClicked url filename => Some (url, filename)
                 | _ => None
                 end) t.

(** The notifications the handlers send. *)
Definition missingFields : string * string * string :=
  ("error", "Missing Fields",
   "Please select an **Asset**, **System**, and **Description**.").

Definition photoError : string * string * string :=
  ("error", "Photo Error", "Failed to process photos.").

Definition submissionFailed : string * string * string :=
  ("error", "Submission Failed",
   "The report submission to the server failed. Check the console for details.").

Definition notFoundText : string :=
  "DOM element 'pendingItemsList' or 'emptyListMessage' not found.".

(** The required fields of an item, and of the controls it is built from. *)
Definition validItem (item : ReportItem) : Prop :=
  asset item <> "" /\ system item <> "" /\ description item <> "".

Definition validControls (c : ItemControls) : Prop :=
  assetSelect c <> "" /\ systemSelect c <> "" /\ descriptionSelect c <> "".

(** A file whose read succeeds, and the payloads of a selection. *)
Definition readable (f : File) : Prop := exists payload, fileToBase64 f = inl payload.

Definition payloadsOf (files : list File) : list string :=
  omap (fun f => match fileToBase64 f with
                 | inl payload => Some payload
                 | inr _ => None
                 end) files.

(** One valid add: controls with the required fields, readable files. *)
Definition validAdd (a : ItemControls * list File) : Prop :=
  validControls a.1 /\ Forall readable a.2.

(** The handlers of a run of adds: the user fills the controls and clicks
    the add button, and the promise chain settles, once per add. *)
Definition addClicks (adds : list (ItemControls * list File)) : list (M unit) :=
  adds ≫= fun a => [userFills a.1 a.2; addItem].

(** The items a run of valid adds puts into the store. *)
Definition expectedItems (adds : list (ItemControls * list File)) : list ReportItem :=
  (fun a => newItem a.1 (payloadsOf a.2)) <$> adds.

(** The whole modal scaffold is in the document. *)
Definition completeScaffold (m : ModalScaffold) : Prop :=
  (exists className, customAlertModal m = Some (Some className)) /\
  is_Some (customAlertTitle m) /\ is_Some (customAlertBody m).

(** [w'] differs from [w] at most in the modal scaffold and the trace. *)
Definition sameButModal (w w' : World) : Prop :=
  pendingItems w' = pendingItems w /\ pads w' = pads w /\
  initializeDropdowns w' = initializeDropdowns w /\
  listRegion w' = listRegion w /\ addRegion w' = addRegion w /\
  submitRegion w' = submitRegion w /\ loop w' = loop w.

(** The rows the list container shows, top to bottom. *)
Definition rowsOf (w : World) : list Row :=
  omap (fun c => match c with ItemRow r => Some r | _ => None end)
       (default [] (pendingItemsList (listRegion w))).

(** The placeholder is shown: it is a child of the list container. *)
Definition placeholderShown (w : World) : bool :=
  match omap placeholderOf (default [] (pendingItemsList (listRegion w))) with
  | [] => false
  | _ => true
  end.

(** What [renderPendingItems] leaves in the list region when it finds both
    of its elements. *)
Definition renderedRegion (items : list ReportItem) (inside : bool) (r : ListRegion)
  : ListRegion :=
  match items with
  | [] => {| pendingItemsList := Some [Placeholder "block"];
             emptyListMessage := if inside then emptyListMessage r else None |}
  | _ => {| pendingItemsList := Some (ItemRow <$> imap renderRow items);
            emptyListMessage := if inside then emptyListMessage r else Some "none" |}
  end.

(** The list region [renderPendingItems] leaves, as a function of the
    store and of the region it starts from. *)
Definition renderList (items : list ReportItem) (r : ListRegion) : ListRegion :=
  match pendingItemsList r, getEmptyListMessage r with
  | Some _, Some (inside, _) => renderedRegion items inside r
  | _, _ => r
  end.

(** Element ids are unique: a placeholder inside the list container has
    no twin elsewhere in the document. *)
Definition uniqueIds (r : ListRegion) : Prop :=
  forall d, getEmptyListMessage r = Some (true, d) -> emptyListMessage r = None.

(** The list region once the page has started and some adds have run: the
    placeholder alone before the first add, afterwards the row of the
    first item alone. *)
Definition shownAfter (items : list ReportItem) : ListRegion :=
  match items with
  | [] => {| pendingItemsList := Some [Placeholder "block"]; emptyListMessage := None |}
  | first :: _ =>
      {| pendingItemsList := Some [ItemRow (renderRow 0 first)]; emptyListMessage := None |}
  end.

(** The urls the success handler downloads from, and its two anchors. *)
Definition pdfUrlOf (response : ResponseData) : string :=
  orString (default "" (pdf_url response)) "/download-pdf".

Definition excelUrlOf (response : ResponseData) : string :=
  orString (default "" (excel_url response)) "/download-excel".

Definition pdfAnchor (response : ResponseData) : Anchor :=
  {| href := pdfUrlOf response; download := "Site_Visit_Report.pdf"; display := "none" |}.

Definition excelAnchor (response : ResponseData) : Anchor :=
  {| href := excelUrlOf response; download := "Site_Visit_Report.xlsx"; display := "none" |}.

(** Node identities handed out so far are below [nextNode]. *)
Definition freshNodes (l : Loop) : Prop :=
  Forall (fun p => p.1 < nextNode l) (bodyLinks l).

(** ** Sample pages and inputs *)

Definition sampleModal : ModalScaffold :=
  {| customAlertModal := Some (Some "modal-content border-info");
     customAlertTitle := Some "";
     customAlertBody := Some "" |}.

Definition sampleList : ListRegion :=
  {| pendingItemsList := Some [Placeholder ""]; emptyListMessage := None |}.

Definition sampleAdd : AddRegion :=
  {| itemControls := Some resetControls; photoInput := Some []; addItemButton := Some 0 |}.

Definition sampleSubmit : SubmitRegion :=
  {| status := Some "";
     submission_alert := Some {| classList := ["alert"; "alert-info"]; textContent := "" |};
     downloadArea := Some "";
     techSignatureData := Some "";
     opManSignatureData := Some "";
     visitForm := Some [("site_name", "Tower A")] |}.

(** A page with every element the script addresses. *)
Definition samplePage : World :=
  scriptLoaded true true true sampleModal sampleList sampleAdd sampleSubmit.

(** The same page without the technician's signature canvas. *)
Definition pageWithoutTechCanvas : World :=
  scriptLoaded false true true sampleModal sampleList sampleAdd sampleSubmit.

(** The same page whose modal lacks its title element. *)
Definition pageWithoutAlertTitle : World :=
  scriptLoaded true true true
    {| customAlertModal := Some (Some "modal-content");
       customAlertTitle := None;
       customAlertBody := Some "" |}
    sampleList sampleAdd sampleSubmit.

(** The same page without the modal. *)
Definition pageWithoutModal : World :=
  scriptLoaded true true true
    {| customAlertModal := None; customAlertTitle := None; customAlertBody := None |}
    sampleList sampleAdd sampleSubmit.

(** The same page without the list container and its placeholder. *)
Definition pageWithoutList : World :=
  scriptLoaded true true true sampleModal
    {| pendingItemsList := None; emptyListMessage := None |} sampleAdd sampleSubmit.

(** The sample page once [DOMContentLoaded] has fired: both pads exist and
    are empty. *)
Definition readyPage : World := dispatch domContentLoaded samplePage.

(** The page without the technician's canvas, once [DOMContentLoaded] has
    fired. *)
Definition readyPageWithoutTechPad : World :=
  dispatch domContentLoaded pageWithoutTechCanvas.

(** The sample page after the technician has signed and the form has been
    submitted: the request is in flight. *)
Definition submittedPage : World := session [userSigns; onSubmit] readyPage.

Definition pumpLeak : ItemControls :=
  {| assetSelect := "Pump"; systemSelect := "HVAC"; descriptionSelect := "Leak";
     quantityInput := "2"; brandInput := ""; commentsTextarea := "" |}.

Definition fanNoise : ItemControls :=
  {| assetSelect := "Fan"; systemSelect := "HVAC"; descriptionSelect := "Noise";
     quantityInput := "1"; brandInput := "Acme"; commentsTextarea := "rattles" |}.

(** Controls with a negative quantity typed in, and with the asset left
    unselected. *)
Definition minusThree : ItemControls :=
  {| assetSelect := "Pump"; systemSelect := "HVAC"; descriptionSelect := "Leak";
     quantityInput := "-3"; brandInput := ""; commentsTextarea := "" |}.

Definition noAsset : ItemControls :=
  {| assetSelect := ""; systemSelect := "HVAC"; descriptionSelect := "Leak";
     quantityInput := "1"; brandInput := ""; commentsTextarea := "" |}.

Definition photoA : File :=
  {| fileName := "a.png"; readAsDataURL := inl "data:image/png;base64,AAAA" |}.

Definition photoB : File :=
  {| fileName := "b.png"; readAsDataURL := inl "data:image/png;base64,BBBB" |}.

Definition photoBad : File :=
  {| fileName := "c.png"; readAsDataURL := inr "NotReadableError" |}.

(** A successful response naming both files. *)
Definition fileUrls : ResponseData :=
  {| pdf_url := Some "/f.pdf"; excel_url := Some "/f.xlsx" |}.

(** A server error whose body has no [message] property. *)
Definition serverErrorWithoutMessage : AxiosError :=
  {| errorMessage := "Request failed with status code 500";
     errorResponse := Some (Data None) |}.


(** ** Vocabulary of the further properties *)

(** The value an object holds under [k] after the form entries have been
    assigned to it one by one: the value of the last entry named [k]. *)
Fixpoint lastValue (k : string) (entries : list (string * string)) : option string :=
  match entries with
  | [] => None
  | (k', v) :: rest =>
      match lastValue k rest with
      | Some v' => Some v'
      | None => if (k' =? k)%string then Some v else None
      end
  end.

(** The four classes the script uses for the state of the banner, and the
    ones among them a class list carries. *)
Definition stateClasses : list string :=
  ["alert-info"; "alert-success"; "alert-danger"; "alert-warning"].

Definition stateOf (cl : list string) : list string :=
  List.filter (inTokens stateClasses) cl.

(** The modal element is in the document but its title, its body or its
    [.modal-content] descendant is not. *)
Definition partialScaffold (m : ModalScaffold) : Prop :=
  exists content,
    customAlertModal m = Some content /\
    (content = None \/ customAlertTitle m = None \/ customAlertBody m = None).

(** How often the form is submitted, and how often a request succeeds, in
    a run of events. *)
Definition submits (actions : list Action) : nat :=
  length (List.filter (fun a => match a with Submitted => true | _ => false end) actions).

Definition successes (actions : list Action) : nat :=
  length (List.filter (fun a => match a with RequestSettles (inl _) => true | _ => false end)
            actions).

(** The notifications of a successful add and of a successful submission. *)
Definition itemAddedNote : string * string * string :=
  ("success", "Item Added", "Defect item successfully added to the report list.").

Definition reportsGenerated : string * string * string :=
  ("success", "Reports Generated",
   "Your PDF and Excel reports should be downloading automatically. Check your browser downloads.").

(** The sample page whose modal lacks its title, once [DOMContentLoaded]
    has fired. *)
Definition readyPageWithoutAlertTitle : World :=
  dispatch domContentLoaded pageWithoutAlertTitle.

(** A store of three items on the started sample page, not rendered yet. *)
Definition threeItems : World :=
  setPendingItems [newItem pumpLeak []; newItem fanNoise []; newItem minusThree []]
    readyPage.

(** The sample page once the technician has signed. *)
Definition signedPage : World := session [userSigns] readyPage.

(** A form with a repeated field and with fields named like the keys the
    script sets itself. *)
Definition crowdedForm : list (string * string) :=
  [("site_name", "Tower A"); ("tech_signature", "typed"); ("site_name", "Tower B");
   ("__proto__", "x"); ("visit_date", "2024-05-01")].

Definition crowdedPage : World :=
  setSubmitRegion
    {| status := Some "";
       submission_alert := Some {| classList := ["alert"; "alert-info"]; textContent := "" |};
       downloadArea := Some "";
       techSignatureData := Some "data:image/png;base64,SIGN";
       opManSignatureData := Some "";
       visitForm := Some crowdedForm |}
    signedPage.

(** [w'] has the event loop, the requests and the download activations
    of [w]. *)
Definition quiet (w w' : World) : Prop :=
  loop w' = loop w /\
  postsOf (trace w') = postsOf (trace w) /\
  clicksOf (trace w') = clicksOf (trace w).

(** The two file names the script suggests for its downloads. *)
Definition reportNames : list string :=
  ["Site_Visit_Report.pdf"; "Site_Visit_Report.xlsx"].

(** The temporary anchors in the body are exactly the ones whose timers
    are pending, in the order of the timers; node identities are not
    reused; and every anchor suggests one of the two report names. *)
Definition anchorsAwaitTimers (l : Loop) : Prop :=
  fst <$> bodyLinks l = timers l /\
  NoDup (timers l) /\
  Forall (fun id => id < nextNode l) (timers l) /\
  Forall (fun p => download p.2 ∈ reportNames) (bodyLinks l).

(** Text that ends a decimal numeral: nothing at all, or text beginning
    with a character that is neither a digit nor a letter. *)
Definition stopsNumber (rest : string) : Prop :=
  match rest with
  | EmptyString => True
  | String c _ => digitValue c = None
  end.

(** Controls with a given quantity typed in. *)
Definition withQuantity (q : string) : ItemControls :=
  {| assetSelect := "Pump"; systemSelect := "HVAC"; descriptionSelect := "Leak";
     quantityInput := q; brandInput := ""; commentsTextarea := "" |}.

(** ** Numbers and their decimal text *)

Section Decimal.

Local Open Scope Z_scope.

Lemma isDigit_cases d :
  isDigit d ->
  d = 0 \/ d = 1 \/ d = 2 \/ d = 3 \/ d = 4 \/ d = 5 \/ d = 6 \/ d = 7 \/ d = 8 \/ d = 9.
Proof. unfold isDigit. lia. Qed.

Ltac digit_cases H :=
  apply isDigit_cases in H;
  repeat (destruct H as [H | H]); subst.

Lemma digitValue_digitChar d : isDigit d -> digitValue (digitChar d) = Some d.
Proof. intros H. digit_cases H; reflexivity. Qed.

Lemma digitsLE_isDigit fuel n : Forall isDigit (digitsLE fuel n).
Proof.
  revert n. induction fuel as [|f IH]; intros n; simpl; [constructor|].
  constructor.
  - unfold isDigit. apply Z.mod_pos_bound. lia.
  - destruct (n <? 10); [constructor | apply IH].
Qed.

Lemma digitsLE_S f n :
  digitsLE (S f) n = n mod 10 :: (if n <? 10 then [] else digitsLE f (n / 10)).
Proof. reflexivity. Qed.

Lemma digitsLE_value f n :
  0 <= n < 2 ^ Z.of_nat f -> valueLE (digitsLE (S f) n) = n.
Proof.
  revert n. induction f as [|f IH]; intros n Hn.
  - simpl in Hn. assert (n = 0) by lia. subst. reflexivity.
  - rewrite digitsLE_S. destruct (Z.ltb_spec n 10) as [Hlt|Hge].
    + cbn. rewrite Z.mod_small by lia. lia.
    + change (valueLE (n mod 10 :: digitsLE (S f) (n / 10)))
        with (n mod 10 + 10 * valueLE (digitsLE (S f) (n / 10))).
      rewrite IH.
      * pose proof (Z.div_mod n 10). lia.
      * rewrite Nat2Z.inj_succ, Z.pow_succ_r in Hn by lia.
        split; [apply Z.div_pos; lia|].
        apply Z.div_lt_upper_bound; lia.
Qed.

Lemma log2_fuel n : 0 <= n -> 0 <= n < 2 ^ Z.of_nat (Z.to_nat (Z.log2 n + 1)).
Proof.
  intros Hn. split; [lia|].
  pose proof (Z.log2_nonneg n).
  rewrite Z2Nat.id by lia.
  destruct (Z.eq_dec n 0) as [->|Hne]; [reflexivity|].
  apply Z.log2_spec. lia.
Qed.

Lemma scanDigits_fold l : forall acc seen a,
  Forall isDigit l ->
  scanDigits 10 (fold_left (fun s d => String (digitChar d) s) l acc) seen a
  = scanDigits 10 acc (seen || negb (bool_decide (l = [])))
      (a * 10 ^ Z.of_nat (length l) + valueLE l).
Proof.
  induction l as [|d l IH]; intros acc seen a Hl.
  - cbn. rewrite orb_false_r. f_equal. lia.
  - inversion Hl as [|? ? Hd Hl']; subst.
    cbn [fold_left]. rewrite IH by assumption.
    cbn [scanDigits]. rewrite (digitValue_digitChar d Hd).
    assert ((d <? 10) = true) as Hlt by (apply Z.ltb_lt; unfold isDigit in Hd; lia).
    rewrite Hlt.
    rewrite bool_decide_eq_false_2 by discriminate.
    rewrite orb_true_r. f_equal.
    change (valueLE (d :: l)) with (d + 10 * valueLE l).
    rewrite length_cons, Nat2Z.inj_succ, Z.pow_succ_r by lia. lia.
Qed.

Lemma decimal_fold l : forall acc,
  Forall isDigit l -> decimal acc ->
  decimal (fold_left (fun s d => String (digitChar d) s) l acc).
Proof.
  induction l as [|d l IH]; intros acc Hl Hacc; [exact Hacc|].
  inversion Hl; subst. cbn [fold_left]. apply IH; [assumption|].
  split; [exists d; auto | exact Hacc].
Qed.

Lemma decimal_natToString n : decimal (natToString n).
Proof. apply decimal_fold; [apply digitsLE_isDigit | exact I]. Qed.

(** On a digit string [parseInt] skips nothing and reads radix 10. *)
Lemma parseInt_decimal s :
  decimal s ->
  parseInt s = match scanDigits 10 s false 0 with
               | None => NaN
               | Some v => Num v
               end.
Proof.
  destruct s as [|c r]; [reflexivity|].
  intros [[d [Hd ->]] Hr].
  destruct r as [|c' r'].
  - digit_cases Hd; reflexivity.
  - destruct Hr as [[d' [Hd' ->]] _].
    digit_cases Hd; try reflexivity.
    digit_cases Hd'; reflexivity.
Qed.

(** The text of a non-negative integer parses back to it. *)
Lemma parseInt_natToString n : 0 <= n -> parseInt (natToString n) = Num n.
Proof.
  intros Hn. rewrite parseInt_decimal by apply decimal_natToString.
  unfold natToString, digitsToString.
  rewrite scanDigits_fold by apply digitsLE_isDigit.
  cbn [scanDigits orb].
  rewrite digitsLE_value by (apply log2_fuel; exact Hn).
  rewrite bool_decide_eq_false_2; [reflexivity|].
  cbn [digitsLE]. discriminate.
Qed.

End Decimal.

(** [parseInt], [String] and [splice] on the inputs the claims turn on. *)
Example parseInt_examples :
  parseInt "2" = Num 2 /\ parseInt "  12abc" = Num 12 /\ parseInt "3.7" = Num 3 /\
  parseInt "-3" = Num (-3) /\ parseInt "0x1F" = Num 31 /\ parseInt "0" = Num 0 /\
  parseInt "" = NaN /\ parseInt "abc" = NaN /\ parseInt "null" = NaN.
Proof. repeat split. Qed.

Example numberToString_examples :
  numberToString (Num 0) = "0" /\ numberToString (Num 10) = "10" /\
  numberToString (Num (-305)) = "-305".
Proof. repeat split. Qed.

Example splice1_examples :
  splice1 (Num 1) ["a"; "b"; "c"] = ["a"; "c"] /\
  splice1 (Num 3) ["a"; "b"; "c"] = ["a"; "b"; "c"] /\
  splice1 (Num (-1)) ["a"; "b"; "c"] = ["a"; "b"] /\
  splice1 (Num (-9)) ["a"; "b"; "c"] = ["b"; "c"] /\
  splice1 NaN ["a"; "b"; "c"] = ["b"; "c"].
Proof. repeat split. Qed.

(** ** Running handlers *)

Lemma bind_run {A B} (m : M A) (f : A -> M B) w :
  (m ≫= f) w = match m w with
               | Normal a w' => f a w'
               | Thrown e w' => Thrown e w'
               end.
Proof. reflexivity. Qed.

Ltac exec :=
  cbv [mbind M_bind mret M_ret get modify emit throw tryCatch deref];
  cbn [worldOf returned].

(** ** The notification presenter *)

Lemma showNotification_no_modal type title message w :
  customAlertModal (modal w) = None ->
  showNotification type title message w
  = Normal tt (setTrace (trace w ++ [Notify type title message]) w).
Proof.
  intros H. unfold showNotification. exec. cbn. rewrite H. reflexivity.
Qed.

Lemma showNotification_complete type title message w className t b :
  customAlertModal (modal w) = Some (Some className) ->
  customAlertTitle (modal w) = Some t ->
  customAlertBody (modal w) = Some b ->
  showNotification type title message w
  = Normal tt
      (setTrace (trace w ++ [Notify type title message; ModalShown])
         (setModal
            {| customAlertModal :=
                 Some (Some (trim (removeBorders 0 className) +:+ " " +:+
                             borderText (iconDataFor type)));
               customAlertTitle := Some (titleMarkup (iconDataFor type) title);
               customAlertBody := Some message |} w)).
Proof.
  intros Hm Ht Hb. unfold showNotification. exec. cbn. rewrite Hm, Ht. cbn. rewrite Hb. cbn.
  unfold setTrace, setModal. cbn. rewrite <- app_assoc. reflexivity.
Qed.

Lemma showNotification_effect type title message w :
  let o := showNotification type title message w in
  sameButModal w (worldOf o) /\
  exists tail, trace (worldOf o) = trace w ++ Notify type title message :: tail /\
               (tail = [] \/ (tail = [ModalShown] /\ returned o = true)).
Proof.
  unfold showNotification, sameButModal. exec. cbn.
  destruct (customAlertModal (modal w)) as [[className|]|];
    destruct (customAlertTitle (modal w));
    destruct (customAlertBody (modal w)); cbn;
    (split; [repeat split|]);
    solve [ exists []; split; [reflexivity | left; reflexivity]
          | exists [ModalShown]; split;
            [rewrite <- app_assoc; reflexivity | right; split; reflexivity] ].
Qed.

Lemma notificationsOf_app t1 t2 :
  notificationsOf (t1 ++ t2) = notificationsOf t1 ++ notificationsOf t2.
Proof. apply omap_app. Qed.

Lemma postsOf_app t1 t2 : postsOf (t1 ++ t2) = postsOf t1 ++ postsOf t2.
Proof. apply omap_app. Qed.

Lemma clicksOf_app t1 t2 : clicksOf (t1 ++ t2) = clicksOf t1 ++ clicksOf t2.
Proof. apply omap_app. Qed.

(** One call of [showNotification] is one notification, no request and no
    download activation, whatever the scaffold. *)
Lemma showNotification_trace type title message w :
  let w' := worldOf (showNotification type title message w) in
  notificationsOf (trace w') = notificationsOf (trace w) ++ [(type, title, message)] /\
  postsOf (trace w') = postsOf (trace w) /\
  clicksOf (trace w') = clicksOf (trace w).
Proof.
  destruct (showNotification_effect type title message w) as [_ [tail [Ht Htail]]].
  cbn zeta. rewrite Ht, notificationsOf_app, postsOf_app, clicksOf_app.
  destruct Htail as [-> | [-> _]]; cbn; rewrite ?app_nil_r; auto.
Qed.

(** ** Rendering *)

Lemma render_found w children inside d :
  pendingItemsList (listRegion w) = Some children ->
  getEmptyListMessage (listRegion w) = Some (inside, d) ->
  renderPendingItems w
  = Normal tt (setListRegion (renderedRegion (pendingItems w) inside (listRegion w)) w).
Proof.
  intros Hl He. unfold renderPendingItems. exec. rewrite Hl, He.
  unfold renderedRegion. destruct (pendingItems w); reflexivity.
Qed.

Lemma render_not_found w :
  pendingItemsList (listRegion w) = None \/ getEmptyListMessage (listRegion w) = None ->
  renderPendingItems w = Normal tt (setTrace (trace w ++ [ConsoleError notFoundText]) w).
Proof.
  intros H. unfold renderPendingItems. exec.
  destruct (pendingItemsList (listRegion w)) eqn:Hl;
    destruct (getEmptyListMessage (listRegion w)) as [[inside d]|] eqn:He;
    try reflexivity; destruct H; congruence.
Qed.

(** [renderPendingItems] always returns, and touches nothing but the list
    region and the console. *)
Lemma render_cases w :
  (exists children inside d,
      pendingItemsList (listRegion w) = Some children /\
      getEmptyListMessage (listRegion w) = Some (inside, d) /\
      renderPendingItems w
      = Normal tt (setListRegion (renderedRegion (pendingItems w) inside (listRegion w)) w))
  \/ ((pendingItemsList (listRegion w) = None \/ getEmptyListMessage (listRegion w) = None) /\
      renderPendingItems w = Normal tt (setTrace (trace w ++ [ConsoleError notFoundText]) w)).
Proof.
  destruct (pendingItemsList (listRegion w)) as [children|] eqn:Hl.
  - destruct (getEmptyListMessage (listRegion w)) as [[inside d]|] eqn:He.
    + left. exists children, inside, d. repeat split; try assumption.
      eapply render_found; eassumption.
    + right. split; [right; reflexivity|]. apply render_not_found. right. assumption.
  - right. split; [left; reflexivity|]. apply render_not_found. left. assumption.
Qed.

Lemma render_returns w : returned (renderPendingItems w) = true.
Proof.
  destruct (render_cases w) as [(c & i & d & _ & _ & ->) | [_ ->]]; reflexivity.
Qed.

Lemma render_store w : pendingItems (worldOf (renderPendingItems w)) = pendingItems w.
Proof.
  destruct (render_cases w) as [(c & i & d & _ & _ & ->) | [_ ->]]; reflexivity.
Qed.

Lemma omap_placeholder_rows (rows : list Row) :
  omap placeholderOf (ItemRow <$> rows) = [].
Proof. induction rows as [|x l IH]; [reflexivity | exact IH]. Qed.

Lemma getEmptyListMessage_rendered items inside r :
  (inside = true -> emptyListMessage r = None) ->
  getEmptyListMessage (renderedRegion items inside r)
  = match items with
    | [] => Some (true, "block")
    | _ => if inside then None else Some (false, "none")
    end.
Proof.
  intros Huniq. destruct items as [|item items]; [reflexivity|].
  unfold renderedRegion, getEmptyListMessage.
  change (default [] (pendingItemsList
            {| pendingItemsList := Some (ItemRow <$> imap renderRow (item :: items));
               emptyListMessage := if inside then emptyListMessage r else Some "none" |}))
    with (ItemRow <$> imap renderRow (item :: items)).
  rewrite omap_placeholder_rows. cbn [head emptyListMessage].
  destruct inside; [rewrite Huniq by reflexivity|]; reflexivity.
Qed.

Lemma domContentLoaded_returns w : returned (domContentLoaded w) = true.
Proof.
  unfold domContentLoaded. exec.
  destruct (techSignaturePad (pads w)), (opManSignaturePad (pads w)),
    (initializeDropdowns w); apply render_returns.
Qed.

Lemma inTokens_false tokens c : c ∉ tokens -> inTokens tokens c = false.
Proof.
  unfold inTokens. induction tokens as [|t tokens IH]; intros H; [reflexivity|].
  cbn [existsb]. apply not_elem_of_cons in H as [Hne Hrest].
  rewrite IH by assumption.
  apply String.eqb_neq in Hne. rewrite Hne. reflexivity.
Qed.

Lemma iconMap_unknown type :
  type ∉ ["success"; "error"; "warning"; "info"] ->
  type ∉ objectPrototypeKeys ->
  iconMap type = Undefined.
Proof.
  intros Hown Hproto. unfold iconMap.
  repeat (apply not_elem_of_cons in Hown as [Hne Hown];
          apply String.eqb_neq in Hne; rewrite Hne; clear Hne).
  change (existsb (String.eqb type) objectPrototypeKeys)
    with (inTokens objectPrototypeKeys type).
  rewrite inTokens_false by assumption. reflexivity.
Qed.

(** C9, as the code has it: [showNotification] does nothing but record the
    call when the modal element is absent, returns normally whenever the
    whole scaffold (modal, title, body, modal content) is present, and
    styles a kind that is neither one of the four names nor a member
    inherited from [Object.prototype] exactly as [info];
    [renderPendingItems] and the [DOMContentLoaded] listener never throw,
    the former logging one console error when one of its two elements is
    missing. *)
Theorem showNotification_degrades (type title message : string) (w : World) :
  (customAlertModal (modal w) = None ->
   showNotification type title message w
   = Normal tt (setTrace (trace w ++ [Notify type title message]) w)) /\
  (completeScaffold (modal w) ->
   returned (showNotification type title message w) = true) /\
  (type ∉ ["success"; "error"; "warning"; "info"] ->
   type ∉ objectPrototypeKeys ->
   modal (worldOf (showNotification type title message w))
   = modal (worldOf (showNotification "info" title message w))) /\
  returned (renderPendingItems w) = true /\
  (pendingItemsList (listRegion w) = None \/
   getEmptyListMessage (listRegion w) = None ->
   renderPendingItems w
   = Normal tt (setTrace (trace w ++ [ConsoleError notFoundText]) w)) /\
  returned (domContentLoaded w) = true.
Proof.
  split; [apply showNotification_no_modal|].
  split.
  { intros [[className Hm] [[t Ht] [b Hb]]].
    rewrite (showNotification_complete _ _ _ _ _ _ _ Hm Ht Hb). reflexivity. }
  split.
  { intros Hown Hproto. unfold showNotification, iconDataFor.
    rewrite (iconMap_unknown type Hown Hproto). exec. cbn.
    destruct (customAlertModal (modal w)) as [[className|]|];
      destruct (customAlertTitle (modal w));
      destruct (customAlertBody (modal w)); reflexivity. }
  split; [apply render_returns|].
  split; [apply render_not_found | apply domContentLoaded_returns].
Qed.

(** The same on the sample pages, with a kind the icon map does not know. *)
Lemma showNotification_degrades_witness :
  showNotification "debug" "Saved" "Report saved." pageWithoutModal
  = Normal tt (setTrace [Notify "debug" "Saved" "Report saved."] pageWithoutModal) /\
  returned (showNotification "debug" "Saved" "Report saved." samplePage) = true /\
  modal (worldOf (showNotification "debug" "Saved" "Report saved." samplePage))
  = modal (worldOf (showNotification "info" "Saved" "Report saved." samplePage)) /\
  renderPendingItems pageWithoutList
  = Normal tt (setTrace [ConsoleError notFoundText] pageWithoutList).
Proof.
  pose proof (showNotification_degrades "debug" "Saved" "Report saved." pageWithoutModal)
    as (H1 & _).
  pose proof (showNotification_degrades "debug" "Saved" "Report saved." samplePage)
    as (_ & H2 & H3 & _).
  pose proof (showNotification_degrades "debug" "Saved" "Report saved." pageWithoutList)
    as (_ & _ & _ & _ & H5 & _).
  split; [apply H1; reflexivity|].
  split.
  { apply H2. split; [eexists; reflexivity|]. split; eexists; reflexivity. }
  split; [|apply H5; left; reflexivity].
  apply H3; apply (bool_decide_unpack _); vm_compute; exact I.
Defined.

(** C9, refuted as stated: with the modal element present and its title
    element missing, [showNotification] throws a [TypeError] instead of
    degrading to a no-op. *)
Lemma showNotification_partial_scaffold_throws :
  showNotification "info" "Saved" "Report saved." pageWithoutAlertTitle
  = Thrown (TypeError "customAlertTitle")
      (setTrace [Notify "info" "Saved" "Report saved."] pageWithoutAlertTitle).
Proof. reflexivity. Qed.

(** A kind that names a member of [Object.prototype] is unrecognized and
    yet not styled as [info]. *)
Example showNotification_constructor_kind :
  customAlertModal
    (modal (worldOf (showNotification "constructor" "Saved" "Report saved." samplePage)))
  = Some (Some "modal-content undefined").
Proof. reflexivity. Qed.

(** ** Submission: the signature guard *)

Lemma classListAdd_elem token cl : token ∈ classListAdd token cl.
Proof.
  unfold classListAdd, inTokens. destruct (existsb (String.eqb token) cl) eqn:H.
  - apply existsb_exists in H as [x [Hin Heq]].
    apply String.eqb_eq in Heq. subst x. apply list_elem_of_In. exact Hin.
  - apply elem_of_app. right. apply list_elem_of_singleton. reflexivity.
Qed.

Lemma classListRemove_not_elem token tokens cl :
  token ∈ tokens -> token ∉ classListRemove tokens cl.
Proof.
  intros Hin Hmem. unfold classListRemove in Hmem.
  apply list_elem_of_In, filter_In in Hmem as [_ Hneg].
  apply negb_true_iff in Hneg.
  assert (inTokens tokens token = true) as Ht.
  { unfold inTokens. apply existsb_exists. exists token. split.
    - apply list_elem_of_In. exact Hin.
    - apply String.eqb_refl. }
  congruence.
Qed.

Lemma classListAdd_other token other cl :
  other <> token -> other ∉ cl -> other ∉ classListAdd token cl.
Proof.
  intros Hne Hnot. unfold classListAdd. destruct (inTokens cl token); [exact Hnot|].
  intros Hin. apply elem_of_app in Hin as [Hin|Hin]; [contradiction|].
  apply list_elem_of_singleton in Hin. contradiction.
Qed.

(** C1: when the technician pad exists and reports empty content,
    [onSubmit] records nothing but the suppressed default action, so no
    request is issued, and it leaves the store, the pads, the item
    controls, the list, the timers, the status line and the form fields as
    they were; with the download area, the hidden signature field and the
    banner in the document it returns normally and the banner carries the
    warning class and the warning text. *)
Theorem onSubmit_empty_signature (w : World) :
  techPad (pads w) = Some true ->
  let o := onSubmit w in
  let w' := worldOf o in
  trace w' = trace w ++ [PreventDefault] /\
  postsOf (trace w') = postsOf (trace w) /\
  pendingItems w' = pendingItems w /\ pads w' = pads w /\
  addRegion w' = addRegion w /\ listRegion w' = listRegion w /\
  loop w' = loop w /\ modal w' = modal w /\
  status (submitRegion w') = status (submitRegion w) /\
  techSignatureData (submitRegion w') = techSignatureData (submitRegion w) /\
  opManSignatureData (submitRegion w') = opManSignatureData (submitRegion w) /\
  visitForm (submitRegion w') = visitForm (submitRegion w) /\
  (forall d sig a,
      downloadArea (submitRegion w) = Some d ->
      techSignatureData (submitRegion w) = Some sig ->
      submission_alert (submitRegion w) = Some a ->
      o = Normal tt w' /\
      exists classes,
        submission_alert (submitRegion w')
        = Some {| classList := classes; textContent := warningText |} /\
        "alert-warning" ∈ classes /\ "alert-info" ∉ classes).
Proof.
  intros Hpad.
  destruct (downloadArea (submitRegion w)) as [d0|] eqn:Hd;
    destruct (techSignatureData (submitRegion w)) as [sig0|] eqn:Hs;
    destruct (submission_alert (submitRegion w)) as [a0|] eqn:Ha;
    unfold onSubmit; exec; cbn; rewrite ?Hd; cbn; rewrite ?Hs; cbn;
    rewrite ?Hpad; cbn; rewrite ?Ha; cbn; rewrite ?Ha; cbn;
    rewrite postsOf_app, app_nil_r;
    repeat match goal with |- _ /\ _ => split end;
    try reflexivity; try congruence; intros d sig a E1 E2 E3; try discriminate.
  injection E3 as <-. split; [reflexivity|].
  eexists. split; [reflexivity|]. split.
  - apply classListAdd_elem.
  - apply classListAdd_other; [discriminate|].
    apply classListRemove_not_elem. apply list_elem_of_singleton. reflexivity.
Qed.

(** The same on the sample page right after start-up, its pad still empty. *)
Lemma onSubmit_empty_signature_witness :
  trace (worldOf (onSubmit readyPage)) = trace readyPage ++ [PreventDefault] /\
  onSubmit readyPage = Normal tt (worldOf (onSubmit readyPage)) /\
  exists classes,
    submission_alert (submitRegion (worldOf (onSubmit readyPage)))
    = Some {| classList := classes; textContent := warningText |} /\
    "alert-warning" ∈ classes /\ "alert-info" ∉ classes.
Proof.
  pose proof (onSubmit_empty_signature readyPage eq_refl) as H.
  cbv zeta in H.
  split; [exact (proj1 H)|].
  repeat (apply proj2 in H).
  exact (H "" "" {| classList := ["alert"; "alert-info"]; textContent := "" |}
           eq_refl eq_refl eq_refl).
Defined.

(** C10: without a technician pad object [onSubmit] runs no signature
    check: with the elements of the submission region in the document it
    returns after issuing exactly one POST to [/submit-report], whose body
    carries under [tech_signature] whatever the hidden field holds, the
    empty string included, and under [report_items] the store; a
    submission that returns without a request had a pad object reporting
    empty content; and a page without the technician's canvas has no pad
    object after [DOMContentLoaded] either. *)
Theorem onSubmit_without_pad (w : World) :
  (techPad (pads w) = None ->
   forall d sig entries opMan st a,
     downloadArea (submitRegion w) = Some d ->
     techSignatureData (submitRegion w) = Some sig ->
     visitForm (submitRegion w) = Some entries ->
     opManSignatureData (submitRegion w) = Some opMan ->
     status (submitRegion w) = Some st ->
     submission_alert (submitRegion w) = Some a ->
     exists body w',
       onSubmit w = Normal tt w' /\
       trace w' = trace w ++ [PreventDefault; Post "/submit-report" body "application/json"] /\
       body !! "tech_signature" = Some (VStr sig) /\
       body !! "report_items" = Some (VItems (pendingItems w))) /\
  (returned (onSubmit w) = true ->
   postsOf (trace (worldOf (onSubmit w))) = postsOf (trace w) ->
   techPad (pads w) = Some true) /\
  (techSignaturePad (pads w) = false ->
   techPad (pads w) = None ->
   techPad (pads (dispatch domContentLoaded w)) = None).
Proof.
  split; [|split].
  - intros Hpad d sig entries opMan st a Hd Hs Hf Ho Hst Ha.
    unfold onSubmit. exec. cbn. rewrite Hd. cbn. rewrite Hs. cbn. rewrite Hpad. cbn.
    rewrite Hf. cbn. rewrite Ho. cbn. rewrite Hst. cbn. rewrite Ha. cbn.
    eexists. eexists. split; [reflexivity|]. split.
    + unfold setTrace. cbn. rewrite <- app_assoc. reflexivity.
    + split.
      * rewrite !lookup_insert_ne by discriminate. apply lookup_insert_eq.
      * apply lookup_insert_eq.
  - destruct (downloadArea (submitRegion w)) as [d0|] eqn:Hd;
      destruct (techSignatureData (submitRegion w)) as [sig0|] eqn:Hs;
      destruct (submission_alert (submitRegion w)) as [a0|] eqn:Ha;
      destruct (visitForm (submitRegion w)) as [en|] eqn:Hf;
      destruct (opManSignatureData (submitRegion w)) as [om|] eqn:Ho;
      destruct (status (submitRegion w)) as [st|] eqn:Hst;
      destruct (techPad (pads w)) as [[|]|] eqn:Hpad;
      unfold onSubmit; exec; cbn; rewrite ?Hd; cbn; rewrite ?Hs; cbn;
      rewrite ?Hpad; cbn; rewrite ?Ha; cbn; rewrite ?Hf; cbn; rewrite ?Ho; cbn;
      rewrite ?Hst; cbn; rewrite ?Ha; cbn;
      intros Hret Hposts; try discriminate; try reflexivity;
      rewrite <- app_assoc, postsOf_app in Hposts; cbn in Hposts;
      apply (f_equal length) in Hposts; rewrite length_app in Hposts;
      cbn in Hposts; lia.
  - intros Hcanvas Hpad. unfold dispatch, domContentLoaded. exec.
    rewrite Hcanvas.
    destruct (opManSignaturePad (pads w)), (initializeDropdowns w);
      match goal with
      | |- context [renderPendingItems ?x] =>
          destruct (render_cases x) as [(c & i & d & _ & _ & ->) | [_ ->]]
      end; cbn; exact Hpad.
Qed.

(** The same on the started page that has no technician's canvas. *)
Lemma onSubmit_without_pad_witness :
  exists body w',
    onSubmit readyPageWithoutTechPad = Normal tt w' /\
    trace w' = trace readyPageWithoutTechPad
               ++ [PreventDefault; Post "/submit-report" body "application/json"] /\
    body !! "tech_signature" = Some (VStr "") /\
    body !! "report_items" = Some (VItems []).
Proof.
  exact (proj1 (onSubmit_without_pad readyPageWithoutTechPad) eq_refl
           "" "" [("site_name", "Tower A")] "" ""
           {| classList := ["alert"; "alert-info"]; textContent := "" |}
           eq_refl eq_refl eq_refl eq_refl eq_refl eq_refl).
Defined.

(** ** Adding an item *)

Lemma truthyString_valid s : negb (truthyString s) = false <-> s <> "".
Proof. destruct s; cbn; split; intros H; congruence. Qed.

Lemma validControls_check c :
  negb (truthyString (assetSelect c)) || negb (truthyString (systemSelect c))
  || negb (truthyString (descriptionSelect c)) = false
  <-> validControls c.
Proof.
  unfold validControls. rewrite !orb_false_iff, !truthyString_valid. tauto.
Qed.

Lemma validControls_dec c : validControls c \/ ~ validControls c.
Proof.
  destruct (negb (truthyString (assetSelect c)) || negb (truthyString (systemSelect c))
            || negb (truthyString (descriptionSelect c))) eqn:H.
  - right. intros Hv. apply validControls_check in Hv. congruence.
  - left. apply validControls_check. exact H.
Qed.

(** The four ways the synchronous part of [handleAddItem] can go. *)
Lemma handleAddItem_cases w :
  (itemControls (addRegion w) = None /\
   handleAddItem w = Thrown (TypeError "item controls") w)
  \/ (exists c, itemControls (addRegion w) = Some c /\ ~ validControls c /\
        handleAddItem w
        = (showNotification "error" "Missing Fields"
             "Please select an **Asset**, **System**, and **Description**.";;
           mret None) w)
  \/ (exists c, itemControls (addRegion w) = Some c /\ validControls c /\
        photoInput (addRegion w) = None /\
        handleAddItem w = Thrown (TypeError "photoInput") w)
  \/ (exists c files, itemControls (addRegion w) = Some c /\ validControls c /\
        photoInput (addRegion w) = Some files /\
        handleAddItem w = Normal (Some {| jobControls := c; jobFiles := files |}) w).
Proof.
  destruct (itemControls (addRegion w)) as [c|] eqn:Hc.
  2:{ left. split; [reflexivity|]. unfold handleAddItem. exec. rewrite Hc. reflexivity. }
  right.
  destruct (negb (truthyString (assetSelect c)) || negb (truthyString (systemSelect c))
            || negb (truthyString (descriptionSelect c))) eqn:Hv.
  - left. exists c. split; [reflexivity|]. split.
    + intros H. apply validControls_check in H. congruence.
    + unfold handleAddItem. exec. rewrite Hc. cbn. rewrite Hv. reflexivity.
  - right. apply validControls_check in Hv as Hvalid.
    destruct (photoInput (addRegion w)) as [files|] eqn:Hp.
    + right. exists c, files.
      split; [reflexivity|]. split; [assumption|]. split; [reflexivity|].
      unfold handleAddItem. exec. rewrite Hc. cbn. rewrite Hv, Hp. reflexivity.
    + left. exists c.
      split; [reflexivity|]. split; [assumption|]. split; [reflexivity|].
      unfold handleAddItem. exec. rewrite Hc. cbn. rewrite Hv, Hp. reflexivity.
Qed.

Lemma notify_then_none_world type title message w :
  worldOf ((showNotification type title message;; mret (@None AddJob)) w)
  = worldOf (showNotification type title message w).
Proof.
  rewrite bind_run. destruct (showNotification type title message w); reflexivity.
Qed.

Lemma notify_then_none_result type title message w job w' :
  (showNotification type title message;; mret (@None AddJob)) w <> Normal (Some job) w'.
Proof.
  rewrite bind_run. destruct (showNotification type title message w); discriminate.
Qed.

(** The synchronous part never touches the store or the list. *)
Lemma handleAddItem_store w :
  pendingItems (worldOf (handleAddItem w)) = pendingItems w /\
  listRegion (worldOf (handleAddItem w)) = listRegion w.
Proof.
  destruct (handleAddItem_cases w)
    as [[_ ->] | [(c & _ & _ & ->) | [(c & _ & _ & _ & ->) | (c & f & _ & _ & _ & ->)]]];
    try (split; reflexivity).
  rewrite notify_then_none_world.
  destruct (showNotification_effect "error" "Missing Fields"
              "Please select an **Asset**, **System**, and **Description**." w)
    as [(Hs & _ & _ & Hl & _) _].
  split; assumption.
Qed.

(** A started job carries valid controls. *)
Lemma handleAddItem_job w job w' :
  handleAddItem w = Normal (Some job) w' ->
  w' = w /\ validControls (jobControls job) /\
  itemControls (addRegion w) = Some (jobControls job) /\
  photoInput (addRegion w) = Some (jobFiles job).
Proof.
  destruct (handleAddItem_cases w)
    as [[_ ->] | [(c & _ & _ & ->) | [(c & _ & _ & _ & ->) | (c & f & Hc & Hv & Hp & ->)]]];
    intros H; try discriminate.
  - exfalso. eapply notify_then_none_result. exact H.
  - injection H as <- <-. cbn.
    split; [reflexivity|]. split; [exact Hv|]. split; assumption.
Qed.

Lemma addItemCatch_effect error w :
  let w' := worldOf (addItemCatch error w) in
  sameButModal w w' /\
  notificationsOf (trace w') = notificationsOf (trace w) ++ [photoError] /\
  postsOf (trace w') = postsOf (trace w).
Proof.
  unfold addItemCatch. rewrite bind_run. unfold emit, modify.
  set (w1 := setTrace (trace w ++ [ConsoleError "Error converting files to Base64:"]) w).
  destruct (showNotification_effect "error" "Photo Error" "Failed to process photos." w1)
    as [Hsame _].
  destruct (showNotification_trace "error" "Photo Error" "Failed to process photos." w1)
    as (Hn & Hp & _).
  cbn zeta. split; [exact Hsame|]. rewrite Hn, Hp. subst w1. cbn [trace setTrace].
  rewrite notificationsOf_app, postsOf_app. cbn. rewrite !app_nil_r. split; reflexivity.
Qed.

Lemma tryCatch_world {A} (m : M A) (h : JSError -> M A) w :
  worldOf (tryCatch m h w)
  = match m w with
    | Normal _ w' => w'
    | Thrown e w' => worldOf (h e w')
    end.
Proof. unfold tryCatch. destruct (m w); reflexivity. Qed.

(** [renderPendingItems] changes the list region and the console only. *)
Lemma render_effect w :
  let w' := worldOf (renderPendingItems w) in
  pendingItems w' = pendingItems w /\ pads w' = pads w /\ modal w' = modal w /\
  addRegion w' = addRegion w /\ submitRegion w' = submitRegion w /\
  loop w' = loop w /\
  notificationsOf (trace w') = notificationsOf (trace w) /\
  postsOf (trace w') = postsOf (trace w) /\
  clicksOf (trace w') = clicksOf (trace w).
Proof.
  destruct (render_cases w) as [(c & i & d & _ & _ & ->) | [_ ->]]; cbn.
  - repeat split; reflexivity.
  - rewrite notificationsOf_app, postsOf_app, clicksOf_app. cbn.
    rewrite !app_nil_r. repeat split; reflexivity.
Qed.

(** The [.then] callback always pushes the new item, whatever happens
    after the push. *)
Lemma addItemThen_store job payloads w :
  pendingItems (worldOf (addItemThen job payloads w))
  = pendingItems w ++ [newItem (jobControls job) payloads].
Proof.
  unfold addItemThen. rewrite bind_run. unfold modify at 1.
  set (w1 := setPendingItems _ w).
  rewrite bind_run.
  pose proof (render_returns w1) as Hret.
  pose proof (render_effect w1) as (Hs & _ & _ & Ha & _).
  destruct (renderPendingItems w1) as [[] w2|]; [|discriminate]. cbn in Hs, Ha.
  rewrite bind_run. unfold get. rewrite bind_run.
  destruct (itemControls (addRegion w2)) as [c|]; cbn [deref mret M_ret throw worldOf].
  2:{ exact Hs. }
  exec.
  match goal with
  | |- pendingItems (worldOf (showNotification ?a ?b ?c ?x)) = _ =>
      destruct (showNotification_effect a b c x) as [(Hp & _) _]
  end.
  rewrite Hp. exact Hs.
Qed.

(** What the settled promise chain leaves in the store: on success the
    old items followed by the new one, on a failed read the old items. *)
Lemma addItemSettled_store job w :
  let w' := dispatch (addItemSettled job) w in
  match promiseAll (fileToBase64 <$> jobFiles job) with
  | inl payloads =>
      pendingItems w' = pendingItems w ++ [newItem (jobControls job) payloads]
  | inr _ =>
      sameButModal w w' /\
      notificationsOf (trace w') = notificationsOf (trace w) ++ [photoError] /\
      postsOf (trace w') = postsOf (trace w)
  end.
Proof.
  unfold dispatch, addItemSettled. cbn zeta. rewrite tryCatch_world.
  destruct (promiseAll (fileToBase64 <$> jobFiles job)) as [payloads|error].
  - pose proof (addItemThen_store job payloads w) as Hstore.
    destruct (addItemThen job payloads w) as [[] w1|e w1]; cbn in Hstore; [exact Hstore|].
    destruct (addItemCatch_effect e w1) as [(Hp & _) _]. rewrite Hp. exact Hstore.
  - unfold throw. apply addItemCatch_effect.
Qed.

(** [Promise.all] succeeds exactly when every read does, and then yields
    the results in the order of the reads. *)
Lemma promiseAll_all_loaded (payloads : list string) :
  promiseAll (inl <$> payloads) = inl payloads.
Proof.
  induction payloads as [|p payloads IH]; [reflexivity|].
  cbn. cbn in IH. rewrite IH. reflexivity.
Qed.

Lemma promiseAll_rejects reads error :
  inr error ∈ reads -> exists error', promiseAll reads = inr error'.
Proof.
  induction reads as [|r reads IH]; intros Hin.
  - apply elem_of_nil in Hin. contradiction.
  - destruct r as [result|e]; [|eexists; reflexivity].
    apply elem_of_cons in Hin as [Heq|Hin]; [discriminate|].
    destruct (IH Hin) as [e' He']. exists e'. cbn. rewrite He'. reflexivity.
Qed.

Lemma promiseAll_inl reads payloads :
  promiseAll reads = inl payloads -> reads = inl <$> payloads.
Proof.
  revert payloads. induction reads as [|r reads IH]; intros payloads H.
  - injection H as <-. reflexivity.
  - destruct r as [result|e]; [|discriminate]. cbn in H.
    destruct (promiseAll reads) as [results|e]; [|discriminate].
    injection H as <-. cbn. f_equal. apply IH. reflexivity.
Qed.

(** A notification on a page whose modal scaffold is complete is
    displayed: title, body and border are written and the modal is shown
    once.  On any other page nothing is displayed. *)
Lemma showNotification_not_shown type title message w :
  ~ completeScaffold (modal w) ->
  trace (worldOf (showNotification type title message w))
  = trace w ++ [Notify type title message].
Proof.
  intros Hn. unfold showNotification. exec. cbn.
  destruct (customAlertModal (modal w)) as [[className|]|] eqn:Hm;
    destruct (customAlertTitle (modal w)) as [t|] eqn:Ht;
    destruct (customAlertBody (modal w)) as [b|] eqn:Hb; cbn; try reflexivity.
  exfalso. apply Hn. split; [eexists; exact Hm|]. split; eexists; eassumption.
Qed.

Lemma addItemCatch_shown error w className t b :
  customAlertModal (modal w) = Some (Some className) ->
  customAlertTitle (modal w) = Some t ->
  customAlertBody (modal w) = Some b ->
  addItemCatch error w
  = Normal tt
      (setTrace
         (trace w ++ [ConsoleError "Error converting files to Base64:";
                      Notify "error" "Photo Error" "Failed to process photos.";
                      ModalShown])
         (setModal
            {| customAlertModal :=
                 Some (Some (trim (removeBorders 0 className) +:+ " border-danger"));
               customAlertTitle := Some (titleMarkup (iconDataFor "error") "Photo Error");
               customAlertBody := Some "Failed to process photos." |} w)).
Proof.
  intros Hm Ht Hb. unfold addItemCatch. rewrite bind_run. unfold emit, modify.
  erewrite showNotification_complete by (cbn; eassumption).
  cbn. rewrite <- app_assoc. reflexivity.
Qed.

Lemma addItemCatch_not_shown error w :
  ~ completeScaffold (modal w) ->
  trace (worldOf (addItemCatch error w))
  = trace w ++ [ConsoleError "Error converting files to Base64:";
                Notify "error" "Photo Error" "Failed to process photos."].
Proof.
  intros Hn. unfold addItemCatch. rewrite bind_run. unfold emit, modify.
  rewrite showNotification_not_shown by exact Hn.
  cbn. rewrite <- app_assoc. reflexivity.
Qed.

(** C2: a click on the add button with the required fields filled starts
    the reads of exactly the selected files and changes nothing by itself.
    When every read succeeds, the chain yields one payload per file, in
    the order of the files, and the item pushed to the store carries
    exactly these.  When the read of any one file fails, the chain leaves
    the store, the rendered list and the controls as they were, issues no
    request and reports the failure once: on a page whose modal scaffold
    is complete the modal is shown exactly once, with the title
    [Photo Error], the body [Failed to process photos.] and the border of
    an error; on a page without a complete scaffold the call is made and
    nothing is displayed.  [w] is the page at the click, [w1] the page
    when the reads have settled. *)
Theorem photo_encoding_all_or_nothing (w w1 : World) (c : ItemControls)
    (files : list File) :
  itemControls (addRegion w) = Some c ->
  validControls c ->
  photoInput (addRegion w) = Some files ->
  let job := {| jobControls := c; jobFiles := files |} in
  let w' := dispatch (addItemSettled job) w1 in
  (handleAddItem w = Normal (Some job) w /\
   addItem w = addItemSettled job w) /\
  (forall payloads,
      fileToBase64 <$> files = inl <$> payloads ->
      promiseAll (fileToBase64 <$> files) = inl payloads /\
      length payloads = length files /\
      (forall k f, files !! k = Some f ->
                   exists payload, fileToBase64 f = inl payload /\
                                   payloads !! k = Some payload) /\
      pendingItems w' = pendingItems w1 ++ [newItem c payloads] /\
      photoFiles (newItem c payloads) = payloads) /\
  (forall f error,
      f ∈ files -> fileToBase64 f = inr error ->
      sameButModal w1 w' /\
      postsOf (trace w') = postsOf (trace w1) /\
      notificationsOf (trace w') = notificationsOf (trace w1) ++ [photoError] /\
      (completeScaffold (modal w1) ->
       returned (addItemSettled job w1) = true /\
       trace w'
       = trace w1 ++ [ConsoleError "Error converting files to Base64:";
                      Notify "error" "Photo Error" "Failed to process photos.";
                      ModalShown] /\
       customAlertTitle (modal w')
       = Some (titleMarkup (iconDataFor "error") "Photo Error") /\
       customAlertBody (modal w') = Some "Failed to process photos." /\
       exists className,
         customAlertModal (modal w1) = Some (Some className) /\
         customAlertModal (modal w')
         = Some (Some (trim (removeBorders 0 className) +:+ " border-danger"))) /\
      (~ completeScaffold (modal w1) ->
       trace w'
       = trace w1 ++ [ConsoleError "Error converting files to Base64:";
                      Notify "error" "Photo Error" "Failed to process photos."])).
Proof.
  intros Hc Hv Hp job w'.
  assert (handleAddItem w = Normal (Some job) w) as Hsync.
  { destruct (handleAddItem_cases w)
      as [[Hn _] | [(c' & Hc' & Hinv & _)
                   | [(c' & _ & _ & Hp' & _) | (c' & f' & Hc' & _ & Hp' & Heq)]]].
    - congruence.
    - exfalso. apply Hinv. congruence.
    - congruence.
    - assert (c' = c) by congruence. assert (f' = files) by congruence.
      subst c' f'. exact Heq. }
  split.
  { split; [exact Hsync|]. unfold addItem. rewrite bind_run, Hsync. reflexivity. }
  pose proof (addItemSettled_store job w1) as Hstore. cbn zeta in Hstore.
  fold w' in Hstore. change (jobFiles job) with files in Hstore.
  change (jobControls job) with c in Hstore.
  split.
  - intros payloads Hreads. rewrite Hreads, promiseAll_all_loaded in *.
    split; [reflexivity|]. split.
    { apply (f_equal length) in Hreads. rewrite !length_fmap in Hreads. lia. }
    split; [|split; [exact Hstore | reflexivity]].
    intros k f Hk.
    apply (f_equal (fun l => l !! k)) in Hreads.
    rewrite !list_lookup_fmap, Hk in Hreads.
    destruct (payloads !! k) as [payload|]; cbn in Hreads; [|discriminate].
    injection Hreads as Hread. exists payload. split; [exact Hread | reflexivity].
  - intros f error Hin Hread.
    destruct (promiseAll_rejects (fileToBase64 <$> files) error) as [e He].
    { rewrite <- Hread. apply list_elem_of_fmap. exists f. split; [reflexivity | exact Hin]. }
    rewrite He in Hstore. destruct Hstore as (Hsame & Hn & Hposts).
    split; [exact Hsame|]. split; [exact Hposts|]. split; [exact Hn|].
    assert (addItemSettled job w1 = addItemCatch (ReadFailure e) w1) as Hrun.
    { unfold addItemSettled, tryCatch. change (jobFiles job) with files.
      rewrite He. reflexivity. }
    subst w'. unfold dispatch. rewrite Hrun. split.
    + intros [[className Hm] [[t Ht] [b Hb]]].
      rewrite (addItemCatch_shown (ReadFailure e) w1 className t b Hm Ht Hb).
      cbn [returned worldOf]. split; [reflexivity|]. split; [reflexivity|].
      split; [reflexivity|]. split; [reflexivity|].
      exists className. split; [exact Hm | reflexivity].
    + apply addItemCatch_not_shown.
Qed.

(** The same on the started sample page: two readable photos, and a
    selection with an unreadable one in the middle. *)
Lemma photo_encoding_all_or_nothing_witness :
  handleAddItem (dispatch (userFills pumpLeak [photoA; photoB]) readyPage)
  = Normal (Some {| jobControls := pumpLeak; jobFiles := [photoA; photoB] |})
      (dispatch (userFills pumpLeak [photoA; photoB]) readyPage) /\
  pendingItems (session [userFills pumpLeak [photoA; photoB]; addItem] readyPage)
  = [newItem pumpLeak ["data:image/png;base64,AAAA"; "data:image/png;base64,BBBB"]] /\
  pendingItems (session [userFills pumpLeak [photoA; photoBad; photoB]; addItem] readyPage)
  = [] /\
  trace (session [userFills pumpLeak [photoA; photoBad; photoB]; addItem] readyPage)
  = trace readyPage
    ++ [ConsoleError "Error converting files to Base64:";
        Notify "error" "Photo Error" "Failed to process photos."; ModalShown] /\
  customAlertBody
    (modal (session [userFills pumpLeak [photoA; photoBad; photoB]; addItem] readyPage))
  = Some "Failed to process photos.".
Proof.
  assert (validControls pumpLeak) as Hv by (repeat split; discriminate).
  assert (completeScaffold (modal (dispatch (userFills pumpLeak [photoA; photoBad; photoB])
                                     readyPage))) as Hm.
  { split; [eexists; reflexivity|]. split; eexists; reflexivity. }
  pose proof (photo_encoding_all_or_nothing
                (dispatch (userFills pumpLeak [photoA; photoB]) readyPage)
                (dispatch (userFills pumpLeak [photoA; photoB]) readyPage)
                pumpLeak [photoA; photoB] eq_refl Hv eq_refl) as ((Hjob & _) & Hok & _).
  pose proof (photo_encoding_all_or_nothing
                (dispatch (userFills pumpLeak [photoA; photoBad; photoB]) readyPage)
                (dispatch (userFills pumpLeak [photoA; photoBad; photoB]) readyPage)
                pumpLeak [photoA; photoBad; photoB] eq_refl Hv eq_refl) as (_ & _ & Hbad).
  destruct (Hok ["data:image/png;base64,AAAA"; "data:image/png;base64,BBBB"] eq_refl)
    as (_ & _ & _ & Hstore & _).
  destruct (Hbad photoBad "NotReadableError"
              (list_elem_of_further _ _ _ (list_elem_of_here _ _)) eq_refl)
    as ((Hkeep & _) & _ & _ & Hshown & _).
  destruct (Hshown Hm) as (_ & Htrace & _ & Hbody & _).
  split; [exact Hjob|]. split; [exact Hstore|]. split; [exact Hkeep|].
  split; [exact Htrace | exact Hbody].
Defined.

(** ** The store invariant *)

Lemma newItem_valid c payloads : validControls c -> validItem (newItem c payloads).
Proof. intros H. exact H. Qed.

Lemma splice1_Forall {A} (P : A -> Prop) start (l : list A) :
  Forall P l -> Forall P (splice1 start l).
Proof. intros H. unfold splice1. apply Forall_delete. exact H. Qed.

Lemma removeClick_store dataIndex w :
  pendingItems (dispatch (removeClick dataIndex) w)
  = splice1 (parseInt dataIndex) (pendingItems w).
Proof.
  unfold dispatch, removeClick. rewrite bind_run. unfold modify.
  rewrite render_store. reflexivity.
Qed.

(** A whole click on the add button either leaves the store as it was or
    appends one item built from valid controls. *)
Lemma addItem_store w :
  pendingItems (dispatch addItem w) = pendingItems w \/
  exists c payloads,
    itemControls (addRegion w) = Some c /\ validControls c /\
    pendingItems (dispatch addItem w) = pendingItems w ++ [newItem c payloads].
Proof.
  unfold dispatch, addItem. rewrite bind_run.
  pose proof (handleAddItem_store w) as [Hstore _].
  destruct (handleAddItem w) as [[job|] w1|e w1] eqn:Hsync; cbn in Hstore.
  - apply handleAddItem_job in Hsync as (-> & Hv & Hc & _).
    pose proof (addItemSettled_store job w) as Hs. cbn zeta in Hs. unfold dispatch in Hs.
    destruct (promiseAll (fileToBase64 <$> jobFiles job)) as [payloads|error].
    + right. exists (jobControls job), payloads. repeat split; try assumption; apply Hv.
    + left. apply Hs.
  - left. exact Hstore.
  - left. exact Hstore.
Qed.

(** C5, as the code has it: the quantity of an added item is the integer
    [parseInt] reads from the input when that is a number other than zero,
    negative ones included, and 1 when the input is unparsable or reads as
    zero; it is never zero.  Every item the promise chain appends is built
    this way. *)
Theorem quantity_defaults_to_one (job : AddJob) (w : World) :
  let q := orNumber (parseInt (quantityInput (jobControls job))) 1 in
  q <> 0%Z /\
  (parseInt (quantityInput (jobControls job)) = NaN -> q = 1%Z) /\
  (parseInt (quantityInput (jobControls job)) = Num 0 -> q = 1%Z) /\
  (forall z, parseInt (quantityInput (jobControls job)) = Num z -> z <> 0%Z -> q = z) /\
  exists added,
    pendingItems (dispatch (addItemSettled job) w) = pendingItems w ++ added /\
    Forall (fun item => quantity item = q) added.
Proof.
  cbn zeta. split; [|split; [|split; [|split]]].
  - destruct (parseInt (quantityInput (jobControls job))) as [|z]; cbn; [lia|].
    destruct (Z.eqb_spec z 0); lia.
  - intros ->. reflexivity.
  - intros ->. reflexivity.
  - intros z -> Hz. cbn. destruct (Z.eqb_spec z 0); [contradiction | reflexivity].
  - pose proof (addItemSettled_store job w) as Hs. cbn zeta in Hs.
    destruct (promiseAll (fileToBase64 <$> jobFiles job)) as [payloads|error].
    + exists [newItem (jobControls job) payloads]. split; [exact Hs|].
      apply Forall_singleton. reflexivity.
    + exists []. rewrite app_nil_r. split; [apply Hs | constructor].
Qed.

(** The same for an unparsable, a zero and a negative quantity. *)
Lemma quantity_defaults_to_one_witness :
  orNumber (parseInt "abc") 1 = 1%Z /\
  orNumber (parseInt "0") 1 = 1%Z /\
  orNumber (parseInt "-3") 1 = (-3)%Z.
Proof.
  pose (job q := {| jobControls :=
                      {| assetSelect := "Pump"; systemSelect := "HVAC";
                         descriptionSelect := "Leak"; quantityInput := q;
                         brandInput := ""; commentsTextarea := "" |};
                    jobFiles := [] |}).
  split; [|split].
  - exact (proj1 (proj2 (quantity_defaults_to_one (job "abc") readyPage)) eq_refl).
  - exact (proj1 (proj2 (proj2 (quantity_defaults_to_one (job "0") readyPage))) eq_refl).
  - refine (proj1 (proj2 (proj2 (proj2 (quantity_defaults_to_one (job "-3") readyPage))))
             (-3)%Z eq_refl _).
    discriminate.
Defined.

(** C5, refuted as stated: with the quantity input reading [-3] the item
    that reaches the store has quantity -3, which is not positive. *)
Lemma negative_quantity_is_stored :
  quantity <$> pendingItems (session [userFills minusThree []; addItem] readyPage)
  = [(-3)%Z] /\
  ~ Forall (fun item => (0 < quantity item)%Z)
      (pendingItems (session [userFills minusThree []; addItem] readyPage)).
Proof.
  split; [reflexivity|].
  intros H.
  assert (pendingItems (session [userFills minusThree []; addItem] readyPage)
          = [newItem minusThree []]) as E by reflexivity.
  rewrite E in H. apply Forall_cons in H as [H _]. vm_compute in H. discriminate.
Qed.

(** ** Removing an item *)

Lemma delete_past_end {A} (l : list A) i : length l <= i -> delete i l = l.
Proof.
  intros H. rewrite delete_take_drop, take_ge, drop_ge by lia. apply app_nil_r.
Qed.

Lemma splice1_in_range {A} (l : list A) (i : Z) :
  (0 <= i < Z.of_nat (length l))%Z -> splice1 (Num i) l = delete (Z.to_nat i) l.
Proof.
  intros H. unfold splice1. destruct (Z.ltb_spec i 0); [lia|].
  rewrite Z.min_l by lia. reflexivity.
Qed.

Lemma splice1_past_end {A} (l : list A) (i : Z) :
  (Z.of_nat (length l) <= i)%Z -> splice1 (Num i) l = l.
Proof.
  intros H. unfold splice1. destruct (Z.ltb_spec i 0); [lia|].
  rewrite Z.min_r by lia. apply delete_past_end. lia.
Qed.

Lemma numberToString_nonneg i : (0 <= i)%Z -> numberToString (Num i) = natToString i.
Proof. intros H. unfold numberToString. destruct (Z.ltb_spec i 0); [lia | reflexivity]. Qed.

Lemma rowsOf_rendered w items inside r :
  listRegion w = renderedRegion items inside r -> rowsOf w = imap renderRow items.
Proof.
  intros H. unfold rowsOf. rewrite H. destruct items as [|item items]; [reflexivity|].
  unfold renderedRegion. cbn [pendingItemsList default].
  generalize (imap renderRow (item :: items)). intros rows.
  induction rows as [|row rows IH]; [reflexivity|]. cbn. cbn in IH. rewrite IH. reflexivity.
Qed.

Lemma removeClick_region dataIndex w children inside d :
  pendingItemsList (listRegion w) = Some children ->
  getEmptyListMessage (listRegion w) = Some (inside, d) ->
  listRegion (dispatch (removeClick dataIndex) w)
  = renderedRegion (splice1 (parseInt dataIndex) (pendingItems w)) inside (listRegion w).
Proof.
  intros Hl He. unfold dispatch, removeClick. rewrite bind_run. unfold modify.
  erewrite render_found by (cbn; eassumption). reflexivity.
Qed.

Lemma removeClick_returns dataIndex w : returned (removeClick dataIndex w) = true.
Proof. unfold removeClick. rewrite bind_run. unfold modify. apply render_returns. Qed.

(** The remove button of a row rendered at position [k] deletes position
    [k] of the store as it is when the button is clicked. *)
Lemma clickRemove_rendered k item w :
  default [] (pendingItemsList (listRegion w)) !! k = Some (ItemRow (renderRow k item)) ->
  clickRemove k w = removeClick (numberToString (Num (Z.of_nat k))) w.
Proof.
  intros H. unfold clickRemove. rewrite bind_run. unfold get. rewrite H.
  cbn [renderRow rowButton]. rewrite numberToString_nonneg by lia. reflexivity.
Qed.

(** ** The rendered list and the store *)

Lemma render_region w :
  listRegion (worldOf (renderPendingItems w)) = renderList (pendingItems w) (listRegion w).
Proof.
  unfold renderList.
  destruct (render_cases w) as [(c & i & d & Hl & He & ->) | [Hmiss ->]].
  - rewrite Hl, He. reflexivity.
  - cbn. destruct Hmiss as [-> | ->]; [reflexivity|].
    destruct (pendingItemsList (listRegion w)); reflexivity.
Qed.

Lemma renderList_shownAfter items item :
  renderList (items ++ [item]) (shownAfter items) = shownAfter (items ++ [item]).
Proof. destruct items as [|first rest]; reflexivity. Qed.

Lemma renderList_start r children inside d :
  pendingItemsList r = Some children ->
  getEmptyListMessage r = Some (inside, d) ->
  uniqueIds r ->
  renderList [] r = shownAfter [].
Proof.
  intros Hl He Hu. unfold renderList. rewrite Hl, He. unfold renderedRegion, shownAfter.
  destruct inside; [rewrite (Hu d He)|]; reflexivity.
Qed.

(** What the [.then] callback leaves behind, whether or not it runs to
    its end. *)
Lemma addItemThen_effect job payloads w :
  let w' := worldOf (addItemThen job payloads w) in
  pendingItems w' = pendingItems w ++ [newItem (jobControls job) payloads] /\
  listRegion w'
  = renderList (pendingItems w ++ [newItem (jobControls job) payloads]) (listRegion w) /\
  (is_Some (itemControls (addRegion w)) -> is_Some (itemControls (addRegion w'))) /\
  (is_Some (photoInput (addRegion w)) -> is_Some (photoInput (addRegion w'))).
Proof.
  intros w'. assert (w' = worldOf (addItemThen job payloads w)) as Hw' by reflexivity.
  clearbody w'. revert Hw'.
  unfold addItemThen. rewrite bind_run. unfold modify at 1.
  set (w1 := setPendingItems _ w).
  rewrite bind_run.
  pose proof (render_returns w1) as Hret.
  pose proof (render_effect w1) as (Hs & _ & _ & Ha & _).
  pose proof (render_region w1) as Hr.
  destruct (renderPendingItems w1) as [[] w2|]; [|discriminate]. cbn in Hs, Ha, Hr.
  change (addRegion w1) with (addRegion w) in Ha.
  change (listRegion w1) with (listRegion w) in Hr.
  rewrite bind_run. unfold get. rewrite bind_run.
  destruct (itemControls (addRegion w2)) as [c|] eqn:Hc;
    cbn [deref mret M_ret throw worldOf].
  { exec.
    match goal with
    | |- context [showNotification ?a ?b ?c ?x] =>
        destruct (showNotification_effect a b c x) as [(Hp & _ & _ & Hl & Hadd & _) _]
    end.
    intros ->. rewrite Hp, Hl, Hadd. cbn. rewrite Ha.
    split; [exact Hs|]. split; [exact Hr|]. split.
    - intros _. eexists. reflexivity.
    - intros [files ->]. eexists. reflexivity. }
  intros ->. split; [exact Hs|]. split; [exact Hr|]. rewrite Ha. auto.
Qed.

Lemma addItemSettled_success job payloads w :
  promiseAll (fileToBase64 <$> jobFiles job) = inl payloads ->
  let w' := dispatch (addItemSettled job) w in
  pendingItems w' = pendingItems w ++ [newItem (jobControls job) payloads] /\
  listRegion w'
  = renderList (pendingItems w ++ [newItem (jobControls job) payloads]) (listRegion w) /\
  (is_Some (itemControls (addRegion w)) -> is_Some (itemControls (addRegion w'))) /\
  (is_Some (photoInput (addRegion w)) -> is_Some (photoInput (addRegion w'))).
Proof.
  intros Hall. unfold dispatch, addItemSettled. cbn zeta. rewrite tryCatch_world, Hall.
  pose proof (addItemThen_effect job payloads w) as H. cbn zeta in H.
  destruct (addItemThen job payloads w) as [[] w1|e w1]; cbn in H; [exact H|].
  destruct (addItemCatch_effect e w1) as [(Hp & _ & _ & Hl & Ha & _) _].
  rewrite Hp, Hl, Ha. exact H.
Qed.

Lemma readable_reads files :
  Forall readable files -> fileToBase64 <$> files = inl <$> payloadsOf files.
Proof.
  induction 1 as [|f files [payload Hf] _ IH]; [reflexivity|].
  unfold payloadsOf in *. cbn [fmap list_fmap omap list_omap].
  rewrite Hf. cbn [fmap list_fmap]. f_equal. exact IH.
Qed.

(** One valid add on a page that has its item controls and file input. *)
Lemma add_step w c files :
  is_Some (itemControls (addRegion w)) ->
  is_Some (photoInput (addRegion w)) ->
  validAdd (c, files) ->
  let w' := session [userFills c files; addItem] w in
  pendingItems w' = pendingItems w ++ [newItem c (payloadsOf files)] /\
  listRegion w'
  = renderList (pendingItems w ++ [newItem c (payloadsOf files)]) (listRegion w) /\
  is_Some (itemControls (addRegion w')) /\
  is_Some (photoInput (addRegion w')).
Proof.
  intros [c0 Hc0] [f0 Hf0] [Hv Hfiles] w'. cbn in Hv, Hfiles. subst w'.
  set (w1 := worldOf (userFills c files w)).
  assert (handleAddItem w1 = Normal (Some {| jobControls := c; jobFiles := files |}) w1)
    as Hsync.
  { destruct (handleAddItem_cases w1)
      as [[Hn _] | [(c' & Hc' & Hinv & _)
                   | [(c' & _ & _ & Hp & _) | (c' & f' & Hc' & _ & Hp & ->)]]];
      subst w1; cbn in *; rewrite ?Hc0, ?Hf0 in *; cbn in *; try discriminate.
    - injection Hc' as <-. contradiction.
    - injection Hc' as <-. injection Hp as <-. reflexivity. }
  assert (session [userFills c files; addItem] w
          = dispatch (addItemSettled {| jobControls := c; jobFiles := files |}) w1) as ->.
  { cbn [session foldl]. unfold dispatch. fold w1.
    unfold addItem. rewrite bind_run, Hsync. reflexivity. }
  pose proof (addItemSettled_success {| jobControls := c; jobFiles := files |}
                (payloadsOf files) w1) as H.
  cbn [jobFiles jobControls] in H.
  rewrite (readable_reads files Hfiles), promiseAll_all_loaded in H.
  specialize (H eq_refl). cbn zeta in H.
  destruct H as (Hs & Hl & Hci & Hpi).
  split; [exact Hs|]. split; [exact Hl|]. split.
  - apply Hci. subst w1. cbn. rewrite Hc0. eexists. reflexivity.
  - apply Hpi. subst w1. cbn. rewrite Hf0. eexists. reflexivity.
Qed.

Lemma session_app l1 l2 w : session (l1 ++ l2) w = session l2 (session l1 w).
Proof. apply foldl_app. Qed.

Lemma addClicks_cons a adds :
  addClicks (a :: adds) = [userFills a.1 a.2; addItem] ++ addClicks adds.
Proof. reflexivity. Qed.

(** Once the list region has got into the state [shownAfter] describes,
    every further valid add grows the store and leaves the list alone. *)
Lemma adds_run adds : forall w,
  is_Some (itemControls (addRegion w)) ->
  is_Some (photoInput (addRegion w)) ->
  Forall validAdd adds ->
  listRegion w = shownAfter (pendingItems w) ->
  let w' := session (addClicks adds) w in
  pendingItems w' = pendingItems w ++ expectedItems adds /\
  listRegion w' = shownAfter (pendingItems w').
Proof.
  induction adds as [|[c files] adds IH]; intros w Hc Hp Hadds Hshown; cbn zeta.
  - cbn. rewrite app_nil_r. split; [reflexivity | exact Hshown].
  - apply Forall_cons in Hadds as [Ha Hadds].
    rewrite addClicks_cons, session_app.
    destruct (add_step w c files Hc Hp Ha) as (Hs & Hl & Hc' & Hp').
    cbn [fst snd].
    set (w1 := session [userFills c files; addItem] w) in *.
    assert (listRegion w1 = shownAfter (pendingItems w1)) as Hshown1.
    { rewrite Hl, Hs, Hshown. apply renderList_shownAfter. }
    destruct (IH w1 Hc' Hp' Hadds Hshown1) as [IHs IHl].
    split; [|exact IHl].
    rewrite IHs, Hs, <- app_assoc. reflexivity.
Qed.

Lemma domContentLoaded_effect w :
  let w' := dispatch domContentLoaded w in
  pendingItems w' = pendingItems w /\
  listRegion w' = renderList (pendingItems w) (listRegion w) /\
  itemControls (addRegion w') = itemControls (addRegion w) /\
  photoInput (addRegion w') = photoInput (addRegion w).
Proof.
  unfold dispatch, domContentLoaded. exec.
  destruct (techSignaturePad (pads w)), (opManSignaturePad (pads w)),
    (initializeDropdowns w);
    match goal with
    | |- context [renderPendingItems ?x] =>
        pose proof (render_region x) as Hr;
        pose proof (render_effect x) as (Hs & _ & _ & Ha & _)
    end;
    cbn zeta; rewrite Hs, Hr, Ha; repeat split; reflexivity.
Qed.

Lemma rowsOf_shownAfter w items :
  listRegion w = shownAfter items -> rowsOf w = imap renderRow (take 1 items).
Proof.
  intros H. unfold rowsOf. rewrite H. destruct items as [|first rest]; [reflexivity|].
  cbn. rewrite take_0. reflexivity.
Qed.

(** C7, what the code does instead: on a page that has the list container
    and the placeholder element, after [DOMContentLoaded] and any run of
    valid adds the store holds every added item in insertion order, but
    the list shows the row of the first item only: the first render with a
    non-empty store drops the placeholder from the document, and every
    later render gives up when it looks it up.  After two or more adds the
    list therefore shows one row, not one per item. *)
Theorem list_shows_first_item_only (w0 : World) (adds : list (ItemControls * list File))
    (children : list Child) (inside : bool) (d : string) :
  pendingItems w0 = [] ->
  pendingItemsList (listRegion w0) = Some children ->
  getEmptyListMessage (listRegion w0) = Some (inside, d) ->
  uniqueIds (listRegion w0) ->
  is_Some (itemControls (addRegion w0)) ->
  is_Some (photoInput (addRegion w0)) ->
  Forall validAdd adds ->
  let w := session (domContentLoaded :: addClicks adds) w0 in
  pendingItems w = expectedItems adds /\
  rowsOf w = imap renderRow (take 1 (expectedItems adds)) /\
  (2 <= length adds ->
   length (pendingItems w) = length adds /\ length (rowsOf w) = 1).
Proof.
  intros Hempty Hl He Hu Hc Hp Hadds w.
  assert (w = session (addClicks adds) (dispatch domContentLoaded w0)) as Hw
    by reflexivity.
  clearbody w.
  destruct (domContentLoaded_effect w0) as (Hs0 & Hl0 & Hc0 & Hp0). cbn zeta in *.
  set (w1 := dispatch domContentLoaded w0) in *.
  rewrite Hempty in Hs0, Hl0.
  rewrite (renderList_start _ _ _ _ Hl He Hu) in Hl0.
  destruct (adds_run adds w1) as [Hs Hshown].
  { rewrite Hc0. exact Hc. }
  { rewrite Hp0. exact Hp. }
  { exact Hadds. }
  { rewrite Hl0, Hs0. reflexivity. }
  cbn zeta in Hs, Hshown. rewrite <- Hw in Hs, Hshown. rewrite Hs0 in Hs. cbn in Hs.
  split; [exact Hs|]. split.
  - rewrite <- Hs. apply rowsOf_shownAfter. exact Hshown.
  - intros Hlen. split.
    + rewrite Hs. unfold expectedItems. apply length_fmap.
    + rewrite (rowsOf_shownAfter w _ Hshown), Hs, length_imap, length_take.
      unfold expectedItems. rewrite length_fmap. lia.
Qed.

(** The same on the sample page with two valid adds. *)
Lemma list_shows_first_item_only_witness :
  pendingItems
    (session (domContentLoaded :: addClicks [(pumpLeak, [photoA]); (fanNoise, [])]) samplePage)
  = [newItem pumpLeak ["data:image/png;base64,AAAA"]; newItem fanNoise []] /\
  rowsOf
    (session (domContentLoaded :: addClicks [(pumpLeak, [photoA]); (fanNoise, [])]) samplePage)
  = [renderRow 0 (newItem pumpLeak ["data:image/png;base64,AAAA"])].
Proof.
  assert (uniqueIds (listRegion samplePage)) as Hu by (intros d _; reflexivity).
  assert (Forall validAdd [(pumpLeak, [photoA]); (fanNoise, [])]) as Hadds.
  { repeat constructor; try discriminate. eexists. reflexivity. }
  pose proof (list_shows_first_item_only samplePage
                [(pumpLeak, [photoA]); (fanNoise, [])] [Placeholder ""] true ""
                eq_refl eq_refl eq_refl Hu
                (ex_intro _ _ eq_refl) (ex_intro _ _ eq_refl) Hadds) as (H1 & H2 & _).
  split; [exact H1 | exact H2].
Defined.

(** The same run, evaluated: two items in the store, one row in the list,
    one console error from the render that gave up; and removing the only
    item afterwards empties the store while its row stays and no
    placeholder appears. *)
Example two_adds_one_row :
  let w := session (domContentLoaded :: addClicks [(pumpLeak, [photoA]); (fanNoise, [])])
             samplePage in
  length (pendingItems w) = 2 /\ length (rowsOf w) = 1 /\
  List.filter (fun e => match e with ConsoleError _ => true | _ => false end) (trace w)
  = [ConsoleError notFoundText].
Proof. repeat split. Qed.

Example remove_last_item_keeps_row :
  let w := session (domContentLoaded :: addClicks [(pumpLeak, [])] ++ [clickRemove 0])
             samplePage in
  pendingItems w = [] /\ length (rowsOf w) = 1 /\ placeholderShown w = false.
Proof. repeat split. Qed.

(** ** Removing an item on a started page *)

(** The page after [DOMContentLoaded] and a run of valid adds: the store
    holds the added items and the list region is the one [shownAfter]
    describes. *)
Lemma started_page w0 adds children inside d :
  pendingItems w0 = [] ->
  pendingItemsList (listRegion w0) = Some children ->
  getEmptyListMessage (listRegion w0) = Some (inside, d) ->
  uniqueIds (listRegion w0) ->
  is_Some (itemControls (addRegion w0)) ->
  is_Some (photoInput (addRegion w0)) ->
  Forall validAdd adds ->
  let w := session (domContentLoaded :: addClicks adds) w0 in
  pendingItems w = expectedItems adds /\
  listRegion w = shownAfter (expectedItems adds).
Proof.
  intros Hempty Hl He Hu Hc Hp Hadds w.
  assert (w = session (addClicks adds) (dispatch domContentLoaded w0)) as Hw
    by reflexivity.
  clearbody w.
  destruct (domContentLoaded_effect w0) as (Hs0 & Hl0 & Hc0 & Hp0). cbn zeta in *.
  set (w1 := dispatch domContentLoaded w0) in *.
  rewrite Hempty in Hs0, Hl0.
  rewrite (renderList_start _ _ _ _ Hl He Hu) in Hl0.
  destruct (adds_run adds w1) as [Hs Hshown].
  { rewrite Hc0. exact Hc. }
  { rewrite Hp0. exact Hp. }
  { exact Hadds. }
  { rewrite Hl0, Hs0. reflexivity. }
  cbn zeta in Hs, Hshown. rewrite <- Hw in Hs, Hshown. rewrite Hs0 in Hs. cbn in Hs.
  split; [exact Hs|]. rewrite <- Hs. exact Hshown.
Qed.

(** A click on the one remove button of a list in the state [shownAfter]
    describes: the first item leaves the store and the render that follows
    gives up. *)
Lemma clickRemove_shownAfter w first rest :
  pendingItems w = first :: rest ->
  listRegion w = shownAfter (first :: rest) ->
  clickRemove 0 w
  = Normal tt (setTrace (trace w ++ [ConsoleError notFoundText]) (setPendingItems rest w)).
Proof.
  intros Hs Hl.
  rewrite (clickRemove_rendered 0 first w) by (rewrite Hl; reflexivity).
  change (numberToString (Num (Z.of_nat 0))) with "0".
  unfold removeClick. rewrite bind_run. unfold modify.
  change (parseInt "0") with (Num 0). rewrite Hs.
  change (splice1 (Num 0) (first :: rest)) with rest.
  rewrite render_not_found.
  - reflexivity.
  - right. cbn [listRegion setPendingItems]. rewrite Hl. reflexivity.
Qed.

(** C6, what the code does: the removal handler bound to display position
    [i] deletes exactly the item at position [i] of the store when
    [i < N], keeping the other [N-1] items in their order, and leaves the
    store alone when [i >= N]; it never throws.  But the render that
    follows does not show the remaining items: on a page that has the list
    container and the placeholder element, after [DOMContentLoaded] and
    one or more valid adds the list shows the row of the first item (at
    position 0); a click on its remove button takes the first item out of
    the store, and the render called by the handler gives up with one
    console error, so the list is left exactly as it was: it keeps the one
    row built from the item that was removed, gains no row for the
    remaining items (one row is shown whatever their number), and shows no
    placeholder when nothing remains. *)
Theorem removal_by_index (w0 : World) (a : ItemControls * list File)
    (adds : list (ItemControls * list File)) (children : list Child) (inside : bool)
    (d : string) :
  pendingItems w0 = [] ->
  pendingItemsList (listRegion w0) = Some children ->
  getEmptyListMessage (listRegion w0) = Some (inside, d) ->
  uniqueIds (listRegion w0) ->
  is_Some (itemControls (addRegion w0)) ->
  is_Some (photoInput (addRegion w0)) ->
  Forall validAdd (a :: adds) ->
  (forall (w1 : World) (i : nat),
      let items := pendingItems w1 in
      let w1' := dispatch (removeClick (natToString (Z.of_nat i))) w1 in
      (i < length items ->
       pendingItems w1' = take i items ++ drop (S i) items /\
       length (pendingItems w1') = length items - 1) /\
      (length items <= i -> pendingItems w1' = items) /\
      returned (removeClick (natToString (Z.of_nat i)) w1) = true) /\
  (let removed := newItem a.1 (payloadsOf a.2) in
   let w := session (domContentLoaded :: addClicks (a :: adds)) w0 in
   let w' := dispatch (clickRemove 0) w in
   pendingItems w = removed :: expectedItems adds /\
   rowsOf w = [renderRow 0 removed] /\
   pendingItems w' = expectedItems adds /\
   listRegion w' = listRegion w /\
   rowsOf w' = [renderRow 0 removed] /\
   (length adds <> 1 -> length (rowsOf w') <> length (pendingItems w')) /\
   placeholderShown w' = false /\
   trace w' = trace w ++ [ConsoleError notFoundText]).
Proof.
  intros Hempty Hl He Hu Hc Hp Hadds. split.
  - intros w1 i. cbn zeta.
    rewrite removeClick_store, parseInt_natToString by lia.
    split; [|split; [|apply removeClick_returns]].
    + intros Hi. rewrite splice1_in_range by lia. rewrite Nat2Z.id.
      split; [apply delete_take_drop|].
      apply length_delete. apply lookup_lt_is_Some. exact Hi.
    + intros Hi. apply splice1_past_end. lia.
  - intros removed w w'.
    destruct (started_page w0 (a :: adds) children inside d
                Hempty Hl He Hu Hc Hp Hadds) as [Hs Hshown].
    fold w in Hs, Hshown.
    change (expectedItems (a :: adds)) with (removed :: expectedItems adds) in Hs, Hshown.
    pose proof (clickRemove_shownAfter w removed (expectedItems adds) Hs Hshown) as Hclick.
    assert (w' = setTrace (trace w ++ [ConsoleError notFoundText])
                   (setPendingItems (expectedItems adds) w)) as ->
      by (unfold w', dispatch; rewrite Hclick; reflexivity).
    split; [exact Hs|].
    assert (rowsOf w = [renderRow 0 removed]) as Hrows
      by (rewrite (rowsOf_shownAfter w _ Hshown); reflexivity).
    split; [exact Hrows|].
    split; [reflexivity|]. split; [reflexivity|]. split; [exact Hrows|].
    split.
    { intros Hlen.
      change (rowsOf (setTrace (trace w ++ [ConsoleError notFoundText])
                        (setPendingItems (expectedItems adds) w)))
        with (rowsOf w).
      rewrite Hrows. cbn [pendingItems setTrace setPendingItems length].
      unfold expectedItems. rewrite length_fmap. lia. }
    split; [|reflexivity].
    unfold placeholderShown. cbn [listRegion setTrace setPendingItems].
    rewrite Hshown. reflexivity.
Qed.

(** The same on the sample page: two items are added, the one row shown is
    the first item's, and after a click on its remove button the store
    holds the second item while the list still shows the first. *)
Lemma removal_by_index_witness :
  pendingItems
    (dispatch (clickRemove 0)
       (session (domContentLoaded :: addClicks [(pumpLeak, [photoA]); (fanNoise, [])])
          samplePage))
  = [newItem fanNoise []] /\
  rowsOf
    (dispatch (clickRemove 0)
       (session (domContentLoaded :: addClicks [(pumpLeak, [photoA]); (fanNoise, [])])
          samplePage))
  = [renderRow 0 (newItem pumpLeak ["data:image/png;base64,AAAA"])] /\
  pendingItems (dispatch (removeClick "1") threeItems)
  = [newItem pumpLeak []; newItem minusThree []].
Proof.
  assert (uniqueIds (listRegion samplePage)) as Hu by (intros d _; reflexivity).
  assert (Forall validAdd [(pumpLeak, [photoA]); (fanNoise, [])]) as Hadds.
  { repeat constructor; try discriminate. eexists. reflexivity. }
  pose proof (removal_by_index samplePage (pumpLeak, [photoA]) [(fanNoise, [])]
                [Placeholder ""] true "" eq_refl eq_refl eq_refl Hu
                (ex_intro _ _ eq_refl) (ex_intro _ _ eq_refl) Hadds)
    as (Hstore & _ & _ & H1 & _ & H2 & _).
  split; [exact H1|]. split; [exact H2|].
  change "1" with (natToString (Z.of_nat 1)).
  apply (Hstore threeItems 1). cbn. lia.
Defined.

(** The stale row goes on removing: a second click on it deletes the item
    that has moved to position 0, not the item the row shows, and a third
    click finds nothing to delete. *)
Example stale_row_removes_next_item :
  let w := session (domContentLoaded :: addClicks [(pumpLeak, [photoA]); (fanNoise, [])])
             samplePage in
  pendingItems (session [clickRemove 0] w) = [newItem fanNoise []] /\
  pendingItems (session [clickRemove 0; clickRemove 0] w) = [] /\
  pendingItems (session [clickRemove 0; clickRemove 0; clickRemove 0] w) = [] /\
  rowsOf (session [clickRemove 0; clickRemove 0; clickRemove 0] w)
  = [renderRow 0 (newItem pumpLeak ["data:image/png;base64,AAAA"])].
Proof. repeat split. Qed.


Lemma renderList_idempotent items r :
  uniqueIds r -> renderList items (renderList items r) = renderList items r.
Proof.
  intros Hu.
  destruct (pendingItemsList r) as [children|] eqn:Hl.
  2:{ assert (renderList items r = r) as E by (unfold renderList; rewrite Hl; reflexivity).
      rewrite !E. reflexivity. }
  destruct (getEmptyListMessage r) as [[inside d]|] eqn:He.
  2:{ assert (renderList items r = r) as E
        by (unfold renderList; rewrite Hl, He; reflexivity).
      rewrite !E. reflexivity. }
  assert (renderList items r = renderedRegion items inside r) as E
    by (unfold renderList; rewrite Hl, He; reflexivity).
  rewrite E. unfold renderList. rewrite getEmptyListMessage_rendered.
  2:{ intros ->. apply (Hu d He). }
  destruct items as [|item items]; [reflexivity|].
  destruct inside; reflexivity.
Qed.

(** X2: rendering twice in a row shows what rendering once shows, on
    every page whose element ids are unique, whatever the store holds and
    whether or not the render finds its elements. *)
Lemma render_idempotent w :
  uniqueIds (listRegion w) ->
  listRegion (dispatch renderPendingItems (dispatch renderPendingItems w))
  = listRegion (dispatch renderPendingItems w).
Proof.
  intros Hu. unfold dispatch. rewrite !render_region, render_store.
  apply renderList_idempotent. exact Hu.
Qed.

(** ** Submission: downloads and failures *)

Lemma submitCatch_effect error w :
  let w' := worldOf (submitCatch error w) in
  pendingItems w' = pendingItems w /\ loop w' = loop w /\
  listRegion w' = listRegion w /\
  submission_alert (submitRegion w')
  = (fun a => {| classList := classListAdd "alert-danger"
                                (classListRemove ["alert-info"] (classList a));
                 textContent := failureBanner error |})
    <$> submission_alert (submitRegion w) /\
  status (submitRegion w') = (fun _ => "Submission Failed!") <$> status (submitRegion w) /\
  notificationsOf (trace w') = notificationsOf (trace w) ++ [submissionFailed] /\
  postsOf (trace w') = postsOf (trace w) /\
  clicksOf (trace w') = clicksOf (trace w).
Proof.
  unfold submitCatch. exec.
  match goal with
  | |- context [showNotification ?a ?b ?c ?x] =>
      destruct (showNotification_effect a b c x) as [(Hp & _ & _ & Hl & _ & Hsub & Hloop) _];
      destruct (showNotification_trace a b c x) as (Hn & Hposts & Hclicks)
  end.
  cbn zeta in *. rewrite Hp, Hl, Hsub, Hloop, Hn, Hposts, Hclicks. cbn.
  rewrite notificationsOf_app, postsOf_app, clicksOf_app. cbn. rewrite !app_nil_r.
  repeat split; reflexivity.
Qed.

(** What the success handler leaves in the event loop and the trace,
    whether or not its final notification throws. *)
Lemma submitSettled_success_effect response w :
  let w' := dispatch (submitSettled (inl response)) w in
  let n := nextNode (loop w) in
  loop w' = {| bodyLinks := bodyLinks (loop w)
                            ++ [(n, pdfAnchor response); (S n, excelAnchor response)];
               nextNode := S (S n);
               timers := timers (loop w) ++ [n; S n] |} /\
  clicksOf (trace w') = clicksOf (trace w) /\
  pendingItems w' = pendingItems w.
Proof.
  unfold dispatch, submitSettled. cbn zeta. rewrite tryCatch_world.
  unfold submitThen, triggerDownload. exec.
  match goal with
  | |- context [showNotification ?a ?b ?c ?x] =>
      pose proof (showNotification_effect a b c x) as [(Hp & _ & _ & _ & _ & _ & Hloop) _];
      pose proof (showNotification_trace a b c x) as (_ & _ & Hclicks);
      destruct (showNotification a b c x) as [[] w1|e w1]
  end; cbn [worldOf] in *.
  - rewrite Hloop, Hclicks, Hp. cbn. rewrite <- !app_assoc. repeat split; reflexivity.
  - destruct (submitCatch_effect e w1) as (Hp' & Hloop' & _ & _ & _ & _ & _ & Hclicks').
    cbn zeta in *. rewrite Hloop', Hclicks', Hp', Hloop, Hclicks, Hp. cbn.
    rewrite <- !app_assoc. repeat split; reflexivity.
Qed.

Lemma findLink_fresh links n link more :
  Forall (fun p => p.1 < n) links ->
  findLink n (links ++ (n, link) :: more) = Some link.
Proof.
  intros Hfresh. unfold findLink.
  induction Hfresh as [|[id a] links Hid _ IH]; cbn.
  - rewrite Nat.eqb_refl. reflexivity.
  - cbn in Hid. destruct (Nat.eqb_spec id n); [lia | exact IH].
Qed.

Lemma filter_fresh links n :
  Forall (fun p => p.1 < n) links ->
  List.filter (fun p : nat * Anchor => negb (Nat.eqb p.1 n)) links = links.
Proof.
  induction 1 as [|[id a] links Hid _ IH]; [reflexivity|].
  cbn. cbn in Hid. destruct (Nat.eqb_spec id n); [lia|]. cbn. rewrite IH. reflexivity.
Qed.

Lemma filter_link_app links n (more : list (nat * Anchor)) :
  Forall (fun p => p.1 < n) links ->
  List.filter (fun p : nat * Anchor => negb (Nat.eqb p.1 n)) (links ++ more)
  = links ++ List.filter (fun p : nat * Anchor => negb (Nat.eqb p.1 n)) more.
Proof. intros H. rewrite List.filter_app, filter_fresh by exact H. reflexivity. Qed.

Lemma filter_first_of_two n (a b : Anchor) :
  List.filter (fun p : nat * Anchor => negb (Nat.eqb p.1 n)) [(n, a); (S n, b)]
  = [(S n, b)].
Proof.
  cbn [List.filter fst]. rewrite Nat.eqb_refl.
  assert (Nat.eqb (S n) n = false) as E by (apply Nat.eqb_neq; lia).
  rewrite E. reflexivity.
Qed.

Lemma filter_only_one n (a : Anchor) :
  List.filter (fun p : nat * Anchor => negb (Nat.eqb p.1 n)) [(n, a)] = [].
Proof. cbn [List.filter fst]. rewrite Nat.eqb_refl. reflexivity. Qed.

(** A timer whose anchor is still in the body clicks it and removes it. *)
Lemma runTimer_fires w id rest link :
  timers (loop w) = id :: rest ->
  findLink id (bodyLinks (loop w)) = Some link ->
  dispatch runTimer w
  = setLoop {| bodyLinks := List.filter (fun p => negb (Nat.eqb p.1 id)) (bodyLinks (loop w));
               nextNode := nextNode (loop w);
               timers := rest |}
      (setTrace (trace w ++ [LinkClicked (href link) (download link)]) w).
Proof.
  intros Ht Hf. unfold dispatch, runTimer. exec. rewrite Ht.
  unfold timerCallback. exec. cbn [loop setLoop setLoopOf bodyLinks].
  rewrite Hf. reflexivity.
Qed.

(** C4, as the code has it: the success handler builds both anchors and
    appends them to the body at once but activates neither in its own
    tick: each activation, with the removal of its anchor, runs in a
    zero-delay timer of its own.  The first timer activates the PDF
    download, the second the Excel download, with the suggested names
    [Site_Visit_Report.pdf] and [Site_Visit_Report.xlsx], and after both
    the body is as it was. *)
Theorem downloads_run_in_timers (response : ResponseData) (w : World) :
  timers (loop w) = [] ->
  freshNodes (loop w) ->
  let w1 := dispatch (submitSettled (inl response)) w in
  let w2 := dispatch runTimer w1 in
  let w3 := dispatch runTimer w2 in
  clicksOf (trace w1) = clicksOf (trace w) /\
  snd <$> bodyLinks (loop w1)
  = (snd <$> bodyLinks (loop w)) ++ [pdfAnchor response; excelAnchor response] /\
  length (timers (loop w1)) = 2 /\
  clicksOf (trace w2)
  = clicksOf (trace w) ++ [(pdfUrlOf response, "Site_Visit_Report.pdf")] /\
  snd <$> bodyLinks (loop w2) = (snd <$> bodyLinks (loop w)) ++ [excelAnchor response] /\
  clicksOf (trace w3)
  = clicksOf (trace w) ++ [(pdfUrlOf response, "Site_Visit_Report.pdf");
                           (excelUrlOf response, "Site_Visit_Report.xlsx")] /\
  bodyLinks (loop w3) = bodyLinks (loop w) /\
  timers (loop w3) = [].
Proof.
  intros Ht Hfresh w1 w2 w3.
  destruct (submitSettled_success_effect response w) as (Hloop & Hclicks & _).
  cbn zeta in Hloop, Hclicks. fold w1 in Hloop, Hclicks. rewrite Ht in Hloop.
  set (n := nextNode (loop w)) in *.
  assert (w2 = setLoop {| bodyLinks := bodyLinks (loop w) ++ [(S n, excelAnchor response)];
                          nextNode := S (S n);
                          timers := [S n] |}
                 (setTrace (trace w1 ++ [LinkClicked (pdfUrlOf response) "Site_Visit_Report.pdf"])
                    w1)) as Hw2.
  { subst w2. erewrite (runTimer_fires w1 n [S n] (pdfAnchor response)).
    - rewrite Hloop. cbn [bodyLinks nextNode timers].
      rewrite filter_link_app by exact Hfresh.
      rewrite filter_first_of_two. reflexivity.
    - rewrite Hloop. reflexivity.
    - rewrite Hloop. cbn [bodyLinks]. apply findLink_fresh. exact Hfresh. }
  assert (Forall (fun p : nat * Anchor => p.1 < S n) (bodyLinks (loop w))) as Hfresh'.
  { eapply Forall_impl; [exact Hfresh|]. intros p Hp. cbn in Hp. fold n in Hp. lia. }
  assert (w3 = setLoop {| bodyLinks := bodyLinks (loop w);
                          nextNode := S (S n);
                          timers := [] |}
                 (setTrace (trace w2 ++ [LinkClicked (excelUrlOf response) "Site_Visit_Report.xlsx"])
                    w2)) as Hw3.
  { subst w3. erewrite (runTimer_fires w2 (S n) [] (excelAnchor response)).
    - rewrite Hw2. cbn [loop setLoop setTrace bodyLinks nextNode timers].
      rewrite filter_link_app by exact Hfresh'.
      rewrite filter_only_one, app_nil_r. reflexivity.
    - rewrite Hw2. reflexivity.
    - rewrite Hw2. cbn [loop setLoop bodyLinks]. apply findLink_fresh. exact Hfresh'. }
  split; [exact Hclicks|].
  split; [rewrite Hloop; cbn [bodyLinks]; rewrite fmap_app; reflexivity|].
  split; [rewrite Hloop; reflexivity|].
  assert (clicksOf (trace w2)
          = clicksOf (trace w) ++ [(pdfUrlOf response, "Site_Visit_Report.pdf")]) as Hc2.
  { rewrite Hw2. cbn [trace setLoop setTrace]. rewrite clicksOf_app, Hclicks. reflexivity. }
  split; [exact Hc2|].
  split; [rewrite Hw2; cbn [loop setLoop bodyLinks]; rewrite fmap_app; reflexivity|].
  split.
  { rewrite Hw3. cbn [trace setLoop setTrace]. rewrite clicksOf_app, Hc2, <- app_assoc.
    reflexivity. }
  rewrite Hw3. split; reflexivity.
Qed.

(** The same on the submitted sample page, for a response naming both
    files. *)
Lemma downloads_run_in_timers_witness :
  clicksOf (trace (dispatch (submitSettled (inl fileUrls)) submittedPage)) = [] /\
  clicksOf (trace (dispatch runTimer (dispatch (submitSettled (inl fileUrls)) submittedPage)))
  = [("/f.pdf", "Site_Visit_Report.pdf")] /\
  clicksOf (trace (dispatch runTimer
                     (dispatch runTimer (dispatch (submitSettled (inl fileUrls)) submittedPage))))
  = [("/f.pdf", "Site_Visit_Report.pdf"); ("/f.xlsx", "Site_Visit_Report.xlsx")].
Proof.
  pose proof (downloads_run_in_timers fileUrls submittedPage eq_refl (Forall_nil_2 _))
    as (H1 & _ & _ & H2 & _ & H3 & _).
  split; [exact H1|]. split; [exact H2 | exact H3].
Defined.

(** C4, refuted as stated: when the success handler has run to its end, in
    the tick of the response, no download has been activated yet; both
    activations are still waiting in timers. *)
Lemma first_download_not_immediate :
  clicksOf (trace (dispatch (submitSettled (inl fileUrls)) submittedPage)) = [] /\
  timers (loop (dispatch (submitSettled (inl fileUrls)) submittedPage)) = [0; 1] /\
  snd <$> bodyLinks (loop (dispatch (submitSettled (inl fileUrls)) submittedPage))
  = [pdfAnchor fileUrls; excelAnchor fileUrls].
Proof. repeat split. Qed.

(** C8, what the code does: on a failed submission the banner reads
    [Error: <text>. Check console for details.], the store is left as it
    was and the error notification is called once.  The text is the
    server's [message] when the error response has data with a [message]
    property, and the transport error text when there is no response or
    the response has no data; when the response has data without a
    [message] property the text is [undefined] and the transport error
    text is not shown. *)
Theorem failure_banner_text (error : AxiosError) (w : World) (a : Alert) :
  submission_alert (submitRegion w) = Some a ->
  let w' := dispatch (submitSettled (inr error)) w in
  textContent <$> submission_alert (submitRegion w')
  = Some ("Error: " +:+
          match errorResponse error with
          | Some (Data (Some message)) => message
          | Some (Data None) => "undefined"
          | Some NoData | None => errorMessage error
          end +:+ ". Check console for details.") /\
  pendingItems w' = pendingItems w /\
  notificationsOf (trace w') = notificationsOf (trace w) ++ [submissionFailed] /\
  postsOf (trace w') = postsOf (trace w).
Proof.
  intros Ha w'. subst w'. unfold dispatch, submitSettled. rewrite tryCatch_world.
  unfold throw.
  destruct (submitCatch_effect (RequestFailure error) w)
    as (Hp & _ & _ & Halert & _ & Hn & Hposts & _).
  cbn zeta in *. rewrite Halert, Ha, Hp, Hn, Hposts. repeat split; reflexivity.
Qed.

(** The same on the submitted sample page, for a server error whose body
    has no message. *)
Lemma failure_banner_text_witness :
  textContent <$>
    submission_alert
      (submitRegion (dispatch (submitSettled (inr serverErrorWithoutMessage)) submittedPage))
  = Some "Error: undefined. Check console for details.".
Proof.
  exact (proj1 (failure_banner_text serverErrorWithoutMessage submittedPage
                  {| classList := ["alert"; "alert-info"];
                     textContent := "Report is being processed. This may take a moment..." |}
                  eq_refl)).
Defined.

(** ** The store invariant along every run *)

Lemma onSubmit_store w : pendingItems (worldOf (onSubmit w)) = pendingItems w.
Proof.
  destruct (downloadArea (submitRegion w)) as [d0|] eqn:Hd;
    destruct (techSignatureData (submitRegion w)) as [sig0|] eqn:Hs;
    destruct (submission_alert (submitRegion w)) as [a0|] eqn:Ha;
    destruct (visitForm (submitRegion w)) as [en|] eqn:Hf;
    destruct (opManSignatureData (submitRegion w)) as [om|] eqn:Ho;
    destruct (status (submitRegion w)) as [st|] eqn:Hst;
    destruct (techPad (pads w)) as [[|]|] eqn:Hpad;
    unfold onSubmit; exec; cbn; rewrite ?Hd; cbn; rewrite ?Hs; cbn;
    rewrite ?Hpad; cbn; rewrite ?Ha; cbn; rewrite ?Hf; cbn; rewrite ?Ho; cbn;
    rewrite ?Hst; cbn; rewrite ?Ha; cbn; reflexivity.
Qed.

Lemma submitSettled_store result w :
  pendingItems (dispatch (submitSettled result) w) = pendingItems w.
Proof.
  destruct result as [response|error].
  - apply submitSettled_success_effect.
  - unfold dispatch, submitSettled. rewrite tryCatch_world. unfold throw.
    apply submitCatch_effect.
Qed.

Lemma runTimer_store w : pendingItems (dispatch runTimer w) = pendingItems w.
Proof.
  unfold dispatch, runTimer. exec. destruct (timers (loop w)) as [|id rest]; [reflexivity|].
  unfold timerCallback. exec. cbn [loop setLoop setLoopOf bodyLinks].
  destruct (findLink id (bodyLinks (loop w))); reflexivity.
Qed.

Lemma clickRemove_valid k w :
  Forall validItem (pendingItems w) ->
  Forall validItem (pendingItems (dispatch (clickRemove k) w)).
Proof.
  intros Hinv. unfold dispatch, clickRemove. rewrite bind_run. unfold get.
  destruct (default [] (pendingItemsList (listRegion w)) !! k) as [[d|r|]|];
    try exact Hinv.
  change (Forall validItem (pendingItems (dispatch (removeClick (rowButton r)) w))).
  rewrite removeClick_store. apply splice1_Forall, Hinv.
Qed.

(** The stored items are valid and so are the controls captured by the
    promise chains still pending. *)
Lemma step_valid p a :
  Forall validItem (pendingItems (world p)) /\
  Forall (fun job => validControls (jobControls job)) (pendingAdds p) ->
  Forall validItem (pendingItems (world (step p a))) /\
  Forall (fun job => validControls (jobControls job)) (pendingAdds (step p a)).
Proof.
  intros [Hitems Hjobs]. destruct a as [|c files| | |n|k| |result|]; cbn [step onWorld world pendingAdds].
  - split; [|exact Hjobs].
    destruct (domContentLoaded_effect (world p)) as (-> & _). exact Hitems.
  - split; assumption.
  - split; assumption.
  - pose proof (handleAddItem_store (world p)) as [Hs _].
    destruct (handleAddItem (world p)) as [[job|] w|e w] eqn:Hsync; cbn in Hs |- *;
      try (rewrite Hs; split; assumption).
    apply handleAddItem_job in Hsync as (-> & Hv & _).
    split; [exact Hitems|]. apply Forall_app. split; [exact Hjobs|].
    apply Forall_singleton. exact Hv.
  - destruct (pendingAdds p !! n) as [job|] eqn:Hn; [|split; assumption].
    cbn [world pendingAdds]. split; [|apply Forall_delete; exact Hjobs].
    pose proof (addItemSettled_store job (world p)) as Hs. cbn zeta in Hs.
    destruct (promiseAll (fileToBase64 <$> jobFiles job)) as [payloads|error].
    + rewrite Hs. apply Forall_app. split; [exact Hitems|].
      apply Forall_singleton, newItem_valid.
      exact (proj1 (Forall_lookup _ _) Hjobs n job Hn).
    + destruct Hs as ((-> & _) & _). exact Hitems.
  - split; [|exact Hjobs]. apply clickRemove_valid. exact Hitems.
  - split; [|exact Hjobs]. unfold dispatch. rewrite onSubmit_store. exact Hitems.
  - split; [|exact Hjobs]. rewrite submitSettled_store. exact Hitems.
  - split; [|exact Hjobs]. rewrite runTimer_store. exact Hitems.
Qed.

Lemma run_valid actions : forall p,
  Forall validItem (pendingItems (world p)) /\
  Forall (fun job => validControls (jobControls job)) (pendingAdds p) ->
  Forall validItem (pendingItems (world (run actions p))).
Proof.
  induction actions as [|a actions IH]; intros p Hp; [apply Hp|].
  cbn [run foldl]. apply (IH (step p a)). apply step_valid. exact Hp.
Qed.

(** C3: an add attempt with an empty asset, system or description leaves
    the store unchanged and calls the error notification exactly once; a
    click on the add button changes the store only by appending an item
    whose three required fields are non-empty; the add (as one click, and
    as the settling of any job the handler started), the removal and the
    rendering each keep every stored item's required fields non-empty; and
    so every item in the store has them non-empty after any run of events
    on a freshly loaded page. *)
Theorem store_items_valid (w : World) :
  (forall c,
      itemControls (addRegion w) = Some c -> ~ validControls c ->
      pendingItems (dispatch addItem w) = pendingItems w /\
      notificationsOf (trace (dispatch addItem w))
      = notificationsOf (trace w) ++ [missingFields]) /\
  (pendingItems (dispatch addItem w) = pendingItems w \/
   exists item,
     validItem item /\ pendingItems (dispatch addItem w) = pendingItems w ++ [item]) /\
  (Forall validItem (pendingItems w) ->
   Forall validItem (pendingItems (dispatch addItem w)) /\
   (forall job w0 w1,
       handleAddItem w0 = Normal (Some job) w1 ->
       Forall validItem (pendingItems (dispatch (addItemSettled job) w))) /\
   (forall dataIndex,
       Forall validItem (pendingItems (dispatch (removeClick dataIndex) w))) /\
   Forall validItem (pendingItems (dispatch renderPendingItems w))) /\
  (pendingItems w = [] ->
   forall actions,
     Forall validItem (pendingItems (world (run actions (justLoaded w))))).
Proof.
  split; [|split; [|split]].
  - intros c Hc Hinvalid. unfold dispatch, addItem. rewrite bind_run.
    destruct (handleAddItem_cases w)
      as [[Hnone _] | [(c' & _ & _ & ->)
                      | [(c' & Hc' & Hv & _) | (c' & f & Hc' & Hv & _)]]];
      try congruence.
    pose proof (showNotification_effect "error" "Missing Fields"
      "Please select an **Asset**, **System**, and **Description**." w) as [(Hs & _) _].
    pose proof (showNotification_trace "error" "Missing Fields"
      "Please select an **Asset**, **System**, and **Description**." w) as (Hn & _).
    cbn zeta in Hn. rewrite bind_run.
    destruct (showNotification "error" "Missing Fields"
      "Please select an **Asset**, **System**, and **Description**." w);
      cbn in *; split; assumption.
  - destruct (addItem_store w) as [H | (c & payloads & _ & Hv & H)]; [left; exact H|].
    right. exists (newItem c payloads). split; [apply newItem_valid|]; assumption.
  - intros Hinv. split; [|split; [|split]].
    + destruct (addItem_store w) as [-> | (c & payloads & _ & Hv & ->)]; [exact Hinv|].
      apply Forall_app. split; [exact Hinv|].
      apply Forall_singleton, newItem_valid, Hv.
    + intros job w0 w1 Hjob. apply handleAddItem_job in Hjob as (_ & Hv & _).
      pose proof (addItemSettled_store job w) as Hs. cbn zeta in Hs.
      destruct (promiseAll (fileToBase64 <$> jobFiles job)) as [payloads|error].
      * rewrite Hs. apply Forall_app. split; [exact Hinv|].
        apply Forall_singleton, newItem_valid, Hv.
      * destruct Hs as ((-> & _) & _). exact Hinv.
    + intros dataIndex. rewrite removeClick_store. apply splice1_Forall, Hinv.
    + unfold dispatch. rewrite render_store. exact Hinv.
  - intros Hempty actions. apply run_valid. cbn. rewrite Hempty. split; constructor.
Qed.

(** The same for an add without an asset, for a valid add, and for a short
    run of events on the sample page. *)
Lemma store_items_valid_witness :
  pendingItems (dispatch addItem (worldOf (userFills noAsset [] readyPage))) = [] /\
  notificationsOf (trace (dispatch addItem (worldOf (userFills noAsset [] readyPage))))
  = [missingFields] /\
  Forall validItem
    (pendingItems (dispatch addItem (worldOf (userFills pumpLeak [photoA] readyPage)))) /\
  Forall validItem
    (pendingItems
       (world (run [PageLoads; UserFills pumpLeak [photoA]; AddClicked;
                    UserFills noAsset []; AddClicked; ReadsSettle 0; RemoveClicked 0]
                 (justLoaded samplePage)))).
Proof.
  pose proof (proj1 (store_items_valid (worldOf (userFills noAsset [] readyPage)))
                noAsset eq_refl) as H.
  split; [|split; [|split]].
  - apply H. intros (Hasset & _). apply Hasset. reflexivity.
  - apply H. intros (Hasset & _). apply Hasset. reflexivity.
  - apply (proj1 (proj2 (proj2 (store_items_valid
                                  (worldOf (userFills pumpLeak [photoA] readyPage)))))).
    constructor.
  - apply (proj2 (proj2 (proj2 (store_items_valid samplePage)))). reflexivity.
Defined.

(** ** Two whole scenarios *)

(** A submission refused for the missing signature can be repeated once
    the technician has signed: the second attempt issues the one request. *)
Example retry_after_signing :
  postsOf (trace (session [onSubmit] readyPage)) = [] /\
  fst <$> postsOf (trace (session [onSubmit; userSigns; onSubmit] readyPage))
  = ["/submit-report"].
Proof. split; reflexivity. Qed.

(** One item in the store and a signed pad: the submission carries the
    item under [report_items], and a response naming both files leads to
    the two download activations, in order, once both timers have run. *)
Example submit_one_item :
  let started := session [userFills pumpLeak []; addItem; userSigns; onSubmit] readyPage in
  let finished := session [submitSettled (inl fileUrls); runTimer; runTimer] started in
  (fun p => p.2 !! "report_items") <$> postsOf (trace started)
  = [Some (VItems [newItem pumpLeak []])] /\
  clicksOf (trace finished)
  = [("/f.pdf", "Site_Visit_Report.pdf"); ("/f.xlsx", "Site_Visit_Report.xlsx")] /\
  bodyLinks (loop finished) = [] /\
  pendingItems finished = [newItem pumpLeak []].
Proof. repeat split; vm_compute; reflexivity. Qed.

(** ** Further properties: the rendered list *)

Lemma placeholderShown_rendered w items inside r :
  listRegion w = renderedRegion items inside r ->
  placeholderShown w = true <-> items = [].
Proof.
  intros H. unfold placeholderShown. rewrite H.
  destruct items as [|item items]; [split; reflexivity|].
  unfold renderedRegion.
  change (default [] (pendingItemsList
            {| pendingItemsList := Some (ItemRow <$> imap renderRow (item :: items));
               emptyListMessage := if inside then emptyListMessage r else Some "none" |}))
    with (ItemRow <$> imap renderRow (item :: items)).
  rewrite omap_placeholder_rows. split; discriminate.
Qed.

(** X1: when [renderPendingItems] finds the list container and the
    placeholder element, the list shows exactly one row per stored item,
    in store order: the row at position [k] carries [k] as its
    [data-index], its remove button carries a [data-index] that [parseInt]
    reads back as [k], and its markup is the one built from the item at
    position [k] (stated for an item whose quantity is a safe integer,
    which is printed digit by digit).  The placeholder is shown exactly
    when the store is empty, and nothing is written to the console. *)
Theorem render_shows_store (w : World) (children : list Child) (inside : bool)
    (d : string) :
  pendingItemsList (listRegion w) = Some children ->
  getEmptyListMessage (listRegion w) = Some (inside, d) ->
  let w' := dispatch renderPendingItems w in
  length (rowsOf w') = length (pendingItems w) /\
  (forall k item,
      pendingItems w !! k = Some item ->
      exists row,
        rowsOf w' !! k = Some row /\
        rowIndex row = natToString (Z.of_nat k) /\
        parseInt (rowButton row) = Num (Z.of_nat k) /\
        (isSafeInteger (quantity item) -> rowHtml row = itemMarkup k item)) /\
  (placeholderShown w' = true <-> pendingItems w = []) /\
  trace w' = trace w.
Proof.
  intros Hl He w'. subst w'. unfold dispatch.
  rewrite (render_found w children inside d Hl He). cbn [worldOf].
  set (w' := setListRegion _ w).
  assert (listRegion w' = renderedRegion (pendingItems w) inside (listRegion w)) as Hr
    by reflexivity.
  assert (rowsOf w' = imap renderRow (pendingItems w)) as Hrows
    by (eapply rowsOf_rendered; exact Hr).
  split; [rewrite Hrows; apply length_imap|]. split.
  - intros k item Hk. exists (renderRow k item).
    split; [rewrite Hrows, list_lookup_imap, Hk; reflexivity|].
    split; [reflexivity|]. split; [|intros _; reflexivity].
    cbn [renderRow rowButton]. apply parseInt_natToString. lia.
  - split; [|reflexivity]. eapply placeholderShown_rendered. exact Hr.
Qed.

(** The same on a store of three items. *)
Lemma render_shows_store_witness :
  length (rowsOf (dispatch renderPendingItems threeItems)) = 3 /\
  (exists row,
      rowsOf (dispatch renderPendingItems threeItems) !! 2 = Some row /\
      rowIndex row = "2" /\
      parseInt (rowButton row) = Num 2 /\
      (isSafeInteger (-3) -> rowHtml row = itemMarkup 2 (newItem minusThree []))).
Proof.
  split.
  - exact (proj1 (render_shows_store threeItems [Placeholder "block"] true "block"
                    eq_refl eq_refl)).
  - exact (proj1 (proj2 (render_shows_store threeItems [Placeholder "block"] true "block"
                           eq_refl eq_refl))
             2 (newItem minusThree []) eq_refl).
Defined.

(** The same on a store of three items. *)
Lemma render_idempotent_witness :
  listRegion (dispatch renderPendingItems (dispatch renderPendingItems threeItems))
  = listRegion (dispatch renderPendingItems threeItems).
Proof.
  apply render_idempotent. intros d _. reflexivity.
Defined.

(** X3: after a render that found its elements, a click on the remove
    button of the row at position [k] deletes exactly the item at position
    [k] of the store: the [data-index] the render wrote is read back as
    [k].  A click below the last row, or on the placeholder, does nothing. *)
Theorem rendered_button_removes_its_item (w : World) (children : list Child)
    (inside : bool) (d : string) (k : nat) :
  pendingItemsList (listRegion w) = Some children ->
  getEmptyListMessage (listRegion w) = Some (inside, d) ->
  let w1 := dispatch renderPendingItems w in
  (k < length (pendingItems w) ->
   pendingItems (dispatch (clickRemove k) w1)
   = take k (pendingItems w) ++ drop (S k) (pendingItems w)) /\
  (length (pendingItems w) <= k -> dispatch (clickRemove k) w1 = w1).
Proof.
  intros Hl He w1. subst w1. unfold dispatch at 2 4 5.
  rewrite (render_found w children inside d Hl He). cbn [worldOf].
  set (w1 := setListRegion _ w).
  assert (default [] (pendingItemsList (listRegion w1))
          = match pendingItems w with
            | [] => [Placeholder "block"]
            | _ => ItemRow <$> imap renderRow (pendingItems w)
            end) as Hch.
  { subst w1. cbn. destruct (pendingItems w); reflexivity. }
  split.
  - intros Hk.
    destruct (lookup_lt_is_Some_2 (pendingItems w) k Hk) as [item Hitem].
    assert (default [] (pendingItemsList (listRegion w1)) !! k
            = Some (ItemRow (renderRow k item))) as Hrow.
    { rewrite Hch. destruct (pendingItems w) as [|i0 items] eqn:Hitems;
        [rewrite lookup_nil in Hitem; discriminate|].
      rewrite list_lookup_fmap, list_lookup_imap, Hitem. reflexivity. }
    unfold dispatch. rewrite (clickRemove_rendered k item w1 Hrow).
    change (pendingItems (dispatch (removeClick (numberToString (Num (Z.of_nat k)))) w1)
            = take k (pendingItems w) ++ drop (S k) (pendingItems w)).
    rewrite removeClick_store, numberToString_nonneg, parseInt_natToString by lia.
    change (pendingItems w1) with (pendingItems w).
    rewrite splice1_in_range by lia. rewrite Nat2Z.id. apply delete_take_drop.
  - intros Hk. unfold dispatch, clickRemove. rewrite bind_run. unfold get. rewrite Hch.
    destruct (pendingItems w) as [|i0 items] eqn:Hitems.
    + destruct k; reflexivity.
    + rewrite list_lookup_fmap, list_lookup_imap.
      rewrite (lookup_ge_None_2 (i0 :: items) k) by exact Hk. reflexivity.
Qed.

(** The same on a store of three items, for the middle row and for a
    position below the last row. *)
Lemma rendered_button_removes_its_item_witness :
  pendingItems (dispatch (clickRemove 1) (dispatch renderPendingItems threeItems))
  = [newItem pumpLeak []; newItem minusThree []] /\
  dispatch (clickRemove 3) (dispatch renderPendingItems threeItems)
  = dispatch renderPendingItems threeItems.
Proof.
  pose proof (rendered_button_removes_its_item threeItems [Placeholder "block"] true
                "block" 1 eq_refl eq_refl) as H1.
  pose proof (rendered_button_removes_its_item threeItems [Placeholder "block"] true
                "block" 3 eq_refl eq_refl) as H3.
  cbv zeta in H1, H3. split.
  - apply (proj1 H1). cbn. lia.
  - apply (proj2 H3). cbn. lia.
Defined.

(** ** Further properties: the notification presenter *)

(** X4: [showNotification] throws exactly when the modal element is in
    the document while its title, its body or its [.modal-content]
    descendant is not; whether it throws or not, it changes nothing but the
    modal scaffold, counts as one notification and issues neither a request
    nor a download; and when it returns on a page that has the modal, the
    body element holds the message and the modal has been shown once. *)
Theorem showNotification_throws_exactly (type title message : string) (w : World) :
  let o := showNotification type title message w in
  (returned o = false <-> partialScaffold (modal w)) /\
  sameButModal w (worldOf o) /\
  notificationsOf (trace (worldOf o))
  = notificationsOf (trace w) ++ [(type, title, message)] /\
  postsOf (trace (worldOf o)) = postsOf (trace w) /\
  clicksOf (trace (worldOf o)) = clicksOf (trace w) /\
  (returned o = true ->
   is_Some (customAlertModal (modal w)) ->
   customAlertBody (modal (worldOf o)) = Some message /\
   trace (worldOf o) = trace w ++ [Notify type title message; ModalShown]).
Proof.
  intros o. subst o.
  destruct (showNotification_effect type title message w) as [Hsame _].
  destruct (showNotification_trace type title message w) as (Hn & Hp & Hc).
  cbn zeta in *.
  split; [|split; [exact Hsame|split; [exact Hn|split; [exact Hp|split; [exact Hc|]]]]].
  - unfold partialScaffold, showNotification. exec. cbn.
    destruct (customAlertModal (modal w)) as [[className|]|] eqn:Hm;
      destruct (customAlertTitle (modal w)) as [t|] eqn:Ht;
      destruct (customAlertBody (modal w)) as [b|] eqn:Hb; cbn;
      split; intros H; try discriminate; try reflexivity;
      try (eexists; split; [reflexivity|];
           first [left; reflexivity | right; left; reflexivity | right; right; reflexivity]);
      destruct H as (content & Hcontent & Hcase); try discriminate;
      injection Hcontent as <-;
      destruct Hcase as [Hcase | [Hcase | Hcase]]; discriminate.
  - unfold showNotification. exec. cbn.
    destruct (customAlertModal (modal w)) as [[className|]|] eqn:Hm;
      destruct (customAlertTitle (modal w)) as [t|] eqn:Ht;
      destruct (customAlertBody (modal w)) as [b|] eqn:Hb; cbn;
      intros Hret [x Hx]; try discriminate.
    split; [reflexivity|]. unfold setTrace. cbn. rewrite <- app_assoc. reflexivity.
Qed.

(** ** Further properties: the submission *)

Lemma objectSet_other k k' v (o : gmap string Value) :
  k <> k' -> objectSet k v o !! k' = o !! k'.
Proof.
  intros Hne. unfold objectSet. destruct (k =? "__proto__")%string; [reflexivity|].
  apply lookup_insert_ne. exact Hne.
Qed.

Lemma objectSet_same k v (o : gmap string Value) :
  k <> "__proto__" -> objectSet k v o !! k = Some v.
Proof.
  intros Hne. unfold objectSet. apply String.eqb_neq in Hne. rewrite Hne.
  apply lookup_insert_eq.
Qed.

Lemma objectSet_proto k v (o : gmap string Value) :
  objectSet k v o !! "__proto__" = o !! "__proto__".
Proof.
  unfold objectSet. destruct (String.eqb_spec k "__proto__") as [_|Hne]; [reflexivity|].
  apply lookup_insert_ne. exact Hne.
Qed.

Lemma assign_entries_lookup entries : forall (acc : gmap string Value) k,
  k <> "__proto__" ->
  foldl (fun o kv => objectSet kv.1 (VStr kv.2) o) acc entries !! k
  = match lastValue k entries with
    | Some v => Some (VStr v)
    | None => acc !! k
    end.
Proof.
  induction entries as [|[k' v] entries IH]; intros acc k Hk; [reflexivity|].
  cbn [foldl lastValue fst snd]. rewrite IH by exact Hk.
  destruct (lastValue k entries) as [v'|]; [reflexivity|].
  destruct (String.eqb_spec k' k) as [->|Hne].
  - apply objectSet_same. exact Hk.
  - apply objectSet_other. exact Hne.
Qed.

Lemma assign_entries_proto entries : forall (acc : gmap string Value),
  foldl (fun o kv => objectSet kv.1 (VStr kv.2) o) acc entries !! "__proto__"
  = acc !! "__proto__".
Proof.
  induction entries as [|[k' v] entries IH]; intros acc; [reflexivity|].
  cbn [foldl fst snd]. rewrite IH. apply objectSet_proto.
Qed.

(** X5: when the submission goes through, the body of the one request
    holds the hidden technician signature under [tech_signature], the
    hidden second signature under [opMan_signature] and the store under
    [report_items], whatever the form has under these names; every other
    form field is there under its name with the value of its last
    occurrence, and nothing else is; a field named [__proto__] is never
    part of the body. *)
Theorem request_body (w : World) (d sig opMan st : string)
    (entries : list (string * string)) (a : Alert) :
  default false (techPad (pads w)) = false ->
  downloadArea (submitRegion w) = Some d ->
  techSignatureData (submitRegion w) = Some sig ->
  visitForm (submitRegion w) = Some entries ->
  opManSignatureData (submitRegion w) = Some opMan ->
  status (submitRegion w) = Some st ->
  submission_alert (submitRegion w) = Some a ->
  exists body,
    postsOf (trace (dispatch onSubmit w)) = postsOf (trace w) ++ [("/submit-report", body)] /\
    body !! "tech_signature" = Some (VStr sig) /\
    body !! "opMan_signature" = Some (VStr opMan) /\
    body !! "report_items" = Some (VItems (pendingItems w)) /\
    body !! "__proto__" = None /\
    forall k,
      k ∉ ["tech_signature"; "opMan_signature"; "report_items"; "__proto__"] ->
      body !! k = VStr <$> lastValue k entries.
Proof.
  intros Hpad Hd Hs Hf Ho Hst Ha.
  unfold dispatch, onSubmit. exec. cbn [setTrace submitRegion trace].
  rewrite Hd. cbn [setDownloadArea setSubmitRegion submitRegion techSignatureData pads].
  rewrite Hs. cbn [setTrace pads]. rewrite Hpad.
  cbn [setDownloadArea setSubmitRegion setTrace submitRegion visitForm opManSignatureData
         status submission_alert pendingItems].
  rewrite Hf, Ho, Hst, Ha.
  cbn [worldOf trace setTrace updateAlert setStatus setSubmitRegion setDownloadArea].
  eexists. split.
  { rewrite <- app_assoc, postsOf_app. cbn [postsOf omap list_omap app]. reflexivity. }
  unfold formToObject.
  split; [|split; [|split; [|split]]].
  - rewrite !objectSet_other by discriminate. apply objectSet_same. discriminate.
  - rewrite objectSet_other by discriminate. apply objectSet_same. discriminate.
  - apply objectSet_same. discriminate.
  - rewrite !objectSet_proto, assign_entries_proto. apply lookup_empty.
  - intros k Hk.
    apply not_elem_of_cons in Hk as [H1 Hk]. apply not_elem_of_cons in Hk as [H2 Hk].
    apply not_elem_of_cons in Hk as [H3 Hk]. apply not_elem_of_cons in Hk as [H4 _].
    rewrite !objectSet_other by congruence.
    rewrite assign_entries_lookup by exact H4.
    rewrite lookup_empty. destruct (lastValue k entries); reflexivity.
Qed.

(** The same on a signed page whose form repeats a field and has fields
    named like the keys the script sets. *)
Lemma request_body_witness :
  exists body,
    postsOf (trace (dispatch onSubmit crowdedPage))
    = postsOf (trace crowdedPage) ++ [("/submit-report", body)] /\
    body !! "tech_signature" = Some (VStr "data:image/png;base64,SIGN") /\
    body !! "site_name" = Some (VStr "Tower B") /\
    body !! "__proto__" = None.
Proof.
  destruct (request_body crowdedPage "" "data:image/png;base64,SIGN" "" "" crowdedForm
              {| classList := ["alert"; "alert-info"]; textContent := "" |}
              eq_refl eq_refl eq_refl eq_refl eq_refl eq_refl eq_refl)
    as (body & Hposts & Htech & _ & _ & Hproto & Hother).
  exists body. split; [exact Hposts|]. split; [exact Htech|]. split; [|exact Hproto].
  apply (Hother "site_name"). apply (bool_decide_unpack _). vm_compute. exact I.
Defined.

Ltac onSubmit_cases w :=
  destruct (downloadArea (submitRegion w)) as [?d|] eqn:?Hd;
  destruct (techSignatureData (submitRegion w)) as [?sig|] eqn:?Hs;
  destruct (submission_alert (submitRegion w)) as [?a|] eqn:?Ha;
  destruct (visitForm (submitRegion w)) as [?en|] eqn:?Hf;
  destruct (opManSignatureData (submitRegion w)) as [?om|] eqn:?Ho;
  destruct (status (submitRegion w)) as [?st|] eqn:?Hst;
  destruct (techPad (pads w)) as [[|]|] eqn:?Hpad;
  unfold onSubmit; exec; cbn;
  repeat match goal with
         | H : _ = _ |- _ => rewrite H; cbn
         end.

(** X6: every call of [onSubmit] first suppresses the default action of
    the event and, when the download area exists, empties it; it issues at
    most one request, always a JSON POST to [/submit-report], and only
    when it then returns normally; in every other case, a thrown
    [TypeError] included, nothing goes to the network. *)
Theorem onSubmit_at_most_one_request (w : World) :
  let o := onSubmit w in
  (trace (worldOf o) = trace w ++ [PreventDefault] \/
   exists body,
     trace (worldOf o)
     = trace w ++ [PreventDefault; Post "/submit-report" body "application/json"] /\
     returned o = true) /\
  downloadArea (submitRegion (worldOf o))
  = (fun _ => EmptyString) <$> downloadArea (submitRegion w).
Proof.
  cbn zeta.
  onSubmit_cases w;
    (split; [|reflexivity]);
    first [ left; reflexivity
          | right; eexists; split; [rewrite <- app_assoc; reflexivity | reflexivity] ].
Qed.

Lemma onSubmit_frame w :
  let w' := worldOf (onSubmit w) in
  pendingItems w' = pendingItems w /\ listRegion w' = listRegion w /\
  addRegion w' = addRegion w /\ pads w' = pads w /\ loop w' = loop w /\
  modal w' = modal w /\ clicksOf (trace w') = clicksOf (trace w) /\
  notificationsOf (trace w') = notificationsOf (trace w).
Proof.
  cbn zeta.
  onSubmit_cases w;
    rewrite ?clicksOf_app, ?notificationsOf_app; cbn; rewrite ?app_nil_r;
    repeat split; reflexivity.
Qed.

Lemma submitSettled_frame result w :
  let w' := dispatch (submitSettled result) w in
  pendingItems w' = pendingItems w /\ listRegion w' = listRegion w /\
  addRegion w' = addRegion w /\ pads w' = pads w /\
  postsOf (trace w') = postsOf (trace w).
Proof.
  assert (forall e x,
             pendingItems (worldOf (submitCatch e x)) = pendingItems x /\
             listRegion (worldOf (submitCatch e x)) = listRegion x /\
             addRegion (worldOf (submitCatch e x)) = addRegion x /\
             pads (worldOf (submitCatch e x)) = pads x /\
             postsOf (trace (worldOf (submitCatch e x))) = postsOf (trace x)) as Hcatch.
  { intros e x. unfold submitCatch. exec.
    match goal with
    | |- context [showNotification ?a ?b ?c ?y] =>
        destruct (showNotification_effect a b c y) as [(Hp & Hpads & _ & Hl & Hadd & _) _];
        destruct (showNotification_trace a b c y) as (_ & Hposts & _)
    end.
    cbn zeta in *. rewrite Hp, Hpads, Hl, Hadd, Hposts. cbn.
    rewrite postsOf_app. cbn. rewrite app_nil_r. repeat split; reflexivity. }
  unfold dispatch, submitSettled. cbn zeta. rewrite tryCatch_world.
  destruct result as [response|error]; [|unfold throw; apply Hcatch].
  unfold submitThen, triggerDownload. exec.
  match goal with
  | |- context [showNotification ?a ?b ?c ?y] =>
      pose proof (showNotification_effect a b c y) as [(Hp & Hpads & _ & Hl & Hadd & _) _];
      pose proof (showNotification_trace a b c y) as (_ & Hposts & _);
      destruct (showNotification a b c y) as [[] w1|e w1]
  end; cbn [worldOf] in *.
  - rewrite Hp, Hpads, Hl, Hadd, Hposts. repeat split; reflexivity.
  - destruct (Hcatch e w1) as (Hp' & Hl' & Hadd' & Hpads' & Hposts').
    rewrite Hp', Hl', Hadd', Hpads', Hposts', Hp, Hpads, Hl, Hadd, Hposts.
    repeat split; reflexivity.
Qed.

Lemma runTimer_frame w :
  let w' := dispatch runTimer w in
  pendingItems w' = pendingItems w /\ listRegion w' = listRegion w /\
  addRegion w' = addRegion w /\ pads w' = pads w /\
  postsOf (trace w') = postsOf (trace w).
Proof.
  unfold dispatch, runTimer. exec. destruct (timers (loop w)) as [|id rest];
    [repeat split; reflexivity|].
  unfold timerCallback. exec. cbn [loop setLoop setLoopOf bodyLinks].
  destruct (findLink id (bodyLinks (loop w))); cbn;
    rewrite ?postsOf_app; cbn; rewrite ?app_nil_r; repeat split; reflexivity.
Qed.

(** X7: submitting never touches the pending items, the rendered list or
    the item controls: not the submit handler, not the success or the
    failure callback of the request, not the download timers.  In
    particular the store is not cleared when a report has been generated. *)
Theorem submission_keeps_items (w : World) (result : ResponseData + AxiosError) :
  (pendingItems (dispatch onSubmit w) = pendingItems w /\
   listRegion (dispatch onSubmit w) = listRegion w /\
   addRegion (dispatch onSubmit w) = addRegion w) /\
  (pendingItems (dispatch (submitSettled result) w) = pendingItems w /\
   listRegion (dispatch (submitSettled result) w) = listRegion w /\
   addRegion (dispatch (submitSettled result) w) = addRegion w) /\
  (pendingItems (dispatch runTimer w) = pendingItems w /\
   listRegion (dispatch runTimer w) = listRegion w /\
   addRegion (dispatch runTimer w) = addRegion w).
Proof.
  destruct (onSubmit_frame w) as (H1 & H2 & H3 & _).
  destruct (submitSettled_frame result w) as (H4 & H5 & H6 & _).
  destruct (runTimer_frame w) as (H7 & H8 & H9 & _).
  repeat split; assumption.
Qed.

Lemma domContentLoaded_pads w :
  let w' := dispatch domContentLoaded w in
  techPad (pads w') = (if techSignaturePad (pads w) then Some true else techPad (pads w)) /\
  opManPad (pads w')
  = (if opManSignaturePad (pads w) then Some true else opManPad (pads w)) /\
  submitRegion w' = submitRegion w /\
  postsOf (trace w') = postsOf (trace w).
Proof.
  unfold dispatch, domContentLoaded. exec.
  destruct (techSignaturePad (pads w)), (opManSignaturePad (pads w)),
    (initializeDropdowns w);
    match goal with
    | |- context [renderPendingItems ?x] =>
        pose proof (render_effect x) as (_ & Hpads & _ & _ & Hsub & _ & _ & Hposts & _)
    end;
    cbn zeta in *; rewrite Hpads, Hsub, Hposts; cbn;
    rewrite postsOf_app; cbn; rewrite app_nil_r; repeat split; reflexivity.
Qed.

Lemma onSubmit_refused_trace w :
  techPad (pads w) = Some true ->
  trace (worldOf (onSubmit w)) = trace w ++ [PreventDefault].
Proof.
  intros Hempty. onSubmit_cases w; try discriminate; reflexivity.
Qed.

(** X8: [DOMContentLoaded] builds a signature pad for each canvas that
    exists, and each starts empty; so on a page with the technician's
    canvas a submit that comes before the technician has drawn is refused
    without a request, and once the technician has drawn the pad no longer
    stands in the way. *)
Theorem fresh_pad_refuses_submit (w : World) :
  techSignaturePad (pads w) = true ->
  let w1 := dispatch domContentLoaded w in
  techPad (pads w1) = Some true /\
  postsOf (trace (dispatch onSubmit w1)) = postsOf (trace w) /\
  techPad (pads (dispatch userSigns w1)) = Some false.
Proof.
  intros Hcanvas w1.
  destruct (domContentLoaded_pads w) as (Hpad & _ & _ & Hposts).
  cbn zeta in *. fold w1 in Hpad, Hposts. rewrite Hcanvas in Hpad.
  split; [exact Hpad|]. split.
  - rewrite <- Hposts. unfold dispatch at 1.
    rewrite (onSubmit_refused_trace w1 Hpad).
    rewrite postsOf_app. cbn. apply app_nil_r.
  - unfold dispatch, userSigns, modify. cbn. rewrite Hpad. reflexivity.
Qed.

(** The same on the sample page. *)
Lemma fresh_pad_refuses_submit_witness :
  techPad (pads (dispatch domContentLoaded samplePage)) = Some true /\
  postsOf (trace (dispatch onSubmit (dispatch domContentLoaded samplePage))) = [].
Proof.
  pose proof (fresh_pad_refuses_submit samplePage eq_refl) as (H1 & H2 & _).
  split; [exact H1 | exact H2].
Defined.

(** ** Further properties: the state of the banner *)

Lemma inTokens_true tokens c : inTokens tokens c = true <-> c ∈ tokens.
Proof.
  unfold inTokens. rewrite existsb_exists. split.
  - intros [x [Hin Heq]]. apply String.eqb_eq in Heq. subst x.
    apply list_elem_of_In. exact Hin.
  - intros Hin. exists c. split; [apply list_elem_of_In; exact Hin | apply String.eqb_refl].
Qed.

Lemma filter_token_NoDup t cl :
  NoDup cl ->
  List.filter (String.eqb t) cl = if inTokens cl t then [t] else [].
Proof.
  induction 1 as [|c cl Hnotin Hnd IH]; [reflexivity|].
  cbn [List.filter]. unfold inTokens. cbn [existsb]. fold (inTokens cl t).
  destruct (String.eqb_spec t c) as [->|Hne].
  - rewrite IH. cbn. destruct (inTokens cl c) eqn:Hc; [|reflexivity].
    apply inTokens_true in Hc. contradiction.
  - rewrite IH. cbn. reflexivity.
Qed.

Lemma filter_filter_and {A} (f g : A -> bool) l :
  List.filter f (List.filter g l) = List.filter (fun x => g x && f x) l.
Proof.
  induction l as [|x l IH]; [reflexivity|]. cbn.
  destruct (g x); cbn; [destruct (f x)|]; rewrite IH; reflexivity.
Qed.

Lemma stateOf_remove tokens cl :
  stateOf (classListRemove tokens cl)
  = List.filter (fun c => negb (inTokens tokens c)) (stateOf cl).
Proof.
  unfold stateOf, classListRemove. rewrite !filter_filter_and.
  apply List.filter_ext. intros c. apply andb_comm.
Qed.

Lemma stateOf_add t cl :
  inTokens stateClasses t = true ->
  stateOf (classListAdd t cl) = if inTokens cl t then stateOf cl else stateOf cl ++ [t].
Proof.
  intros Ht. unfold classListAdd. destruct (inTokens cl t); [reflexivity|].
  unfold stateOf. rewrite List.filter_app. cbn [List.filter]. rewrite Ht. reflexivity.
Qed.

Lemma stateOf_member t cl :
  inTokens stateClasses t = true -> inTokens cl t = true -> t ∈ stateOf cl.
Proof.
  intros Ht Hin. apply list_elem_of_In, filter_In. split; [|exact Ht].
  apply list_elem_of_In, inTokens_true. exact Hin.
Qed.

Lemma inTokens_remove tokens cl t :
  inTokens (classListRemove tokens cl) t = inTokens cl t && negb (inTokens tokens t).
Proof.
  destruct (inTokens (classListRemove tokens cl) t) eqn:H.
  - apply inTokens_true, list_elem_of_In, filter_In in H as [Hin Hneg].
    apply list_elem_of_In, inTokens_true in Hin. rewrite Hin, Hneg. reflexivity.
  - destruct (inTokens cl t) eqn:Hin; [|reflexivity].
    destruct (inTokens tokens t) eqn:Ht; [reflexivity|].
    exfalso. apply not_true_iff_false in H. apply H.
    apply inTokens_true, list_elem_of_In, filter_In. split.
    + apply list_elem_of_In, inTokens_true. exact Hin.
    + rewrite Ht. reflexivity.
Qed.

(** Leaving one state for another: the old state class goes, the new one
    comes, and it is the only one. *)
Lemma stateOf_switch old new cl :
  stateOf cl = [old] -> old <> new -> inTokens stateClasses new = true ->
  stateOf (classListAdd new (classListRemove [old] cl)) = [new].
Proof.
  intros Hstate Hne Hnew. rewrite stateOf_add by exact Hnew.
  rewrite stateOf_remove, Hstate. cbn. rewrite String.eqb_refl. cbn.
  rewrite inTokens_remove.
  destruct (inTokens cl new) eqn:Hin; [|reflexivity].
  pose proof (stateOf_member new cl Hnew Hin) as Hmem. rewrite Hstate in Hmem.
  apply list_elem_of_singleton in Hmem. congruence.
Qed.

(** Entering the in-flight state from any banner without repeated
    classes. *)
Lemma stateOf_start cl :
  NoDup cl ->
  stateOf (classListAdd "alert-info"
             (classListRemove ["alert-success"; "alert-danger"; "alert-warning"] cl))
  = ["alert-info"].
Proof.
  intros Hnd. rewrite stateOf_add by reflexivity.
  rewrite stateOf_remove. unfold stateOf. rewrite filter_filter_and.
  rewrite (List.filter_ext _ (String.eqb "alert-info")).
  2:{ intros c. unfold inTokens, stateClasses. cbn [existsb].
      rewrite (String.eqb_sym "alert-info" c).
      destruct (String.eqb_spec c "alert-info") as [->|]; [reflexivity|].
      destruct (c =? "alert-success")%string, (c =? "alert-danger")%string,
        (c =? "alert-warning")%string; reflexivity. }
  rewrite filter_token_NoDup by exact Hnd.
  rewrite inTokens_remove. cbn. rewrite andb_true_r.
  destruct (inTokens cl "alert-info"); reflexivity.
Qed.

Lemma showNotification_returns type title message w :
  ~ partialScaffold (modal w) -> returned (showNotification type title message w) = true.
Proof.
  intros Hnot. unfold showNotification. exec. cbn.
  destruct (customAlertModal (modal w)) as [[className|]|] eqn:Hm;
    destruct (customAlertTitle (modal w)) as [t|] eqn:Ht;
    destruct (customAlertBody (modal w)) as [b|] eqn:Hb; cbn; try reflexivity;
    exfalso; apply Hnot; eexists; (split; [exact Hm|]); auto.
Qed.

Lemma submitSettled_alert result w :
  ~ partialScaffold (modal w) ->
  submission_alert (submitRegion (dispatch (submitSettled result) w))
  = (fun a =>
       match result with
       | inl _ =>
           {| classList := classListAdd "alert-success"
                             (classListRemove ["alert-info"] (classList a));
              textContent :=
                "Report successfully generated. Downloads are starting automatically!" |}
       | inr error =>
           {| classList := classListAdd "alert-danger"
                             (classListRemove ["alert-info"] (classList a));
              textContent := failureBanner (RequestFailure error) |}
       end) <$> submission_alert (submitRegion w).
Proof.
  intros Hnot. unfold dispatch, submitSettled. rewrite tryCatch_world.
  destruct result as [response|error].
  - unfold submitThen, triggerDownload. exec.
    match goal with
    | |- context [showNotification ?a ?b ?c ?y] =>
        pose proof (showNotification_effect a b c y) as [(_ & _ & _ & _ & _ & Hsub & _) _];
        pose proof (showNotification_returns a b c y Hnot) as Hret;
        destruct (showNotification a b c y) as [[] w1|e w1]; [|discriminate]
    end.
    cbn [worldOf] in *. rewrite Hsub. reflexivity.
  - unfold throw.
    destruct (submitCatch_effect (RequestFailure error) w) as (_ & _ & _ & Halert & _).
    exact Halert.
Qed.

(** X9: through a submission the banner carries exactly one of the four
    state classes.  Starting from a banner whose class list has no
    repeated class, it carries [alert-info] alone while the request is in
    flight, then [alert-success] alone after a successful response or
    [alert-danger] alone after a failed one (on a page whose modal scaffold
    is complete or absent). *)
Theorem banner_shows_one_state (w : World) (d sig opMan st : string)
    (entries : list (string * string)) (a : Alert)
    (result : ResponseData + AxiosError) :
  default false (techPad (pads w)) = false ->
  downloadArea (submitRegion w) = Some d ->
  techSignatureData (submitRegion w) = Some sig ->
  visitForm (submitRegion w) = Some entries ->
  opManSignatureData (submitRegion w) = Some opMan ->
  status (submitRegion w) = Some st ->
  submission_alert (submitRegion w) = Some a ->
  NoDup (classList a) ->
  ~ partialScaffold (modal w) ->
  let w1 := dispatch onSubmit w in
  let w2 := dispatch (submitSettled result) w1 in
  (fun b => stateOf (classList b)) <$> submission_alert (submitRegion w1)
  = Some ["alert-info"] /\
  (fun b => stateOf (classList b)) <$> submission_alert (submitRegion w2)
  = Some [match result with inl _ => "alert-success" | inr _ => "alert-danger" end].
Proof.
  intros Hpad Hd Hs Hf Ho Hst Ha Hnd Hnot w1 w2.
  assert (submission_alert (submitRegion w1)
          = Some {| classList :=
                      classListAdd "alert-info"
                        (classListRemove ["alert-success"; "alert-danger"; "alert-warning"]
                           (classList a));
                    textContent := "Report is being processed. This may take a moment..." |})
    as Ha1.
  { subst w1. unfold dispatch, onSubmit. exec. cbn [setTrace submitRegion trace].
    rewrite Hd. cbn [setDownloadArea setSubmitRegion submitRegion techSignatureData pads].
    rewrite Hs. cbn [setTrace pads]. rewrite Hpad.
    cbn [setDownloadArea setSubmitRegion setTrace submitRegion visitForm opManSignatureData
           status submission_alert pendingItems].
    rewrite Hf, Ho, Hst, Ha. cbn. rewrite Ha. reflexivity. }
  assert (modal w1 = modal w) as Hmodal by (subst w1; apply onSubmit_frame).
  split.
  - rewrite Ha1. cbn [fmap option_fmap option_map classList]. f_equal.
    apply stateOf_start. exact Hnd.
  - subst w2. rewrite submitSettled_alert by (rewrite Hmodal; exact Hnot).
    rewrite Ha1. destruct result as [response|error];
      cbn [fmap option_fmap option_map classList]; f_equal;
      apply stateOf_switch; try discriminate; try reflexivity;
      apply stateOf_start; exact Hnd.
Qed.

(** The same on the signed sample page, for a failed request. *)
Lemma banner_shows_one_state_witness :
  (fun b => stateOf (classList b))
    <$> submission_alert (submitRegion (dispatch onSubmit signedPage))
  = Some ["alert-info"] /\
  (fun b => stateOf (classList b))
    <$> submission_alert
          (submitRegion (dispatch (submitSettled (inr serverErrorWithoutMessage))
                           (dispatch onSubmit signedPage)))
  = Some ["alert-danger"].
Proof.
  assert (NoDup ["alert"; "alert-info"]) as Hnd.
  { apply NoDup_cons. split.
    - intros H. apply list_elem_of_singleton in H. discriminate.
    - apply NoDup_singleton. }
  assert (~ partialScaffold (modal signedPage)) as Hnot.
  { intros (content & Hcontent & Hcase). injection Hcontent as <-.
    destruct Hcase as [Hcase | [Hcase | Hcase]]; discriminate. }
  exact (banner_shows_one_state signedPage "" "" "" "" [("site_name", "Tower A")]
           {| classList := ["alert"; "alert-info"]; textContent := "" |}
           (inr serverErrorWithoutMessage)
           eq_refl eq_refl eq_refl eq_refl eq_refl eq_refl eq_refl Hnd Hnot).
Defined.

(** ** Further properties: the add-item handler *)

Lemma showNotification_throws type title message w :
  partialScaffold (modal w) ->
  returned (showNotification type title message w) = false /\
  partialScaffold (modal (worldOf (showNotification type title message w))).
Proof.
  intros (content & Hcontent & Hcase). unfold partialScaffold, showNotification. exec. cbn.
  rewrite Hcontent.
  destruct content as [className|];
    destruct (customAlertTitle (modal w)) as [t|] eqn:Ht;
    destruct (customAlertBody (modal w)) as [b|] eqn:Hb; cbn;
    try (destruct Hcase as [Hcase | [Hcase | Hcase]]; discriminate);
    (split; [reflexivity|]); eexists;
    (split; [cbn; try rewrite Hcontent; reflexivity|]); cbn; rewrite ?Ht, ?Hb; auto.
Qed.

(** A click on the add button with a required field left empty. *)
Lemma addItem_invalid w c :
  itemControls (addRegion w) = Some c -> ~ validControls c ->
  pendingItems (dispatch addItem w) = pendingItems w /\
  addRegion (dispatch addItem w) = addRegion w /\
  notificationsOf (trace (dispatch addItem w)) = notificationsOf (trace w) ++ [missingFields].
Proof.
  intros Hc Hinvalid. unfold dispatch, addItem. rewrite bind_run.
  destruct (handleAddItem_cases w)
    as [[Hnone _] | [(c' & _ & _ & ->)
                    | [(c' & Hc' & Hv & _) | (c' & f & Hc' & Hv & _)]]];
    try congruence.
  pose proof (showNotification_effect "error" "Missing Fields"
    "Please select an **Asset**, **System**, and **Description**." w)
    as [(Hs & _ & _ & _ & Hadd & _) _].
  pose proof (showNotification_trace "error" "Missing Fields"
    "Please select an **Asset**, **System**, and **Description**." w) as (Hn & _).
  cbn zeta in Hn. rewrite bind_run.
  destruct (showNotification "error" "Missing Fields"
    "Please select an **Asset**, **System**, and **Description**." w);
    cbn in *; repeat split; assumption.
Qed.

(** The controls and the notifications a settled, successful chain
    leaves, on a page that still has its item controls. *)
Lemma addItemSettled_success_controls job payloads w c0 :
  promiseAll (fileToBase64 <$> jobFiles job) = inl payloads ->
  itemControls (addRegion w) = Some c0 ->
  let w' := dispatch (addItemSettled job) w in
  addRegion w'
  = {| itemControls := Some resetControls;
       photoInput := (fun _ => []) <$> photoInput (addRegion w);
       addItemButton := addItemButton (addRegion w) |} /\
  (partialScaffold (modal w) ->
   notificationsOf (trace w') = notificationsOf (trace w) ++ [itemAddedNote; photoError]) /\
  (~ partialScaffold (modal w) ->
   notificationsOf (trace w') = notificationsOf (trace w) ++ [itemAddedNote]).
Proof.
  intros Hall Hc0 w'.
  assert (w' = dispatch (addItemSettled job) w) as Hw' by reflexivity. clearbody w'.
  revert Hw'. unfold dispatch, addItemSettled. rewrite tryCatch_world, Hall.
  unfold addItemThen. rewrite bind_run. unfold modify at 1.
  set (w1 := setPendingItems _ w).
  rewrite !(bind_run renderPendingItems).
  pose proof (render_returns w1) as Hret.
  pose proof (render_effect w1) as (_ & _ & Hm & Ha & _ & _ & Hn & _).
  destruct (renderPendingItems w1) as [[] w2|]; [|discriminate].
  cbn [worldOf] in Hm, Ha, Hn.
  change (addRegion w1) with (addRegion w) in Ha.
  change (modal w1) with (modal w) in Hm.
  change (trace w1) with (trace w) in Hn.
  exec. rewrite Ha, Hc0.
  match goal with
  | |- context [showNotification ?a ?b ?c ?x] =>
      set (w3 := x);
      pose proof (showNotification_effect a b c w3) as [(_ & _ & _ & _ & Hadd & _) _];
      pose proof (showNotification_trace a b c w3) as (Hn3 & _);
      pose proof (showNotification_throws a b c w3) as Hthrows;
      pose proof (showNotification_returns a b c w3) as Hreturns;
      change (modal w3) with (modal w2) in Hthrows, Hreturns;
      change (trace w3) with (trace w2) in Hn3;
      change (addRegion w3)
        with {| itemControls := Some resetControls;
                photoInput := (fun _ => []) <$> photoInput (addRegion w2);
                addItemButton := addItemButton (addRegion w2) |} in Hadd;
      rewrite Hm in Hthrows, Hreturns; rewrite Hn in Hn3; rewrite Ha in Hadd;
      destruct (showNotification a b c w3) as [[] w4|e w4]
  end; cbn [worldOf returned] in *; intros ->.
  - split; [exact Hadd|]. split; [|intros _; exact Hn3].
    intros Hpartial. destruct (Hthrows Hpartial) as [Hfalse _]. discriminate.
  - destruct (addItemCatch_effect e w4) as ((_ & _ & _ & _ & Hadd' & _) & Hn' & _).
    split; [rewrite Hadd'; exact Hadd|]. split.
    + intros _. rewrite Hn', Hn3, <- app_assoc. reflexivity.
    + intros Hnot. specialize (Hreturns Hnot). discriminate.
Qed.

(** A click on the add button with valid controls and a file input starts
    the reads, and the chain settles on the world the click left. *)
Lemma add_click_runs_chain w c files :
  is_Some (itemControls (addRegion w)) ->
  is_Some (photoInput (addRegion w)) ->
  validControls c ->
  session [userFills c files; addItem] w
  = dispatch (addItemSettled {| jobControls := c; jobFiles := files |})
      (dispatch (userFills c files) w) /\
  itemControls (addRegion (dispatch (userFills c files) w)) = Some c /\
  photoInput (addRegion (dispatch (userFills c files) w)) = Some files.
Proof.
  intros [c0 Hc0] [f0 Hf0] Hv.
  set (w1 := dispatch (userFills c files) w).
  assert (itemControls (addRegion w1) = Some c) as Hc1
    by (subst w1; cbn; rewrite Hc0; reflexivity).
  assert (photoInput (addRegion w1) = Some files) as Hp1
    by (subst w1; cbn; rewrite Hf0; reflexivity).
  split; [|split; assumption].
  assert (handleAddItem w1 = Normal (Some {| jobControls := c; jobFiles := files |}) w1)
    as Hsync.
  { destruct (handleAddItem_cases w1)
      as [[Hn _] | [(c' & Hc' & Hinv & _)
                   | [(c' & _ & _ & Hp & _) | (c' & f' & Hc' & _ & Hp & ->)]]];
      congruence. }
  cbn [session foldl]. fold w1. unfold dispatch at 1, addItem.
  rewrite bind_run, Hsync. reflexivity.
Qed.

Lemma unreadable_rejects files :
  ~ Forall readable files -> exists error, promiseAll (fileToBase64 <$> files) = inr error.
Proof.
  intros Hnot. destruct (promiseAll (fileToBase64 <$> files)) as [payloads|error] eqn:Hall;
    [|eexists; reflexivity].
  exfalso. apply Hnot. apply promiseAll_inl in Hall.
  apply Forall_forall. intros f Hf.
  apply list_elem_of_lookup in Hf as [i Hi].
  apply (f_equal (fun l => l !! i)) in Hall.
  rewrite !list_lookup_fmap, Hi in Hall. cbn in Hall.
  destruct (payloads !! i) as [payload|]; [|discriminate].
  exists payload. injection Hall as ->. reflexivity.
Qed.

(** X10: after an add that went through, the six item controls are back
    at their defaults (quantity [1], the rest empty) and the file
    selection is cleared, so a second click without refilling is refused
    with the missing-fields notification and adds nothing; after an add
    that failed on an unreadable photo the controls and the selection are
    left as the user filled them. *)
Theorem controls_after_add (w : World) (c : ItemControls) (files : list File) :
  is_Some (itemControls (addRegion w)) ->
  is_Some (photoInput (addRegion w)) ->
  validControls c ->
  let w1 := session [userFills c files; addItem] w in
  (Forall readable files ->
   itemControls (addRegion w1) = Some resetControls /\
   photoInput (addRegion w1) = Some [] /\
   pendingItems (dispatch addItem w1) = pendingItems w1 /\
   notificationsOf (trace (dispatch addItem w1))
   = notificationsOf (trace w1) ++ [missingFields]) /\
  (~ Forall readable files ->
   itemControls (addRegion w1) = Some c /\
   photoInput (addRegion w1) = Some files /\
   pendingItems w1 = pendingItems w).
Proof.
  intros Hc Hp Hv w1. subst w1.
  destruct (add_click_runs_chain w c files Hc Hp Hv) as (-> & Hc1 & Hp1).
  set (w0 := dispatch (userFills c files) w) in *.
  split.
  - intros Hfiles.
    pose proof (addItemSettled_success_controls
                  {| jobControls := c; jobFiles := files |} (payloadsOf files) w0 c) as H.
    cbn [jobFiles] in H.
    rewrite (readable_reads files Hfiles), promiseAll_all_loaded in H.
    destruct (H eq_refl Hc1) as (Hadd & _).
    set (w1 := dispatch (addItemSettled {| jobControls := c; jobFiles := files |}) w0) in *.
    assert (itemControls (addRegion w1) = Some resetControls) as Hreset
      by (rewrite Hadd; reflexivity).
    split; [exact Hreset|].
    split; [rewrite Hadd; cbn [photoInput]; rewrite Hp1; reflexivity|].
    destruct (addItem_invalid w1 resetControls Hreset) as (Hs & _ & Hn).
    { intros (Hasset & _). apply Hasset. reflexivity. }
    split; assumption.
  - intros Hnot. destruct (unreadable_rejects files Hnot) as [error Herr].
    pose proof (addItemSettled_store {| jobControls := c; jobFiles := files |} w0) as H.
    cbn zeta in H. cbn [jobFiles] in H. rewrite Herr in H.
    destruct H as ((Hs & _ & _ & _ & Hadd & _) & _).
    rewrite Hadd, Hs. repeat split; assumption || reflexivity.
Qed.

(** The same on the started sample page, with a readable photo and with
    an unreadable one. *)
Lemma controls_after_add_witness :
  itemControls (addRegion (session [userFills pumpLeak [photoA]; addItem] readyPage))
  = Some resetControls /\
  itemControls (addRegion (session [userFills pumpLeak [photoBad]; addItem] readyPage))
  = Some pumpLeak.
Proof.
  assert (validControls pumpLeak) as Hv by (repeat split; discriminate).
  split.
  - apply (proj1 (controls_after_add readyPage pumpLeak [photoA]
                    (ex_intro _ _ eq_refl) (ex_intro _ _ eq_refl) Hv)).
    repeat constructor. eexists. reflexivity.
  - apply (proj2 (controls_after_add readyPage pumpLeak [photoBad]
                    (ex_intro _ _ eq_refl) (ex_intro _ _ eq_refl) Hv)).
    intros H. apply Forall_cons in H as [[payload Hread] _]. discriminate.
Defined.

(** X11: a valid add with readable photos always puts its item into the
    store and calls the success notification; when that call throws
    because the modal scaffold is partial, the [.catch] of the chain takes
    the exception for a failed photo: the photo-error notification is
    called as well, although no photo failed and the item stays in the
    store.  With the scaffold complete or absent the success notification
    is the only one. *)
Theorem add_reports_photo_error_on_partial_scaffold (w : World) (c : ItemControls)
    (files : list File) :
  is_Some (itemControls (addRegion w)) ->
  is_Some (photoInput (addRegion w)) ->
  validAdd (c, files) ->
  let w1 := session [userFills c files; addItem] w in
  pendingItems w1 = pendingItems w ++ [newItem c (payloadsOf files)] /\
  (partialScaffold (modal w) ->
   notificationsOf (trace w1) = notificationsOf (trace w) ++ [itemAddedNote; photoError]) /\
  (~ partialScaffold (modal w) ->
   notificationsOf (trace w1) = notificationsOf (trace w) ++ [itemAddedNote]).
Proof.
  intros Hc Hp [Hv Hfiles] w1. cbn [fst snd] in Hv, Hfiles.
  destruct (add_step w c files Hc Hp (conj Hv Hfiles)) as (Hstore & _).
  split; [exact Hstore|]. subst w1.
  destruct (add_click_runs_chain w c files Hc Hp Hv) as (-> & Hc1 & _).
  pose proof (addItemSettled_success_controls
                {| jobControls := c; jobFiles := files |} (payloadsOf files)
                (dispatch (userFills c files) w) c) as H.
  cbn [jobFiles] in H.
  rewrite (readable_reads files Hfiles), promiseAll_all_loaded in H.
  destruct (H eq_refl Hc1) as (_ & Hpartial & Hwhole).
  split; assumption.
Qed.

(** The same on the started page whose modal lacks its title, and on the
    started sample page. *)
Lemma add_reports_photo_error_on_partial_scaffold_witness :
  notificationsOf (trace (session [userFills pumpLeak [photoA]; addItem]
                            readyPageWithoutAlertTitle))
  = [itemAddedNote; photoError] /\
  notificationsOf (trace (session [userFills pumpLeak [photoA]; addItem] readyPage))
  = [itemAddedNote].
Proof.
  assert (validAdd (pumpLeak, [photoA])) as Hadd.
  { split; [repeat split; discriminate|]. repeat constructor. eexists. reflexivity. }
  split.
  - apply (proj1 (proj2 (add_reports_photo_error_on_partial_scaffold
                           readyPageWithoutAlertTitle pumpLeak [photoA]
                           (ex_intro _ _ eq_refl) (ex_intro _ _ eq_refl) Hadd))).
    eexists. split; [reflexivity|]. right. left. reflexivity.
  - apply (proj2 (proj2 (add_reports_photo_error_on_partial_scaffold
                           readyPage pumpLeak [photoA]
                           (ex_intro _ _ eq_refl) (ex_intro _ _ eq_refl) Hadd))).
    intros (content & Hcontent & Hcase). injection Hcontent as <-.
    destruct Hcase as [Hcase | [Hcase | Hcase]]; discriminate.
Defined.

(** X12: a click on the add button fails without a trace when an item
    control is missing, or when the controls are valid and the file input
    is missing: the handler throws before it has notified or changed
    anything, so the page is exactly as before.  With the file input
    missing and a required field empty the click is still answered with
    the missing-fields notification: the validation comes first. *)
Theorem add_click_fails_silently (w : World) :
  (itemControls (addRegion w) = None -> dispatch addItem w = w) /\
  (forall c,
      itemControls (addRegion w) = Some c -> validControls c ->
      photoInput (addRegion w) = None ->
      dispatch addItem w = w) /\
  (forall c,
      itemControls (addRegion w) = Some c -> ~ validControls c ->
      photoInput (addRegion w) = None ->
      notificationsOf (trace (dispatch addItem w))
      = notificationsOf (trace w) ++ [missingFields]).
Proof.
  split; [|split].
  - intros Hnone. unfold dispatch, addItem. rewrite bind_run.
    destruct (handleAddItem_cases w)
      as [[_ ->] | [(c' & Hc' & _) | [(c' & Hc' & _) | (c' & f & Hc' & _)]]];
      [reflexivity | congruence | congruence | congruence].
  - intros c Hc Hv Hp. unfold dispatch, addItem. rewrite bind_run.
    destruct (handleAddItem_cases w)
      as [[Hn _] | [(c' & Hc' & Hinv & _)
                   | [(c' & _ & _ & _ & ->) | (c' & f & _ & _ & Hp' & _)]]];
      [congruence | | reflexivity | congruence].
    rewrite Hc in Hc'. injection Hc' as <-. contradiction.
  - intros c Hc Hinvalid _. apply (addItem_invalid w c Hc Hinvalid).
Qed.

(** The same on the started sample page with its item controls, or its
    file input, taken away. *)
Lemma add_click_fails_silently_witness :
  dispatch addItem
    (setAddRegion {| itemControls := None; photoInput := Some []; addItemButton := Some 1 |}
       readyPage)
  = setAddRegion {| itemControls := None; photoInput := Some []; addItemButton := Some 1 |}
      readyPage /\
  dispatch addItem
    (setAddRegion {| itemControls := Some pumpLeak; photoInput := None;
                     addItemButton := Some 1 |} readyPage)
  = setAddRegion {| itemControls := Some pumpLeak; photoInput := None;
                    addItemButton := Some 1 |} readyPage.
Proof.
  split.
  - exact (proj1 (add_click_fails_silently
                    (setAddRegion {| itemControls := None; photoInput := Some [];
                                     addItemButton := Some 1 |} readyPage)) eq_refl).
  - refine (proj1 (proj2 (add_click_fails_silently
                            (setAddRegion {| itemControls := Some pumpLeak;
                                             photoInput := None;
                                             addItemButton := Some 1 |} readyPage)))
              pumpLeak eq_refl _ eq_refl).
    repeat split; discriminate.
Defined.

(** ** Further properties: a success shown as a failure *)

(** X13: when the modal scaffold is partial, a successful response still
    schedules both downloads, but the success notification throws and the
    [.catch] of the chain runs as for a failed request: the status line
    ends up reading [Submission Failed!], the banner gets [alert-danger]
    next to [alert-success], and the failure notification is called after
    the success one. *)
Theorem success_shown_as_failure (response : ResponseData) (w : World) (st : string)
    (a : Alert) :
  partialScaffold (modal w) ->
  status (submitRegion w) = Some st ->
  submission_alert (submitRegion w) = Some a ->
  let w' := dispatch (submitSettled (inl response)) w in
  status (submitRegion w') = Some "Submission Failed!" /\
  (exists b, submission_alert (submitRegion w') = Some b /\
             "alert-danger" ∈ classList b /\ "alert-success" ∈ classList b) /\
  notificationsOf (trace w')
  = notificationsOf (trace w) ++ [reportsGenerated; submissionFailed] /\
  timers (loop w') = timers (loop w) ++ [nextNode (loop w); S (nextNode (loop w))].
Proof.
  intros Hpartial Hst Ha w'.
  destruct (submitSettled_success_effect response w) as (Hloop & _).
  cbn zeta in Hloop. fold w' in Hloop.
  assert (w' = dispatch (submitSettled (inl response)) w) as Hw' by reflexivity.
  clearbody w'. revert Hw'.
  unfold dispatch, submitSettled. rewrite tryCatch_world.
  unfold submitThen, triggerDownload. exec.
  match goal with
  | |- context [showNotification ?x ?y ?z ?v] =>
      set (w1 := v);
      pose proof (showNotification_effect x y z w1) as [(_ & _ & _ & _ & _ & Hsub & _) _];
      pose proof (showNotification_trace x y z w1) as (Hn & _);
      pose proof (showNotification_throws x y z w1 Hpartial) as [Hret _];
      destruct (showNotification x y z w1) as [[] w2|e w2]; [discriminate|]
  end.
  cbn [worldOf] in *. intros ->.
  destruct (submitCatch_effect e w2) as (_ & _ & _ & Halert & Hstatus & Hn' & _).
  cbn zeta in *.
  rewrite Hstatus, Halert, Hn', Hn, Hsub, Hloop. subst w1. cbn. rewrite Hst, Ha. cbn.
  split; [reflexivity|]. split.
  - eexists. split; [reflexivity|]. cbn [classList]. split.
    + apply classListAdd_elem.
    + destruct (inTokens_true
                  (classListAdd "alert-danger"
                     (classListRemove ["alert-info"]
                        (classListAdd "alert-success"
                           (classListRemove ["alert-info"] (classList a)))))
                  "alert-success") as [Hin _].
      apply Hin. unfold classListAdd at 1.
      destruct (inTokens _ "alert-danger") eqn:Hd.
      * rewrite inTokens_remove. rewrite (proj2 (inTokens_true _ _) (classListAdd_elem _ _)).
        reflexivity.
      * apply inTokens_true, elem_of_app. left. apply inTokens_true.
        rewrite inTokens_remove. rewrite (proj2 (inTokens_true _ _) (classListAdd_elem _ _)).
        reflexivity.
  - split; [rewrite <- app_assoc; reflexivity | reflexivity].
Qed.

(** The same on the submitted page whose modal lacks its title. *)
Lemma success_shown_as_failure_witness :
  status (submitRegion
            (dispatch (submitSettled (inl fileUrls))
               (session [userSigns; onSubmit] readyPageWithoutAlertTitle)))
  = Some "Submission Failed!" /\
  timers (loop (dispatch (submitSettled (inl fileUrls))
                  (session [userSigns; onSubmit] readyPageWithoutAlertTitle)))
  = [0; 1].
Proof.
  assert (partialScaffold (modal (session [userSigns; onSubmit] readyPageWithoutAlertTitle)))
    as Hpartial.
  { eexists. split; [reflexivity|]. right. left. reflexivity. }
  pose proof (success_shown_as_failure fileUrls
                (session [userSigns; onSubmit] readyPageWithoutAlertTitle)
                "Submitting... Please wait."
                {| classList := ["alert"; "alert-info"];
                   textContent := "Report is being processed. This may take a moment..." |}
                Hpartial eq_refl eq_refl) as (H1 & _ & _ & H4).
  split; [exact H1 | exact H4].
Defined.

(** ** Further properties: what reaches the network and the downloads *)

Lemma quiet_refl w : quiet w w.
Proof. repeat split. Qed.

Lemma quiet_trans w1 w2 w3 : quiet w1 w2 -> quiet w2 w3 -> quiet w1 w3.
Proof.
  intros (H1 & H2 & H3) (H4 & H5 & H6). unfold quiet.
  rewrite H4, H5, H6. repeat split; assumption.
Qed.

Lemma showNotification_quiet type title message w :
  quiet w (worldOf (showNotification type title message w)).
Proof.
  destruct (showNotification_effect type title message w) as [(_ & _ & _ & _ & _ & _ & Hl) _].
  destruct (showNotification_trace type title message w) as (_ & Hp & Hc).
  repeat split; assumption.
Qed.

Lemma render_quiet w : quiet w (worldOf (renderPendingItems w)).
Proof.
  destruct (render_effect w) as (_ & _ & _ & _ & _ & Hl & _ & Hp & Hc).
  repeat split; assumption.
Qed.

Lemma console_quiet text w : quiet w (setTrace (trace w ++ [ConsoleError text]) w).
Proof.
  unfold quiet. cbn. rewrite postsOf_app, clicksOf_app. cbn. rewrite !app_nil_r.
  repeat split.
Qed.

Lemma handleAddItem_quiet w : quiet w (worldOf (handleAddItem w)).
Proof.
  destruct (handleAddItem_cases w)
    as [[_ ->] | [(c & _ & _ & ->) | [(c & _ & _ & _ & ->) | (c & f & _ & _ & _ & ->)]]];
    try apply quiet_refl.
  rewrite notify_then_none_world. apply showNotification_quiet.
Qed.

Lemma addItemCatch_quiet e w : quiet w (worldOf (addItemCatch e w)).
Proof.
  unfold addItemCatch. rewrite bind_run. unfold emit, modify.
  eapply quiet_trans; [apply console_quiet | apply showNotification_quiet].
Qed.

Lemma addItemSettled_quiet job w : quiet w (dispatch (addItemSettled job) w).
Proof.
  unfold dispatch, addItemSettled. rewrite tryCatch_world.
  destruct (promiseAll (fileToBase64 <$> jobFiles job)) as [payloads|error];
    [|unfold throw; apply addItemCatch_quiet].
  assert (quiet w (worldOf (addItemThen job payloads w))) as Hthen.
  { unfold addItemThen. rewrite bind_run. unfold modify at 1.
    set (w1 := setPendingItems _ w).
    rewrite bind_run.
    pose proof (render_returns w1) as Hret.
    pose proof (render_quiet w1) as Hq.
    destruct (renderPendingItems w1) as [[] w2|]; [|discriminate]. cbn [worldOf] in Hq.
    exec.
    destruct (itemControls (addRegion w2)) as [c|]; [|exact Hq].
    eapply quiet_trans; [exact Hq|].
    match goal with
    | |- quiet w2 (worldOf (showNotification ?a ?b ?c ?x)) =>
        exact (showNotification_quiet a b c x)
    end. }
  destruct (addItemThen job payloads w) as [[] w1|e w1]; cbn [worldOf] in Hthen;
    [exact Hthen|].
  eapply quiet_trans; [exact Hthen | apply addItemCatch_quiet].
Qed.

Lemma clickRemove_quiet k w : quiet w (dispatch (clickRemove k) w).
Proof.
  unfold dispatch, clickRemove. rewrite bind_run. unfold get.
  destruct (default [] (pendingItemsList (listRegion w)) !! k) as [[d|r|]|];
    try apply quiet_refl.
  unfold removeClick. rewrite bind_run. unfold modify.
  match goal with
  | |- quiet w (worldOf (renderPendingItems ?x)) => exact (render_quiet x)
  end.
Qed.

Lemma domContentLoaded_quiet w : quiet w (dispatch domContentLoaded w).
Proof.
  unfold dispatch, domContentLoaded. exec.
  destruct (techSignaturePad (pads w)), (opManSignaturePad (pads w)),
    (initializeDropdowns w);
    match goal with
    | |- quiet w (worldOf (renderPendingItems ?x)) =>
        destruct (render_quiet x) as (Hl & Hp & Hc)
    end;
    unfold quiet; rewrite Hl, Hp, Hc; cbn; rewrite postsOf_app, clicksOf_app; cbn;
    rewrite !app_nil_r; repeat split.
Qed.

Lemma userFills_quiet c files w : quiet w (dispatch (userFills c files) w).
Proof. repeat split. Qed.

Lemma userSigns_quiet w : quiet w (dispatch userSigns w).
Proof. repeat split. Qed.

Lemma onSubmit_posts w :
  postsOf (trace (dispatch onSubmit w)) = postsOf (trace w) \/
  exists body,
    postsOf (trace (dispatch onSubmit w)) = postsOf (trace w) ++ [("/submit-report", body)].
Proof.
  unfold dispatch.
  onSubmit_cases w; rewrite <- ?app_assoc, postsOf_app; cbn;
    first [ left; apply app_nil_r | right; eexists; reflexivity ].
Qed.

(** One event adds at most one request, and only a submit adds one. *)
Lemma step_posts p a :
  exists new,
    postsOf (trace (world (step p a))) = postsOf (trace (world p)) ++ new /\
    length new <= submits [a] /\
    Forall (fun r => r.1 = "/submit-report") new.
Proof.
  assert (forall w', quiet (world p) w' ->
            exists new, postsOf (trace w') = postsOf (trace (world p)) ++ new /\
                        length new <= submits [a] /\
                        Forall (fun r => r.1 = "/submit-report") new) as Hquiet.
  { intros w' (_ & Hp & _). exists []. rewrite app_nil_r.
    split; [exact Hp|]. split; [cbn; lia | constructor]. }
  destruct a as [|c files| | |n|k| |result|]; cbn [step onWorld world].
  - apply Hquiet, domContentLoaded_quiet.
  - apply Hquiet, userFills_quiet.
  - apply Hquiet, userSigns_quiet.
  - pose proof (handleAddItem_quiet (world p)) as Hq.
    destruct (handleAddItem (world p)) as [[job|] w|e w]; apply Hquiet, Hq.
  - destruct (pendingAdds p !! n) as [job|]; cbn [world];
      [apply Hquiet, addItemSettled_quiet | apply Hquiet, quiet_refl].
  - apply Hquiet, clickRemove_quiet.
  - destruct (onSubmit_posts (world p)) as [Hsame | [body Hone]].
    + exists []. rewrite app_nil_r. split; [exact Hsame|]. split; [cbn; lia | constructor].
    + exists [("/submit-report", body)]. split; [exact Hone|].
      split; [cbn; lia | repeat constructor].
  - exists []. rewrite app_nil_r. split; [apply submitSettled_frame|].
    split; [cbn; lia | constructor].
  - exists []. rewrite app_nil_r. split; [apply runTimer_frame|].
    split; [cbn; lia | constructor].
Qed.

Lemma submits_cons a actions : submits (a :: actions) = submits [a] + submits actions.
Proof. unfold submits. cbn. destruct a; reflexivity. Qed.

(** X14: whatever happens on the page, the only requests ever issued are
    POSTs to [/submit-report], and there are at most as many of them as the
    form was submitted: no other handler reaches the network, and a failed
    request is never repeated by the script. *)
Theorem requests_only_from_submits (actions : list Action) (p : Runtime) :
  exists new,
    postsOf (trace (world (run actions p))) = postsOf (trace (world p)) ++ new /\
    length new <= submits actions /\
    Forall (fun r => r.1 = "/submit-report") new.
Proof.
  revert p. induction actions as [|a actions IH]; intros p.
  - exists []. rewrite app_nil_r. split; [reflexivity|]. split; [cbn; lia | constructor].
  - destruct (step_posts p a) as (new1 & H1 & Hlen1 & Hurl1).
    destruct (IH (step p a)) as (new2 & H2 & Hlen2 & Hurl2).
    exists (new1 ++ new2). cbn [run foldl]. fold (run actions (step p a)).
    rewrite H2, H1, <- app_assoc. split; [reflexivity|]. split.
    + rewrite length_app, submits_cons. lia.
    + apply Forall_app. split; assumption.
Qed.

Lemma filter_absent links id :
  id ∉ (fst <$> links) ->
  List.filter (fun p : nat * Anchor => negb (Nat.eqb p.1 id)) links = links.
Proof.
  induction links as [|[id' a] links IH]; intros Hnotin; [reflexivity|].
  cbn [fmap list_fmap fst] in Hnotin. apply not_elem_of_cons in Hnotin as [Hne Hrest].
  cbn [List.filter fst]. destruct (Nat.eqb_spec id' id) as [->|_]; [contradiction|].
  cbn [negb]. rewrite IH by exact Hrest. reflexivity.
Qed.

(** One event keeps the anchors in step with the timers, and only a
    firing timer activates a download. *)
Lemma step_anchors p a :
  anchorsAwaitTimers (loop (world p)) ->
  anchorsAwaitTimers (loop (world (step p a))) /\
  exists new,
    clicksOf (trace (world (step p a))) = clicksOf (trace (world p)) ++ new /\
    length new + length (timers (loop (world (step p a))))
    = length (timers (loop (world p))) + 2 * successes [a] /\
    Forall (fun c => c.2 ∈ reportNames) new.
Proof.
  intros Hinv.
  assert (forall w', loop w' = loop (world p) ->
            clicksOf (trace w') = clicksOf (trace (world p)) ->
            successes [a] = 0 ->
            anchorsAwaitTimers (loop w') /\
            exists new,
              clicksOf (trace w') = clicksOf (trace (world p)) ++ new /\
              length new + length (timers (loop w'))
              = length (timers (loop (world p))) + 2 * successes [a] /\
              Forall (fun c => c.2 ∈ reportNames) new) as Hquiet.
  { intros w' Hl Hc Hzero. rewrite Hl, Hzero. split; [exact Hinv|].
    exists []. rewrite app_nil_r. split; [exact Hc|]. split; [cbn; lia | constructor]. }
  destruct a as [|c files| | |n|k| |result|]; cbn [step onWorld world].
  - apply Hquiet; [apply domContentLoaded_quiet | apply domContentLoaded_quiet | reflexivity].
  - apply Hquiet; reflexivity.
  - apply Hquiet; reflexivity.
  - pose proof (handleAddItem_quiet (world p)) as (Hl & _ & Hc).
    destruct (handleAddItem (world p)) as [[job|] w|e w]; apply Hquiet;
      solve [exact Hl | exact Hc | reflexivity].
  - destruct (pendingAdds p !! n) as [job|]; cbn [world].
    + apply Hquiet; [apply addItemSettled_quiet | apply addItemSettled_quiet | reflexivity].
    + apply Hquiet; reflexivity.
  - apply Hquiet; [apply clickRemove_quiet | apply clickRemove_quiet | reflexivity].
  - destruct (onSubmit_frame (world p)) as (_ & _ & _ & _ & Hl & _ & Hc & _).
    apply Hquiet; [exact Hl | exact Hc | reflexivity].
  - destruct result as [response|error].
    + destruct (submitSettled_success_effect response (world p)) as (Hl & Hc & _).
      cbn zeta in Hl, Hc. rewrite Hl.
      destruct Hinv as (Hfst & Hnd & Hlt & Hnames).
      unfold anchorsAwaitTimers. cbn [bodyLinks timers nextNode]. split.
      * split; [|split; [|split]].
        -- rewrite fmap_app, Hfst. reflexivity.
        -- apply NoDup_app. split; [exact Hnd|]. split.
           ++ intros id Hin Hin'.
              pose proof (proj1 (Forall_forall _ _) Hlt id Hin) as Hid. cbn in Hid.
              apply elem_of_cons in Hin' as [->|Hin']; [lia|].
              apply list_elem_of_singleton in Hin'. lia.
           ++ apply NoDup_cons. split; [|apply NoDup_singleton].
              intros Hin. apply list_elem_of_singleton in Hin. lia.
        -- apply Forall_app. split.
           ++ eapply Forall_impl; [exact Hlt|]. intros id Hid. cbn in Hid. lia.
           ++ repeat constructor; lia.
        -- apply Forall_app. split; [exact Hnames|].
           repeat constructor.
      * exists []. rewrite app_nil_r. split; [exact Hc|].
        split; [rewrite length_app; reflexivity | constructor].
    + unfold dispatch, submitSettled. rewrite tryCatch_world. unfold throw.
      destruct (submitCatch_effect (RequestFailure error) (world p))
        as (_ & Hl & _ & _ & _ & _ & _ & Hc).
      apply Hquiet; [exact Hl | exact Hc | reflexivity].
  - pose proof Hinv as (Hfst & Hnd & Hlt & Hnames).
    destruct (timers (loop (world p))) as [|id rest] eqn:Ht.
    + assert (dispatch runTimer (world p) = world p) as ->.
      { unfold dispatch, runTimer. exec. rewrite Ht. reflexivity. }
      rewrite Ht. split; [exact Hinv|].
      exists []. rewrite app_nil_r. split; [reflexivity|]. split; [reflexivity | constructor].
    + destruct (bodyLinks (loop (world p))) as [|[id' link] links] eqn:Hb;
        [discriminate|].
      cbn [fmap list_fmap fst] in Hfst. injection Hfst as -> Hrest.
      apply NoDup_cons in Hnd as [Hnotin Hnd].
      apply Forall_cons in Hlt as [_ Hlt].
      apply Forall_cons in Hnames as [Hname Hnames].
      rewrite (runTimer_fires (world p) id rest link Ht).
      2:{ rewrite Hb. unfold findLink. cbn. rewrite Nat.eqb_refl. reflexivity. }
      rewrite Hb. cbn [List.filter fst]. rewrite Nat.eqb_refl. cbn [negb].
      rewrite filter_absent by (rewrite Hrest; exact Hnotin).
      cbn [loop setLoop setTrace trace bodyLinks timers nextNode]. split.
      * repeat split; assumption.
      * exists [(href link, download link)]. rewrite clicksOf_app.
        split; [reflexivity|]. split; [cbn; lia|].
        apply Forall_singleton. exact Hname.
Qed.

Lemma successes_cons a actions :
  successes (a :: actions) = successes [a] + successes actions.
Proof. unfold successes. cbn. destruct a as [| | | | | | |[?|?]|]; reflexivity. Qed.

Lemma run_anchors actions : forall p,
  anchorsAwaitTimers (loop (world p)) ->
  anchorsAwaitTimers (loop (world (run actions p))) /\
  exists new,
    clicksOf (trace (world (run actions p))) = clicksOf (trace (world p)) ++ new /\
    length new + length (timers (loop (world (run actions p))))
    = length (timers (loop (world p))) + 2 * successes actions /\
    Forall (fun c => c.2 ∈ reportNames) new.
Proof.
  induction actions as [|a actions IH]; intros p Hinv.
  - split; [exact Hinv|]. exists []. rewrite app_nil_r.
    split; [reflexivity|]. split; [cbn; lia | constructor].
  - destruct (step_anchors p a Hinv) as (Hinv1 & new1 & Hc1 & Hlen1 & Hn1).
    destruct (IH (step p a) Hinv1) as (Hinv2 & new2 & Hc2 & Hlen2 & Hn2).
    cbn [run foldl]. fold (run actions (step p a)).
    split; [exact Hinv2|]. exists (new1 ++ new2).
    rewrite Hc2, Hc1, <- app_assoc. split; [reflexivity|]. split.
    + rewrite length_app, successes_cons. lia.
    + apply Forall_app. split; assumption.
Qed.

(** X15: on a page that starts without temporary anchors and timers, after
    any run of events the anchors in the body are exactly those whose
    timers have not fired yet, so none is left behind once the timers have
    run; each successful response accounts for exactly two downloads,
    activated or still waiting in a timer, nothing else activates one, and
    every activation suggests one of the two report names. *)
Theorem anchors_await_timers (actions : list Action) (w : World) :
  bodyLinks (loop w) = [] ->
  timers (loop w) = [] ->
  let w' := world (run actions (justLoaded w)) in
  fst <$> bodyLinks (loop w') = timers (loop w') /\
  (timers (loop w') = [] -> bodyLinks (loop w') = []) /\
  exists new,
    clicksOf (trace w') = clicksOf (trace w) ++ new /\
    length new + length (timers (loop w')) = 2 * successes actions /\
    Forall (fun c => c.2 ∈ reportNames) new.
Proof.
  intros Hb Ht w'.
  destruct (run_anchors actions (justLoaded w)) as ((Hfst & _) & new & Hc & Hlen & Hn).
  { cbn [justLoaded world]. unfold anchorsAwaitTimers. rewrite Hb, Ht.
    repeat split; constructor. }
  fold w' in Hfst, Hc, Hlen. cbn [justLoaded world] in Hc, Hlen. rewrite Ht in Hlen.
  split; [exact Hfst|]. split.
  - intros Hnone. rewrite Hnone in Hfst. destruct (bodyLinks (loop w')); [reflexivity|].
    discriminate.
  - exists new. split; [exact Hc|]. split; [exact Hlen | exact Hn].
Qed.

(** The same on the sample page, for a run with two successful responses
    and three timers fired. *)
Lemma anchors_await_timers_witness :
  fst <$> bodyLinks (loop (world (run [PageLoads; UserSigns; Submitted;
                                       RequestSettles (inl fileUrls); TimerFires;
                                       Submitted; RequestSettles (inl fileUrls);
                                       TimerFires; TimerFires]
                                    (justLoaded samplePage))))
  = [3].
Proof.
  exact (proj1 (anchors_await_timers
                  [PageLoads; UserSigns; Submitted; RequestSettles (inl fileUrls);
                   TimerFires; Submitted; RequestSettles (inl fileUrls);
                   TimerFires; TimerFires]
                  samplePage eq_refl eq_refl)).
Defined.

(** ** Further properties: the quantity *)

Lemma fold_digits_append l : forall acc rest,
  (fold_left (fun s d => String (digitChar d) s) l acc +:+ rest)%string
  = fold_left (fun s d => String (digitChar d) s) l (acc +:+ rest)%string.
Proof.
  induction l as [|d l IH]; intros acc rest; [reflexivity|].
  cbn [fold_left]. rewrite IH. reflexivity.
Qed.

(** A numeral followed by [rest] begins with a digit, and goes on with
    [rest] or with another digit. *)
Lemma numeral_shape l : forall rest,
  l <> [] -> Forall isDigit l ->
  exists d r,
    fold_left (fun s d => String (digitChar d) s) l rest = String (digitChar d) r /\
    isDigit d /\
    (r = rest \/ exists d' r', r = String (digitChar d') r' /\ isDigit d').
Proof.
  induction l as [|d l IH]; intros rest Hne Hl; [contradiction|].
  apply Forall_cons in Hl as [Hd Hl]. cbn [fold_left].
  destruct l as [|d2 l].
  - exists d, rest. cbn. auto.
  - destruct (IH (String (digitChar d) rest)) as (d0 & r & Heq & Hd0 & Hr);
      [discriminate | exact Hl |].
    exists d0, r. split; [exact Heq|]. split; [exact Hd0|].
    destruct Hr as [-> | Hr]; [|right; exact Hr].
    right. exists d, rest. auto.
Qed.

Ltac digit_split H :=
  apply isDigit_cases in H;
  repeat (destruct H as [H | H]); subst.

(** [parseInt] on text that begins with a digit and does not go on with
    a letter: nothing is skipped, the radix is 10. *)
Lemma parseInt_from_digit d r (neg : bool) :
  isDigit d ->
  (stopsNumber r \/ exists d' r', r = String (digitChar d') r' /\ isDigit d') ->
  parseInt ((if neg then "-" else "") +:+ String (digitChar d) r)
  = match scanDigits 10 (String (digitChar d) r) false 0 with
    | None => NaN
    | Some v => Num (if neg then - v else v)
    end.
Proof.
  intros Hd Hr.
  destruct Hr as [Hstop | (d' & r' & -> & Hd')].
  - destruct r as [|c r'].
    + destruct neg; digit_split Hd; reflexivity.
    + cbn in Hstop.
      destruct c as [b0 b1 b2 b3 b4 b5 b6 b7].
      destruct neg; digit_split Hd; try reflexivity;
        destruct b0, b1, b2, b3, b4, b5, b6, b7;
        first [ discriminate Hstop | reflexivity ].
  - destruct neg; digit_split Hd; try reflexivity; digit_split Hd'; reflexivity.
Qed.

Lemma scanDigits_stop rest v :
  stopsNumber rest -> scanDigits 10 rest true v = Some v.
Proof.
  destruct rest as [|c r]; [reflexivity|]. cbn. intros ->. reflexivity.
Qed.

(** The leading numeral is what [parseInt] reads. *)
Lemma parseInt_numeral (n : Z) (rest : string) (neg : bool) :
  (0 <= n)%Z -> stopsNumber rest ->
  parseInt ((if neg then "-" else "") +:+ natToString n +:+ rest)
  = Num (if neg then - n else n).
Proof.
  intros Hn Hstop. unfold natToString, digitsToString.
  set (l := digitsLE (S (Z.to_nat (Z.log2 n + 1))) n).
  assert (Forall isDigit l) as Hl by apply digitsLE_isDigit.
  assert (l <> []) as Hne by (subst l; rewrite digitsLE_S; discriminate).
  rewrite fold_digits_append. change (String.append EmptyString rest) with rest.
  destruct (numeral_shape l rest Hne Hl) as (d & r & Heq & Hd & Hr).
  rewrite Heq. rewrite parseInt_from_digit; [|exact Hd|].
  2:{ destruct Hr as [-> | Hr]; [left; exact Hstop | right; exact Hr]. }
  rewrite <- Heq. rewrite scanDigits_fold by exact Hl.
  rewrite bool_decide_eq_false_2 by exact Hne. cbn [orb negb].
  rewrite scanDigits_stop by exact Hstop.
  subst l. rewrite digitsLE_value by (apply log2_fuel; exact Hn).
  replace (0 * 10 ^ Z.of_nat (length (digitsLE (S (Z.to_nat (Z.log2 n + 1))) n)) + n)%Z
    with n by lia.
  reflexivity.
Qed.

(** X16: the quantity of an added item is the whole number the input
    begins with: for an input made of a decimal numeral [n] that is a safe
    integer (at most 2^53 - 1, so that the script's number holds it
    exactly), with or without a minus sign, followed by nothing or by text
    starting with a character that is neither a digit nor a letter (a
    decimal point, a blank), the stored quantity is [n] with its sign, and
    1 when [n] is zero.  So [12], [12.9] and [12 pcs] all store 12. *)
Theorem typed_quantity_is_stored (c : ItemControls) (n : Z) (rest : string)
    (payloads : list string) :
  (0 <= n <= MAX_SAFE_INTEGER)%Z ->
  stopsNumber rest ->
  (quantityInput c = natToString n +:+ rest ->
   quantity (newItem c payloads) = if (n =? 0)%Z then 1%Z else n) /\
  (quantityInput c = "-" +:+ natToString n +:+ rest ->
   quantity (newItem c payloads) = if (n =? 0)%Z then 1%Z else (- n)%Z).
Proof.
  intros [Hn _] Hstop. split; intros Hq; cbn [newItem quantity]; rewrite Hq.
  - replace (parseInt (natToString n +:+ rest)) with (Num n)
      by (symmetry; exact (parseInt_numeral n rest false Hn Hstop)).
    reflexivity.
  - replace (parseInt ("-" +:+ natToString n +:+ rest)) with (Num (- n))
      by (symmetry; exact (parseInt_numeral n rest true Hn Hstop)).
    cbn [orNumber].
    destruct (Z.eqb_spec n 0) as [->|Hne]; [reflexivity|].
    destruct (Z.eqb_spec (- n) 0); [lia | reflexivity].
Qed.

(** The same for the inputs [12.9] and [-4 pcs], and for the largest safe
    integer. *)
Lemma typed_quantity_is_stored_witness :
  quantity (newItem (withQuantity "12.9") []) = 12%Z /\
  quantity (newItem (withQuantity "-4 pcs") []) = (-4)%Z /\
  quantity (newItem (withQuantity "9007199254740991") []) = 9007199254740991%Z.
Proof.
  split; [|split].
  - exact (proj1 (typed_quantity_is_stored (withQuantity "12.9") 12 ".9" []
                    ltac:(unfold MAX_SAFE_INTEGER; lia) eq_refl) eq_refl).
  - exact (proj2 (typed_quantity_is_stored (withQuantity "-4 pcs") 4 " pcs" []
                    ltac:(unfold MAX_SAFE_INTEGER; lia) eq_refl) eq_refl).
  - exact (proj1 (typed_quantity_is_stored (withQuantity "9007199254740991")
                    9007199254740991 "" []
                    ltac:(unfold MAX_SAFE_INTEGER; lia) I) eq_refl).
Defined.

(** ** Further properties: start-up *)

(** X17: on a page that has the list container and the placeholder
    element, wherever the placeholder sits and whatever the container
    holds, [DOMContentLoaded] leaves the container holding the placeholder
    alone, displayed as a block, and no row; the store stays empty; the
    add button gets one more click listener; and the console gets nothing
    but the warning about the dropdown initialiser, and that only when the
    initialiser is not defined (otherwise it is called). *)
Theorem startup_shows_placeholder (w : World) (children : list Child) (inside : bool)
    (d : string) :
  pendingItems w = [] ->
  pendingItemsList (listRegion w) = Some children ->
  getEmptyListMessage (listRegion w) = Some (inside, d) ->
  let w' := dispatch domContentLoaded w in
  pendingItemsList (listRegion w') = Some [Placeholder "block"] /\
  rowsOf w' = [] /\
  pendingItems w' = [] /\
  addItemButton (addRegion w') = S <$> addItemButton (addRegion w) /\
  trace w'
  = trace w
    ++ [if initializeDropdowns w then DropdownsInitialized
        else ConsoleWarn
               "Dropdown initialization function (initializeDropdowns) not found."].
Proof.
  intros Hempty Hl He w'. subst w'. unfold dispatch, domContentLoaded. exec.
  destruct (techSignaturePad (pads w)), (opManSignaturePad (pads w)),
    (initializeDropdowns w);
    match goal with
    | |- context [renderPendingItems ?x] =>
        rewrite (render_found x children inside d Hl He);
        change (pendingItems x) with (pendingItems w)
    end;
    rewrite Hempty;
    repeat match goal with |- _ /\ _ => split end;
    try reflexivity; exact Hempty.
Qed.

(** The same on the sample page and on a page whose placeholder sits
    outside a container that holds other markup. *)
Lemma startup_shows_placeholder_witness :
  pendingItemsList (listRegion (dispatch domContentLoaded samplePage))
  = Some [Placeholder "block"] /\
  pendingItemsList
    (listRegion
       (dispatch domContentLoaded
          (scriptLoaded true true false sampleModal
             {| pendingItemsList := Some [Foreign; Foreign];
                emptyListMessage := Some "none" |}
             sampleAdd sampleSubmit)))
  = Some [Placeholder "block"].
Proof.
  split.
  - exact (proj1 (startup_shows_placeholder samplePage [Placeholder ""] true ""
                    eq_refl eq_refl eq_refl)).
  - exact (proj1 (startup_shows_placeholder
                    (scriptLoaded true true false sampleModal
                       {| pendingItemsList := Some [Foreign; Foreign];
                          emptyListMessage := Some "none" |}
                       sampleAdd sampleSubmit)
                    [Foreign; Foreign] false "none" eq_refl eq_refl eq_refl)).
Defined.
